(** * Cleaning pipeline of the Madrid weather data set

    A shallow embedding of [limpieza_datos_clima.py] and of the part of the
    pandas API that the module calls.

    - [Py]       : Python values, exceptions, string and number formatting.
    - [Pd]       : the pandas data frame, column oriented as in pandas, with
                   the methods the cleaning module uses.
    - [Limpieza] : the functions of [limpieza_datos_clima.py], one
                   definition per Python function, same names.
    - [Mut]      : the same functions over a store of data frame objects,
                   where [copy] allocates and the in-place methods update,
                   used for the statements about aliasing.
    - [Tablas]   : the vocabulary of the statements.
    - [Ejemplos] : the tables of the unit tests and a few single rows.
    - [Recolector] : the table that the collector builds.
    - [Fechas]   : the vocabulary of the statements on dates and hours.
    - [Muestras] : further sample tables.

    The properties follow: the translators, the removal of duplicates, the
    shape of the clean table, calm wind, the outlier detector, the
    end-to-end example, and the absence of mutation of the argument; then
    the edges of each function and the way the functions compose. *)

From Stdlib Require Import ZArith QArith Qcanon Lia Ascii String DecimalString.
From stdpp Require Import base numbers strings sets list.

(** ** Python values *)

Module Py.

(** The exceptions that the modelled code can raise.  [NotModelled]
    marks an input on which the model of a library function is silent: a
    spelling of a date or of a number that the library may well accept
    but that is not described here.  Nothing is stated about Python on
    such an input. *)
Inductive exn :=
| KeyError (key : string)
| ValueError
| TypeError
| IndexError
| NotModelled.

Inductive result (A : Type) :=
| Ok (a : A)
| Raise (e : exn).
Arguments Ok {A} a.
Arguments Raise {A} e.

Global Instance result_ret : MRet result := λ A a, Ok a.
Global Instance result_bind : MBind result := λ A B f m,
  match m with Ok a => f a | Raise e => Raise e end.
Global Instance result_fmap : FMap result := λ A B f m,
  match m with Ok a => Ok (f a) | Raise e => Raise e end.

Definition is_Ok {A : Type} (r : result A) : Prop :=
  match r with Ok _ => True | Raise _ => False end.

(** [pandas.Timestamp]: a calendar date and a time of day. *)
Record timestamp := mkTs {
  ts_year : Z; ts_month : Z; ts_day : Z;
  ts_hour : Z; ts_minute : Z; ts_second : Z
}.

(** A cell of a table.  [VNull] is the missing value ([None], [NaN],
    [NaT]); a finite float is the rational it denotes. *)
Inductive value :=
| VNull
| VStr (s : string)
| VInt (z : Z)
| VFloat (q : Qc)
| VTime (t : timestamp).

Global Instance exn_eq_dec : EqDecision exn.
Proof. solve_decision. Defined.
Global Instance timestamp_eq_dec : EqDecision timestamp.
Proof. solve_decision. Defined.
Global Instance value_eq_dec : EqDecision value.
Proof. solve_decision. Defined.
Global Instance result_eq_dec {A : Type} `{EqDecision A} : EqDecision (result A).
Proof. solve_decision. Defined.

(** [pandas.isna] *)
Definition isna (v : value) : bool :=
  match v with VNull => true | _ => false end.

(** A [dict] literal with string keys. *)
Fixpoint dict_get {V : Type} (d : list (string * V)) (k : string) : option V :=
  match d with
  | [] => None
  | (k', v) :: d' => if decide (k = k') then Some v else dict_get d' k
  end.

(** *** Strings *)

Definition ascii_lower (c : ascii) : ascii :=
  let n := nat_of_ascii c in
  if (65 <=? n)%nat && (n <=? 90)%nat then ascii_of_nat (n + 32) else c.

(** [str.lower] on ASCII text. *)
Fixpoint str_lower (s : string) : string :=
  match s with
  | EmptyString => EmptyString
  | String c s' => String (ascii_lower c) (str_lower s')
  end.

Definition is_digit (c : ascii) : bool :=
  let n := nat_of_ascii c in (48 <=? n)%nat && (n <=? 57)%nat.

(** [int(s)] for a non-empty string of decimal digits. *)
Definition digits (s : string) : option Z :=
  Z.of_uint <$> NilZero.uint_of_string s.

(** [str(n)] for [0 <= n]. *)
Definition str_of_nonneg (z : Z) : string :=
  match z with
  | Z0 => "0"
  | _ => NilZero.string_of_uint (N.to_uint (Z.to_N z))
  end.

(** [str.zfill] *)
Definition zfill (width : nat) (s : string) : string :=
  String.concat "" (replicate (width - String.length s) "0") +:+ s.

(** [format(z, "02d")] and its siblings: sign, then zero padding up to
    [width] characters, sign included. *)
Definition format_d (width : nat) (z : Z) : string :=
  if (z <? 0)%Z then "-" +:+ zfill (width - 1) (str_of_nonneg (- z))
  else zfill width (str_of_nonneg z).

(** [s.split(sep)] for a one-character separator. *)
Fixpoint split_on (sep : ascii) (s : string) : list string :=
  match s with
  | EmptyString => [EmptyString]
  | String c s' =>
      if decide (c = sep) then EmptyString :: split_on sep s'
      else match split_on sep s' with
           | [] => [String c EmptyString]
           | w :: ws => String c w :: ws
           end
  end.

(** *** Floats

    A float is a double.  [float(s)] for a decimal literal, an optional
    sign, digits, and an optional fractional part, is the double nearest to
    the number that the literal spells.  Other spellings that Python
    accepts (exponents, [inf], [nan], surrounding blanks) are outside the
    model, and so is a number beyond the largest double. *)

(** The integer nearest to [n / d], for [0 < d]; of two nearest ones, the
    even one. *)
Definition round_half_even (n d : Z) : Z :=
  let q := (n / d)%Z in
  match (2 * (n mod d) ?= d)%Z with
  | Lt => q
  | Gt => (q + 1)%Z
  | Eq => if Z.even q then q else (q + 1)%Z
  end.

(** The double nearest to a rational, as IEEE 754 rounds: 53 significant
    bits, ties to the even significand, the spacing of the subnormal
    numbers below [2 ^ -1022].  There is none from [2 ^ 1024] on, where
    Python answers [inf] or raises [OverflowError]. *)
Definition nearest_double (q : Q) : option Qc :=
  let n := Z.abs (Qnum q) in
  let d := Z.pos (Qden q) in
  if (n =? 0)%Z then Some (Q2Qc 0)
  else
    let e0 := (Z.log2 n - Z.log2 d)%Z in
    let e := if (n * 2 ^ Z.max 0 (- e0) <? d * 2 ^ Z.max 0 e0)%Z
             then (e0 - 1)%Z else e0 in
    let k := (Z.max e (-1022) - 52)%Z in
    let m := round_half_even (n * 2 ^ Z.max 0 (- k)) (d * 2 ^ Z.max 0 k) in
    if (2 ^ 1024 <=? m * 2 ^ Z.max 0 k)%Z then None
    else Some (Q2Qc (Qmake (Z.sgn (Qnum q) * m * 2 ^ Z.max 0 k)
                       (Z.to_pos (2 ^ Z.max 0 (- k))))).

Definition digits_or_zero (s : string) : option Z :=
  if decide (s = EmptyString) then Some 0%Z else digits s.

Definition parse_unsigned (s : string) : option Q :=
  match split_on "." s with
  | [i] => inject_Z <$> digits i
  | [i; f] =>
      if decide (i = EmptyString ∧ f = EmptyString) then None
      else
        n ← digits_or_zero i;
        m ← digits_or_zero f;
        Some (inject_Z n + Qmake m (Z.to_pos (10 ^ Z.of_nat (String.length f))))%Q
  | _ => None
  end.

Definition parse_float (s : string) : option Qc :=
  match s with
  | String "-" s' => q ← parse_unsigned s'; nearest_double (- q)
  | String "+" s' => parse_unsigned s' ≫= nearest_double
  | _ => parse_unsigned s ≫= nearest_double
  end.

(** *** Calendar *)

Definition is_leap (y : Z) : bool :=
  ((y mod 4 =? 0) && negb (y mod 100 =? 0) || (y mod 400 =? 0))%Z.

Definition days_in_month (y m : Z) : Z :=
  match m with
  | 1 | 3 | 5 | 7 | 8 | 10 | 12 => 31
  | 4 | 6 | 9 | 11 => 30
  | 2 => if is_leap y then 29 else 28
  | _ => 0
  end%Z.

(** A day of the calendar. *)
Definition valid_date (y m d : Z) : bool :=
  ((1 <=? m) && (m <=? 12) && (1 <=? d) && (d <=? days_in_month y m))%Z.

(** The years that a nanosecond [Timestamp] holds from their first day to
    their last: pandas covers 1677-09-21 to 2262-04-11. *)
Definition in_bounds (y : Z) : bool := ((1678 <=? y) && (y <=? 2261))%Z.

Definition valid_time (h mi : Z) : bool :=
  ((0 <=? h) && (h <=? 23) && (0 <=? mi) && (mi <=? 59))%Z.

Definition midnight (t : timestamp) : bool :=
  ((ts_hour t =? 0) && (ts_minute t =? 0) && (ts_second t =? 0))%Z.

(** [t.strftime("%Y-%m-%d")] *)
Definition iso_date (t : timestamp) : string :=
  format_d 4 (ts_year t) +:+ "-" +:+ format_d 2 (ts_month t)
    +:+ "-" +:+ format_d 2 (ts_day t).

(** [t.strftime("%Y-%m-%d %H:%M:%S")] *)
Definition iso_datetime (t : timestamp) : string :=
  iso_date t +:+ " " +:+ format_d 2 (ts_hour t) +:+ ":" +:+
    format_d 2 (ts_minute t) +:+ ":" +:+ format_d 2 (ts_second t).

End Py.

(** ** The pandas data frame *)

Module Pd.
Import Py.

(** A column: its cells from the first row to the last. *)
Abbreviation Series := (list value).

(** A data frame: the row labels and the columns in order, each column
    with its name.  In a frame built by pandas every column is as long
    as the index ([wf]). *)
Record DataFrame := mkDF {
  index : list Z;
  data : list (string * Series)
}.

Global Instance DataFrame_eq_dec : EqDecision DataFrame.
Proof. solve_decision. Defined.

Definition wf (df : DataFrame) : Prop :=
  Forall (λ c, length c.2 = length (index df)) (data df).

(** [df.columns] *)
Definition columns (df : DataFrame) : list string := (data df).*1.

(** [df.copy()]: cells are immutable values, the copy is the frame. *)
Definition copy (df : DataFrame) : DataFrame := df.

(** [df[name]], for a name that at most one column bears.  When several
    columns bear it pandas answers with a frame, not with a column; here
    the first of them is returned. *)
Definition getitem (df : DataFrame) (name : string) : result Series :=
  match dict_get (data df) name with
  | Some s => Ok s
  | None => Raise (KeyError name)
  end.

Fixpoint set_col (name : string) (s : Series) (cols : list (string * Series))
  : list (string * Series) :=
  match cols with
  | [] => [(name, s)]
  | (n, c) :: cols' =>
      if decide (n = name) then (n, s) :: cols'
      else (n, c) :: set_col name s cols'
  end.

(** [df[name] = s]: an existing column is replaced where it stands, a
    new one goes last. *)
Definition setitem (name : string) (s : Series) (df : DataFrame) : DataFrame :=
  mkDF (index df) (set_col name s (data df)).

(** [df.drop(labels, axis=1)]: every label must name a column. *)
Definition drop (labels : list string) (df : DataFrame) : result DataFrame :=
  match filter (λ l, l ∉ columns df) labels with
  | [] => Ok (mkDF (index df) (filter (λ c, c.1 ∉ labels) (data df)))
  | missing :: _ => Raise (KeyError missing)
  end.

(** [df.pop(name)]: the column, and the frame without it. *)
Definition pop (name : string) (df : DataFrame) : result (Series * DataFrame) :=
  s ← getitem df name;
  Ok (s, mkDF (index df) (filter (λ c, c.1 ≠ name) (data df))).

(** [df.insert(loc, name, s)] *)
Definition insert (loc : nat) (name : string) (s : Series) (df : DataFrame)
  : result DataFrame :=
  if decide (name ∈ columns df) then Raise ValueError
  else if decide (loc ≤ length (data df))
  then Ok (mkDF (index df) (take loc (data df) ++ (name, s) :: List.skipn loc (data df)))
  else Raise IndexError.

(** [df.columns = df.columns.str.lower()] *)
Definition lower_columns (df : DataFrame) : DataFrame :=
  mkDF (index df) (prod_map str_lower id <$> data df).

(** [df.rename(columns=renombres)]: names absent from the mapping stay. *)
Definition rename (renombres : list (string * string)) (df : DataFrame) : DataFrame :=
  mkDF (index df) (prod_map (λ n, default n (dict_get renombres n)) id <$> data df).

(** [s.map(d)] for a dict [d]: a cell that is not a key gives NaN. *)
Definition map_dict (d : list (string * value)) (s : Series) : Series :=
  (λ v, match v with
        | VStr k => default VNull (dict_get d k)
        | _ => VNull
        end) <$> s.

(** [s.apply(f)] *)
Definition apply (f : value → result value) (s : Series) : result Series :=
  mapM f s.

(** [s.astype(float)]: an integer and a text become the nearest double, a
    float stays.  An integer beyond the largest double is outside the
    model. *)
Definition to_float (v : value) : result value :=
  match v with
  | VNull => Ok VNull
  | VInt z => match nearest_double (inject_Z z) with
              | Some q => Ok (VFloat q)
              | None => Raise NotModelled
              end
  | VFloat q => Ok (VFloat q)
  | VStr x => match parse_float x with
              | Some q => Ok (VFloat q)
              | None => Raise NotModelled
              end
  | VTime _ => Raise TypeError
  end.

Definition astype_float (s : Series) : result Series := mapM to_float s.

(** [s.astype(str)].  A datetime column prints as dates alone when every
    time in it is midnight. *)
Definition astype_str (s : Series) : result Series :=
  let date_only :=
    forallb (λ v, match v with VTime t => midnight t | _ => true end) s in
  mapM (λ v, match v with
             | VStr x => Ok (VStr x)
             | VInt z => Ok (VStr (format_d 0 z))
             | VTime t => Ok (VStr (if date_only then iso_date t else iso_datetime t))
             | VNull => Ok (VStr "NaT")
             | VFloat _ => Raise NotModelled
             end) s.

(** [s + t] on two columns of strings *)
Definition str_add (s t : Series) : result Series :=
  mapM (λ p, match p with
             | (VStr x, VStr y) => Ok (VStr (x +:+ y))
             | (VNull, _) | (_, VNull) => Ok VNull
             | _ => Raise TypeError
             end) (zip s t).

(** [s + c] for a string constant [c] *)
Definition str_add_const (s : Series) (c : string) : result Series :=
  mapM (λ v, match v with
             | VStr x => Ok (VStr (x +:+ c))
             | VNull => Ok VNull
             | _ => Raise TypeError
             end) s.

(** [s < c] and [s > c] against a number: a comparison with NaN is
    false, text and timestamps do not compare with numbers. *)
Definition as_number (v : value) : result (option Qc) :=
  match v with
  | VNull => Ok None
  | VInt z => Ok (Some (Qc_of_Z z))
  | VFloat q => Ok (Some q)
  | VStr _ | VTime _ => Raise TypeError
  end.

Definition lt_const (c : Z) (s : Series) : result (list bool) :=
  mapM (λ v, o ← as_number v;
             Ok (from_option (λ q, bool_decide (q < Qc_of_Z c)%Qc) false o)) s.

Definition gt_const (c : Z) (s : Series) : result (list bool) :=
  mapM (λ v, o ← as_number v;
             Ok (from_option (λ q, bool_decide (Qc_of_Z c < q)%Qc) false o)) s.

(** [m1 | m2] *)
Definition mask_or (m1 m2 : list bool) : list bool := zip_with orb m1 m2.

Fixpoint select {A : Type} (mask : list bool) (l : list A) : list A :=
  match mask, l with
  | b :: mask', x :: l' => if b then x :: select mask' l' else select mask' l'
  | _, _ => []
  end.

(** The position, in a list under the mask, of the element that the
    selection puts at position [i]. *)
Fixpoint nth_true (mask : list bool) (i : nat) : option nat :=
  match mask with
  | [] => None
  | true :: mask' =>
      match i with
      | 0 => Some 0
      | S i' => S <$> nth_true mask' i'
      end
  | false :: mask' => S <$> nth_true mask' i
  end.

(** [df[mask]]: the rows where the mask holds, labels kept. *)
Definition getitem_mask (mask : list bool) (df : DataFrame) : DataFrame :=
  mkDF (select mask (index df)) (prod_map id (select mask) <$> data df).

(** *** Rows and duplicates *)

Fixpoint transpose (n : nat) (cols : list Series) : list (list value) :=
  match cols with
  | [] => replicate n []
  | c :: cs => zip_with cons c (transpose n cs)
  end.

(** The rows of the frame, each the list of its cells in column order. *)
Definition rows (df : DataFrame) : list (list value) :=
  transpose (length (index df)) (data df).*2.

(** [df.empty]: no row or no column. *)
Definition empty (df : DataFrame) : bool :=
  bool_decide (index df = []) || bool_decide (data df = []).

Section Duplicates.
Context {A : Type} `{EqDecision A}.

(** Marks an element that already occurred. *)
Fixpoint mark_duplicates (seen l : list A) : list bool :=
  match l with
  | [] => []
  | x :: l' => bool_decide (x ∈ seen) :: mark_duplicates (x :: seen) l'
  end.

(** The number of times that [x] occurs in [l]. *)
Definition occurrences (x : A) (l : list A) : nat :=
  length (filter (λ y, y = x) l).
End Duplicates.

(** [df.duplicated()], with [keep="first"]; pandas answers with an empty
    mask on an empty frame.  Rows are compared cell by cell, a missing
    cell being equal to a missing cell; the tables on which pandas
    compares otherwise are described by [Tablas.comparable]. *)
Definition duplicated (df : DataFrame) : list bool :=
  if empty df then [] else mark_duplicates [] (rows df).

(** [df.drop_duplicates()]; an empty frame is returned as it is. *)
Definition drop_duplicates (df : DataFrame) : DataFrame :=
  if empty df then copy df
  else getitem_mask (negb <$> duplicated df) df.

(** [mask.sum()] *)
Definition mask_sum (mask : list bool) : nat := length (filter (λ b, b = true) mask).

(** *** [pandas.to_datetime]

    The model covers the spellings that the program meets: a date
    [dd/dd/dddd], an ISO date [dddd-dd-dd], and an ISO date followed by
    a blank and [dd:dd].  As pandas does since version 2, the format is
    taken from the first value that is not missing and every value is
    then read with it. *)

Inductive ymd_order := YearMonthDay | DayMonthYear | MonthDayYear.

Record date_format := mkFmt {
  fmt_order : ymd_order;
  fmt_sep : ascii;
  fmt_time : bool
}.

(** The order that [dateutil] gives to three numbers [a, b, year] when
    no month is spelled out: a first number above 31 is a year, above
    12 a day, and otherwise a day only if [dayfirst] is set and the
    second number can be a month. *)
Definition resolve_ymd (dayfirst : bool) (a b : Z) : ymd_order :=
  if (31 <? a)%Z then YearMonthDay
  else if (12 <? a)%Z || (dayfirst && (b <=? 12)%Z) then DayMonthYear
  else MonthDayYear.

Definition field (width : nat) (s : string) : option Z :=
  if decide (String.length s = width) then digits s else None.

(** Reads the three fields of a date in the given order; the year has
    four digits, day and month two. *)
Definition read_date (order : ymd_order) (sep : ascii) (s : string)
  : option (Z * Z * Z) :=
  match split_on sep s with
  | [a; b; c] =>
      match order with
      | YearMonthDay => y ← field 4 a; m ← field 2 b; d ← field 2 c; Some (y, m, d)
      | DayMonthYear => d ← field 2 a; m ← field 2 b; y ← field 4 c; Some (y, m, d)
      | MonthDayYear => m ← field 2 a; d ← field 2 b; y ← field 4 c; Some (y, m, d)
      end
  | _ => None
  end.

Definition read_time (s : string) : option (Z * Z) :=
  match split_on ":" s with
  | [h; mi] => h' ← field 2 h; mi' ← field 2 mi; Some (h', mi')
  | _ => None
  end.

(** The fields of a text under a format, before any range check. *)
Definition scan (fmt : date_format) (s : string) : option timestamp :=
  if fmt_time fmt then
    match split_on " " s with
    | [d; t] =>
        '(y, m, d') ← read_date (fmt_order fmt) (fmt_sep fmt) d;
        '(h, mi) ← read_time t;
        Some (mkTs y m d' h mi 0)
    | _ => None
    end
  else
    '(y, m, d) ← read_date (fmt_order fmt) (fmt_sep fmt) s;
    Some (mkTs y m d 0 0 0).

(** [strptime]: the fields must name a day and a time of day.  A text
    of another shape and a year off the whole years of [Timestamp] are
    left out of the model. *)
Definition strptime (fmt : date_format) (s : string) : result timestamp :=
  match scan fmt s with
  | None => Raise NotModelled
  | Some t =>
      if negb (in_bounds (ts_year t)) then Raise NotModelled
      else if valid_date (ts_year t) (ts_month t) (ts_day t)
              && valid_time (ts_hour t) (ts_minute t)
      then Ok t
      else Raise ValueError
  end.

(** The format of a text, from its shape alone. *)
Definition guess_datetime_format (dayfirst : bool) (s : string) : option date_format :=
  match split_on "/" s with
  | [a; b; c] =>
      a' ← field 2 a; b' ← field 2 b; _ ← field 4 c;
      Some (mkFmt (resolve_ymd dayfirst a' b') "/" false)
  | _ =>
      let fmt := mkFmt YearMonthDay "-" (bool_decide (length (split_on " " s) = 2)) in
      _ ← scan fmt s; Some fmt
  end.

Definition to_datetime (dayfirst : bool) (s : Series) : result Series :=
  match list_find (λ v, v ≠ VNull) s with
  | None => Ok s
  | Some (_, VStr x) =>
      match guess_datetime_format dayfirst x with
      | None => Raise NotModelled
      | Some fmt =>
          mapM (λ v, match v with
                     | VNull => Ok VNull
                     | VStr y => VTime <$> strptime fmt y
                     | _ => Raise NotModelled
                     end) s
      end
  | Some _ => Raise NotModelled
  end.

End Pd.

(** ** The cleaning module *)

Module Limpieza.
Import Py Pd.

(** Abbreviations to full English names. *)
Definition wind_direction_completo : list (string * value) :=
  [("N", VStr "north"); ("NE", VStr "northeast"); ("E", VStr "east");
   ("SE", VStr "southeast"); ("S", VStr "south"); ("SO", VStr "southwest");
   ("O", VStr "west"); ("NO", VStr "northwest"); ("C", VStr "calm")].

(** Abbreviations to degrees, 0 for north and 90 for east; calm has no
    direction.  The dict holds a NaN, so pandas looks the values up in a
    float column: the degrees are floats. *)
Definition wind_direction_grados : list (string * value) :=
  [("N", VFloat (Qc_of_Z 0)); ("NE", VFloat (Qc_of_Z 45));
   ("E", VFloat (Qc_of_Z 90)); ("SE", VFloat (Qc_of_Z 135));
   ("S", VFloat (Qc_of_Z 180)); ("SO", VFloat (Qc_of_Z 225));
   ("O", VFloat (Qc_of_Z 270)); ("NO", VFloat (Qc_of_Z 315));
   ("C", VNull)].

Definition traducir_direccion_viento (df : DataFrame) : result DataFrame :=
  let df_result := copy df in
  s ← getitem df "wind_direction";
  let df_result :=
    setitem "wind_direction_completo" (map_dict wind_direction_completo s) df_result in
  s ← getitem df "wind_direction";
  let df_result :=
    setitem "wind_direction_grados" (map_dict wind_direction_grados s) df_result in
  Ok df_result.

Definition sky_condition_ingles : list (string * value) :=
  [("Nubes altas", VStr "high clouds");
   ("Cubierto", VStr "overcast");
   ("Poco nuboso", VStr "few clouds");
   ("Nuboso", VStr "cloudy");
   ("Muy nuboso", VStr "very cloudy");
   ("Despejado", VStr "clear");
   ("Cubierto con lluvia escasa", VStr "overcast with light rain");
   ("Cubierto con lluvia", VStr "overcast with rain");
   ("Cubierto con tormenta y lluvia escasa",
    VStr "overcast with thunderstorm and light rain")].

Definition traducir_condicion_cielo (df : DataFrame) : result DataFrame :=
  let df_result := copy df in
  s ← getitem df "sky_condition";
  let df_result :=
    setitem "sky_condition_ingles" (map_dict sky_condition_ingles s) df_result in
  Ok df_result.

Definition eliminar_columnas_innecesarias (df : DataFrame)
    (columnas_a_eliminar : list string) : result DataFrame :=
  let df_result := copy df in
  drop columnas_a_eliminar df_result.

(** [lambda x: f"{x:02d}:00"]: the format code [d] takes integers and
    refuses floats and text. *)
Definition formato_hora (x : value) : result value :=
  match x with
  | VInt z => Ok (VStr (format_d 2 z +:+ ":00"))
  | VStr _ | VFloat _ => Raise ValueError
  | VNull | VTime _ => Raise NotModelled
  end.

Definition convertir_tipos_datos (df : DataFrame) : result DataFrame :=
  let df_result := copy df in
  c ← getitem df_result "date";
  c ← to_datetime false c;
  let df_result := setitem "date" c df_result in
  c ← getitem df_result "hour";
  c ← apply formato_hora c;
  let df_result := setitem "hour" c df_result in
  c ← getitem df_result "temperature";
  c ← astype_float c;
  let df_result := setitem "temperature" c df_result in
  c ← getitem df_result "humidity";
  c ← astype_float c;
  let df_result := setitem "humidity" c df_result in
  c ← getitem df_result "wind_speed";
  c ← astype_float c;
  let df_result := setitem "wind_speed" c df_result in
  if decide ("wind_direction_grados" ∈ columns df_result) then
    c ← getitem df_result "wind_direction_grados";
    c ← astype_float c;
    Ok (setitem "wind_direction_grados" c df_result)
  else Ok df_result.

Definition unificar_fecha_hora (df : DataFrame) : result DataFrame :=
  let df_result := copy df in
  d ← getitem df_result "date";
  d ← astype_str d;
  d ← str_add_const d " ";
  h ← getitem df_result "hour";
  h ← astype_str h;
  s ← str_add d h;
  t ← to_datetime false s;
  Ok (setitem "datetime" t df_result).

Definition normalizar_nombres_columnas (df : DataFrame)
    (renombres : option (list (string * string))) : result DataFrame :=
  let df_result := copy df in
  let df_result := lower_columns df_result in
  match renombres with
  | Some ((_ :: _) as r) => Ok (rename r df_result)
  | _ => Ok df_result
  end.

(** [lambda x: "calm" if pd.isna(x) else "with wind"] *)
Definition estado (x : value) : result value :=
  Ok (VStr (if isna x then "calm" else "with wind")).

Definition marcar_estado_viento (df : DataFrame) : result DataFrame :=
  let df_result := copy df in
  c ← getitem df_result "wind_direction_degrees";
  c ← apply estado c;
  Ok (setitem "wind_status" c df_result).

Definition detectar_outliers (df : DataFrame) : result DataFrame :=
  t ← getitem df "temperature";
  m1 ← lt_const (-10) t;
  t ← getitem df "temperature";
  m2 ← gt_const 50 t;
  h ← getitem df "humidity";
  m3 ← lt_const 0 h;
  h ← getitem df "humidity";
  m4 ← gt_const 100 h;
  w ← getitem df "wind_speed";
  m5 ← lt_const 0 w;
  Ok (getitem_mask (mask_or (mask_or (mask_or (mask_or m1 m2) m3) m4) m5) df).

Definition verificar_duplicados (df : DataFrame) : DataFrame * nat :=
  let df_result := copy df in
  let duplicados := duplicated df_result in
  (drop_duplicates df_result, mask_sum duplicados).

Definition renombres : list (string * string) :=
  [("sky_condition_ingles", "sky_condition");
   ("wind_direction_grados", "wind_direction_degrees");
   ("wind_direction_completo", "wind_direction")].

Definition proceso_completo_limpieza (df : DataFrame) : result DataFrame :=
  df ← traducir_direccion_viento df;
  df ← traducir_condicion_cielo df;
  df ← eliminar_columnas_innecesarias df ["wind_direction"; "sky_condition"; "timestamp"];
  df ← convertir_tipos_datos df;
  df ← unificar_fecha_hora df;
  df ← eliminar_columnas_innecesarias df ["date"; "hour"];
  '(columna_datetime, df) ← pop "datetime" df;
  df ← insert 0 "datetime" columna_datetime df;
  df ← normalizar_nombres_columnas df (Some renombres);
  df ← marcar_estado_viento df;
  let '(df, _) := verificar_duplicados df in
  Ok df.

End Limpieza.

(** ** The cleaning module over a store of objects

    A Python variable holds a reference to a data frame object.  The store
    lists the objects in the order of their creation; a reference is a
    position in it.  [copy] and the selections create an object, the
    in-place methods ([df[name] = s], [drop(inplace=True)], [pop],
    [insert], [rename(inplace=True)], the assignment to [columns]) update
    the object they are called on.  A computation returns the store it
    leaves behind even when it raises. *)

Module Mut.
Import Py Pd.

Abbreviation loc := nat.
Abbreviation store := (list DataFrame).

Definition M (A : Type) : Type := store → store * result A.

Global Instance M_ret : MRet M := λ A a σ, (σ, Ok a).
Global Instance M_bind : MBind M := λ A B k m σ,
  match m σ with
  | (σ', Ok a) => k a σ'
  | (σ', Raise e) => (σ', Raise e)
  end.
Global Instance M_fmap : FMap M := λ A B f m σ,
  match m σ with
  | (σ', Ok a) => (σ', Ok (f a))
  | (σ', Raise e) => (σ', Raise e)
  end.

(** The outcome of a computation that does not touch the store. *)
Definition lift {A : Type} (r : result A) : M A := λ σ, (σ, r).

(** The object behind a reference.  References come from [alloc] and
    objects are never freed, so the lookup succeeds in every run. *)
Definition read (l : loc) : M DataFrame := λ σ,
  match σ !! l with
  | Some df => (σ, Ok df)
  | None => (σ, Raise NotModelled)
  end.

Definition write (l : loc) (df : DataFrame) : M unit := λ σ,
  (<[l := df]> σ, Ok ()).

Definition alloc (df : DataFrame) : M loc := λ σ,
  (σ ++ [df], Ok (length σ)).

(** *** Methods *)

Definition copy (df : loc) : M loc :=
  d ← read df; alloc (Pd.copy d).

Definition getitem (df : loc) (name : string) : M Series :=
  d ← read df; lift (Pd.getitem d name).

Definition setitem (df : loc) (name : string) (s : Series) : M unit :=
  d ← read df; write df (Pd.setitem name s d).

Definition columns (df : loc) : M (list string) :=
  d ← read df; mret (Pd.columns d).

(** [df.drop(labels, axis=1, inplace=True)] *)
Definition drop_inplace (df : loc) (labels : list string) : M unit :=
  d ← read df; d' ← lift (Pd.drop labels d); write df d'.

Definition pop (df : loc) (name : string) : M Series :=
  d ← read df;
  '(s, d') ← lift (Pd.pop name d);
  write df d';;
  mret s.

Definition insert (df : loc) (pos : nat) (name : string) (s : Series) : M unit :=
  d ← read df; d' ← lift (Pd.insert pos name s d); write df d'.

Definition lower_columns (df : loc) : M unit :=
  d ← read df; write df (Pd.lower_columns d).

(** [df.rename(columns=renombres, inplace=True)] *)
Definition rename_inplace (df : loc) (renombres : list (string * string)) : M unit :=
  d ← read df; write df (Pd.rename renombres d).

Definition getitem_mask (df : loc) (mask : list bool) : M loc :=
  d ← read df; alloc (Pd.getitem_mask mask d).

Definition duplicated (df : loc) : M (list bool) :=
  d ← read df; mret (Pd.duplicated d).

Definition drop_duplicates (df : loc) : M loc :=
  d ← read df; alloc (Pd.drop_duplicates d).

(** *** The functions of the module *)

Definition traducir_direccion_viento (df : loc) : M loc :=
  df_result ← copy df;
  s ← getitem df "wind_direction";
  setitem df_result "wind_direction_completo"
    (map_dict Limpieza.wind_direction_completo s);;
  s ← getitem df "wind_direction";
  setitem df_result "wind_direction_grados"
    (map_dict Limpieza.wind_direction_grados s);;
  mret df_result.

Definition traducir_condicion_cielo (df : loc) : M loc :=
  df_result ← copy df;
  s ← getitem df "sky_condition";
  setitem df_result "sky_condition_ingles"
    (map_dict Limpieza.sky_condition_ingles s);;
  mret df_result.

Definition eliminar_columnas_innecesarias (df : loc)
    (columnas_a_eliminar : list string) : M loc :=
  df_result ← copy df;
  drop_inplace df_result columnas_a_eliminar;;
  mret df_result.

Definition convertir_tipos_datos (df : loc) : M loc :=
  df_result ← copy df;
  c ← getitem df_result "date";
  c ← lift (to_datetime false c);
  setitem df_result "date" c;;
  c ← getitem df_result "hour";
  c ← lift (apply Limpieza.formato_hora c);
  setitem df_result "hour" c;;
  c ← getitem df_result "temperature";
  c ← lift (astype_float c);
  setitem df_result "temperature" c;;
  c ← getitem df_result "humidity";
  c ← lift (astype_float c);
  setitem df_result "humidity" c;;
  c ← getitem df_result "wind_speed";
  c ← lift (astype_float c);
  setitem df_result "wind_speed" c;;
  cols ← columns df_result;
  if decide ("wind_direction_grados" ∈ cols) then
    c ← getitem df_result "wind_direction_grados";
    c ← lift (astype_float c);
    setitem df_result "wind_direction_grados" c;;
    mret df_result
  else mret df_result.

Definition unificar_fecha_hora (df : loc) : M loc :=
  df_result ← copy df;
  d ← getitem df_result "date";
  d ← lift (astype_str d);
  d ← lift (str_add_const d " ");
  h ← getitem df_result "hour";
  h ← lift (astype_str h);
  s ← lift (str_add d h);
  t ← lift (to_datetime false s);
  setitem df_result "datetime" t;;
  mret df_result.

Definition normalizar_nombres_columnas (df : loc)
    (renombres : option (list (string * string))) : M loc :=
  df_result ← copy df;
  lower_columns df_result;;
  match renombres with
  | Some ((_ :: _) as r) => rename_inplace df_result r;; mret df_result
  | _ => mret df_result
  end.

Definition marcar_estado_viento (df : loc) : M loc :=
  df_result ← copy df;
  c ← getitem df_result "wind_direction_degrees";
  c ← lift (apply Limpieza.estado c);
  setitem df_result "wind_status" c;;
  mret df_result.

Definition detectar_outliers (df : loc) : M loc :=
  t ← getitem df "temperature";
  m1 ← lift (lt_const (-10) t);
  t ← getitem df "temperature";
  m2 ← lift (gt_const 50 t);
  h ← getitem df "humidity";
  m3 ← lift (lt_const 0 h);
  h ← getitem df "humidity";
  m4 ← lift (gt_const 100 h);
  w ← getitem df "wind_speed";
  m5 ← lift (lt_const 0 w);
  getitem_mask df (mask_or (mask_or (mask_or (mask_or m1 m2) m3) m4) m5).

Definition verificar_duplicados (df : loc) : M (loc * nat) :=
  df_result ← copy df;
  duplicados ← duplicated df_result;
  r ← drop_duplicates df_result;
  mret (r, mask_sum duplicados).

Definition proceso_completo_limpieza (df : loc) : M loc :=
  df ← traducir_direccion_viento df;
  df ← traducir_condicion_cielo df;
  df ← eliminar_columnas_innecesarias df ["wind_direction"; "sky_condition"; "timestamp"];
  df ← convertir_tipos_datos df;
  df ← unificar_fecha_hora df;
  df ← eliminar_columnas_innecesarias df ["date"; "hour"];
  columna_datetime ← pop df "datetime";
  insert df 0 "datetime" columna_datetime;;
  df ← normalizar_nombres_columnas df (Some Limpieza.renombres);
  df ← marcar_estado_viento df;
  '(df, _) ← verificar_duplicados df;
  mret df.

(** The functions that a caller can apply to a table, with their other
    arguments. *)
Inductive stage :=
| TraducirDireccionViento
| TraducirCondicionCielo
| EliminarColumnasInnecesarias (columnas_a_eliminar : list string)
| ConvertirTiposDatos
| UnificarFechaHora
| NormalizarNombresColumnas (renombres : option (list (string * string)))
| MarcarEstadoViento
| DetectarOutliers
| VerificarDuplicados
| ProcesoCompletoLimpieza.

(** The call of a function on a reference, and the table it returns. *)
Definition call (s : stage) (df : loc) : M loc :=
  match s with
  | TraducirDireccionViento => traducir_direccion_viento df
  | TraducirCondicionCielo => traducir_condicion_cielo df
  | EliminarColumnasInnecesarias cols => eliminar_columnas_innecesarias df cols
  | ConvertirTiposDatos => convertir_tipos_datos df
  | UnificarFechaHora => unificar_fecha_hora df
  | NormalizarNombresColumnas r => normalizar_nombres_columnas df r
  | MarcarEstadoViento => marcar_estado_viento df
  | DetectarOutliers => detectar_outliers df
  | VerificarDuplicados => fst <$> verificar_duplicados df
  | ProcesoCompletoLimpieza => proceso_completo_limpieza df
  end.

(** The same call on table values, by the functions of [Limpieza]. *)
Definition call_pure (s : stage) (df : DataFrame) : result DataFrame :=
  match s with
  | TraducirDireccionViento => Limpieza.traducir_direccion_viento df
  | TraducirCondicionCielo => Limpieza.traducir_condicion_cielo df
  | EliminarColumnasInnecesarias cols => Limpieza.eliminar_columnas_innecesarias df cols
  | ConvertirTiposDatos => Limpieza.convertir_tipos_datos df
  | UnificarFechaHora => Limpieza.unificar_fecha_hora df
  | NormalizarNombresColumnas r => Limpieza.normalizar_nombres_columnas df r
  | MarcarEstadoViento => Limpieza.marcar_estado_viento df
  | DetectarOutliers => Limpieza.detectar_outliers df
  | VerificarDuplicados => Ok (Limpieza.verificar_duplicados df).1
  | ProcesoCompletoLimpieza => Limpieza.proceso_completo_limpieza df
  end.

(** The outcome [x] of a call started in the store [σ0] agrees with the
    outcome [p] of the same call on table values: the store has only
    grown, an exception is the same exception, and a returned reference
    is an object created by the call that holds the returned table. *)
Definition agrees (σ0 : store) (x : store * result loc) (p : result DataFrame) : Prop :=
  σ0 `prefix_of` x.1 ∧
  match p with
  | Ok d => ∃ r, x.2 = Ok r ∧ length σ0 ≤ r ∧ x.1 !! r = Some d
  | Raise e => x.2 = Raise e
  end.

End Mut.

(** ** Vocabulary of the statements *)

Module Tablas.
Import Py Pd Limpieza.

(** The eight compass codes of the raw data, with their degrees. *)
Definition rumbos : list (string * Z) :=
  [("N", 0); ("NE", 45); ("E", 90); ("SE", 135);
   ("S", 180); ("SO", 225); ("O", 270); ("NO", 315)]%Z.

(** The nine codes that the wind translator knows. *)
Definition codigos_viento : list string := rumbos.*1 ++ ["C"].

(** The full English names of the eight compass points. *)
Definition nombres_rumbos : list (string * string) :=
  [("N", "north"); ("NE", "northeast"); ("E", "east"); ("SE", "southeast");
   ("S", "south"); ("SO", "southwest"); ("O", "west"); ("NO", "northwest")].

(** The columns of a raw table and of a clean one. *)
Definition esquema_crudo : list string :=
  ["date"; "hour"; "temperature"; "humidity"; "wind_speed";
   "wind_direction"; "sky_condition"; "timestamp"].

Definition esquema_limpio : list string :=
  ["datetime"; "temperature"; "humidity"; "wind_speed"; "wind_direction";
   "wind_direction_degrees"; "sky_condition"; "wind_status"].

(** A raw table, column by column. *)
Definition tabla_cruda (idx : list Z) (dc hc tc uc wc wd sk ts : Series) : DataFrame :=
  mkDF idx
    [("date", dc); ("hour", hc); ("temperature", tc); ("humidity", uc);
     ("wind_speed", wc); ("wind_direction", wd); ("sky_condition", sk);
     ("timestamp", ts)].

(** The timestamp column that the unifier computes from a column of
    dates and a column of [HH:00] texts. *)
Definition fecha_hora (d h : Series) : result Series :=
  ds ← astype_str d;
  ds ← str_add_const ds " ";
  hs ← astype_str h;
  s ← str_add ds hs;
  to_datetime false s.

(** The table that reaches the last step of the pipeline, the removal of
    duplicates, from the converted measurements and the raw codes. *)
Definition tabla_limpia (idx : list Z) (dt t u w wd sk : Series) : DataFrame :=
  mkDF idx
    [("datetime", dt); ("temperature", t); ("humidity", u); ("wind_speed", w);
     ("wind_direction", map_dict wind_direction_completo wd);
     ("wind_direction_degrees", map_dict wind_direction_grados wd);
     ("sky_condition", map_dict sky_condition_ingles sk);
     ("wind_status",
      (λ x, VStr (if isna x then "calm" else "with wind"))
        <$> map_dict wind_direction_grados wd)].

(** The number in a cell of a numeric column, if the cell is not
    missing. *)
Definition numero (v : value) : option Qc :=
  match v with
  | VInt z => Some (Qc_of_Z z)
  | VFloat q => Some q
  | _ => None
  end.

(** A numeric column holds numbers and missing values only. *)
Definition numerica (s : Series) : Prop :=
  Forall (λ v, v = VNull ∨ is_Some (numero v)) s.

(** The cell holds a number below, or above, the bound. *)
Definition menor (v : value) (c : Z) : Prop :=
  ∃ q, numero v = Some q ∧ (q < Qc_of_Z c)%Qc.

Definition mayor (v : value) (c : Z) : Prop :=
  ∃ q, numero v = Some q ∧ (Qc_of_Z c < q)%Qc.

Definition bajo (c : Z) (v : value) : bool :=
  from_option (λ q, bool_decide (q < Qc_of_Z c)%Qc) false (numero v).

Definition sobre (c : Z) (v : value) : bool :=
  from_option (λ q, bool_decide (Qc_of_Z c < q)%Qc) false (numero v).

(** The column holds an integer and the float of the same value. *)
Definition mezcla (c : Series) : bool :=
  existsb (λ v, match v with
                | VInt z => bool_decide (VFloat (Qc_of_Z z) ∈ c)
                | _ => false
                end) c.

(** The tables whose cells pandas compares as they are compared here.
    In a column of Python objects pandas takes the integer 1 and the float
    1.0 for one value, and when it compares the rows of a table of one
    column, and only then, it tells [None] from [NaN].  Here [VInt 1] and
    [VFloat 1] differ and [VNull] stands for both missing values.  So no
    column holds an integer and the float of the same value, and a table
    of one column has at most one missing cell. *)
Definition comparable (df : DataFrame) : Prop :=
  Forall (λ c, mezcla c.2 = false) (data df) ∧
  (∀ name c, data df = [(name, c)] → occurrences VNull c ≤ 1).


(** The reading of the invariant on calm wind in which the raw code C
    is the only source of a null degree: every row of the clean table
    comes from a raw row of the same label, and on it the degree is null
    iff the raw code is C iff the status is calm. *)
Definition calma_solo_con_codigo_C (df : DataFrame) : Prop :=
  ∀ out wd grados estados,
    proceso_completo_limpieza df = Ok out →
    getitem df "wind_direction" = Ok wd →
    getitem out "wind_direction_degrees" = Ok grados →
    getitem out "wind_status" = Ok estados →
    ∀ i ℓ, index out !! i = Some ℓ →
      ∃ j code g e,
        index df !! j = Some ℓ ∧ wd !! j = Some code ∧
        grados !! i = Some g ∧ estados !! i = Some e ∧
        (g = VNull ↔ code = VStr "C") ∧
        (code = VStr "C" ↔ e = VStr "calm").

End Tablas.

(** ** Sample tables *)

Module Ejemplos.
Import Py Pd Limpieza Tablas.

(** The row of the end-to-end example, for a collection time [ts]. *)
Definition fila_ejemplo (ts : string) : DataFrame :=
  tabla_cruda [0%Z]
    [VStr "18/02/2025"] [VInt 8] [VStr "22.5"] [VStr "65"] [VStr "10"]
    [VStr "N"] [VStr "Despejado"] [VStr ts].

Definition fila_18_febrero : DataFrame := fila_ejemplo "18/02/2025 08:15:00".

Definition fila_18_febrero_limpia : DataFrame :=
  mkDF [0%Z]
    [("datetime", [VTime (mkTs 2025 2 18 8 0 0)]);
     ("temperature", [VFloat (Q2Qc (45 # 2))]);
     ("humidity", [VFloat (Qc_of_Z 65)]);
     ("wind_speed", [VFloat (Qc_of_Z 10)]);
     ("wind_direction", [VStr "north"]);
     ("wind_direction_degrees", [VFloat (Qc_of_Z 0)]);
     ("sky_condition", [VStr "clear"]);
     ("wind_status", [VStr "with wind"])].

(** The same forecast for the fifth of February, as the collector
    writes it. *)
Definition fila_5_febrero : DataFrame :=
  tabla_cruda [0%Z]
    [VStr "05/02/2025"] [VInt 8] [VStr "22.5"] [VStr "65"] [VStr "10"]
    [VStr "N"] [VStr "Despejado"] [VStr "05/02/2025 08:15:00"].

Definition fila_5_febrero_limpia : DataFrame :=
  mkDF [0%Z]
    [("datetime", [VTime (mkTs 2025 5 2 8 0 0)]);
     ("temperature", [VFloat (Q2Qc (45 # 2))]);
     ("humidity", [VFloat (Qc_of_Z 65)]);
     ("wind_speed", [VFloat (Qc_of_Z 10)]);
     ("wind_direction", [VStr "north"]);
     ("wind_direction_degrees", [VFloat (Qc_of_Z 0)]);
     ("sky_condition", [VStr "clear"]);
     ("wind_status", [VStr "with wind"])].

(** A row with a wind code and a sky phrase that the tables lack. *)
Definition fila_codigo_desconocido : DataFrame :=
  tabla_cruda [0%Z]
    [VStr "2025-02-18"] [VInt 8] [VStr "22.5"] [VStr "65"] [VStr "10"]
    [VStr "X"] [VStr "Niebla"] [VStr "2025-02-18 08:15:00"].

Definition fila_codigo_desconocido_limpia : DataFrame :=
  mkDF [0%Z]
    [("datetime", [VTime (mkTs 2025 2 18 8 0 0)]);
     ("temperature", [VFloat (Q2Qc (45 # 2))]);
     ("humidity", [VFloat (Qc_of_Z 65)]);
     ("wind_speed", [VFloat (Qc_of_Z 10)]);
     ("wind_direction", [VNull]);
     ("wind_direction_degrees", [VNull]);
     ("sky_condition", [VNull]);
     ("wind_status", [VStr "calm"])].

(** The table of the unit tests. *)
Definition datos_prueba : DataFrame :=
  tabla_cruda [0; 1; 2; 3]%Z
    [VStr "2025-02-18"; VStr "2025-02-18"; VStr "2025-02-19"; VStr "2025-02-19"]
    [VInt 8; VInt 9; VInt 8; VInt 9]
    [VStr "22.5"; VStr "23.0"; VStr "21.5"; VStr "22.0"]
    [VStr "65"; VStr "68"; VStr "70"; VStr "67"]
    [VStr "10"; VStr "12"; VStr "8"; VStr "9"]
    [VStr "N"; VStr "NE"; VStr "S"; VStr "SO"]
    [VStr "Despejado"; VStr "Poco nuboso"; VStr "Nuboso"; VStr "Cubierto"]
    [VStr "2025-02-18 08:15:00"; VStr "2025-02-18 09:15:00";
     VStr "2025-02-19 08:15:00"; VStr "2025-02-19 09:15:00"].

(** [pd.concat([datos_prueba, datos_prueba.iloc[[0, 2]]])] *)
Definition datos_con_duplicados : DataFrame :=
  tabla_cruda [0; 1; 2; 3; 0; 2]%Z
    [VStr "2025-02-18"; VStr "2025-02-18"; VStr "2025-02-19"; VStr "2025-02-19";
     VStr "2025-02-18"; VStr "2025-02-19"]
    [VInt 8; VInt 9; VInt 8; VInt 9; VInt 8; VInt 8]
    [VStr "22.5"; VStr "23.0"; VStr "21.5"; VStr "22.0"; VStr "22.5"; VStr "21.5"]
    [VStr "65"; VStr "68"; VStr "70"; VStr "67"; VStr "65"; VStr "70"]
    [VStr "10"; VStr "12"; VStr "8"; VStr "9"; VStr "10"; VStr "8"]
    [VStr "N"; VStr "NE"; VStr "S"; VStr "SO"; VStr "N"; VStr "S"]
    [VStr "Despejado"; VStr "Poco nuboso"; VStr "Nuboso"; VStr "Cubierto";
     VStr "Despejado"; VStr "Nuboso"]
    [VStr "2025-02-18 08:15:00"; VStr "2025-02-18 09:15:00";
     VStr "2025-02-19 08:15:00"; VStr "2025-02-19 09:15:00";
     VStr "2025-02-18 08:15:00"; VStr "2025-02-19 08:15:00"].

(** The table of the outlier test. *)
Definition df_outliers : DataFrame :=
  mkDF [0; 1; 2; 3]%Z
    [("temperature",
      [VFloat (Q2Qc (45 # 2)); VFloat (Qc_of_Z (-15)); VFloat (Qc_of_Z 55);
       VFloat (Qc_of_Z 20)]);
     ("humidity", [VInt 65; VInt 68; VInt 101; VInt 50]);
     ("wind_speed", [VInt 10; VInt (-5); VInt 15; VInt 8])].


(** A table with missing measurements. *)
Definition df_nulos : DataFrame :=
  mkDF [0; 1; 2]%Z
    [("temperature", [VNull; VFloat (Qc_of_Z 20); VNull]);
     ("humidity", [VInt 50; VNull; VInt 101]);
     ("wind_speed", [VNull; VNull; VNull])].

End Ejemplos.

(** ** The table of the collector *)

Module Recolector.
Import Py Pd.

(** The table that [parse_weather_data] builds, column by column: the
    columns stand in the order of the keys of its rows. *)
Definition tabla_recolector (idx : list Z) (dc hc tc uc sk wd wc ts : Series)
  : DataFrame :=
  mkDF idx
    [("date", dc); ("hour", hc); ("temperature", tc); ("humidity", uc);
     ("sky_condition", sk); ("wind_direction", wd); ("wind_speed", wc);
     ("timestamp", ts)].

End Recolector.

(** ** Vocabulary of dates, hours and masks *)

Module Fechas.
Import Py Pd Limpieza Tablas.

(** The text has no occurrence of the character. *)
Fixpoint sin (c : ascii) (s : string) : bool :=
  match s with
  | EmptyString => true
  | String a s' => negb (bool_decide (a = c)) && sin c s'
  end.

(** The instant at hour [h] of the day of [t]. *)
Definition a_la_hora (t : timestamp) (h : Z) : timestamp :=
  mkTs (ts_year t) (ts_month t) (ts_day t) h 0 0.

(** A cell of a column of dates: midnight of a day of the calendar, in
    the years of [Timestamp]. *)
Definition fecha (t : timestamp) : Prop :=
  in_bounds (ts_year t) = true ∧
  valid_date (ts_year t) (ts_month t) (ts_day t) = true ∧
  midnight t = true.

(** An hour of the day. *)
Definition hora (h : Z) : Prop := (0 ≤ h ≤ 23)%Z.

(** [w] digits that spell [z], none of them a separator of the formats. *)
Definition campo (w : nat) (z : Z) : bool :=
  bool_decide (field w (format_d w z) = Some z)
  && forallb (λ c, sin c (format_d w z)) ["-"; " "; "/"; ":"]%char.

(** The text of an hour, as the converter writes it. *)
Definition texto_hora (h : Z) : string := format_d 2 h +:+ ":00".

(** The text that the unifier reads: the date, a blank, the hour. *)
Definition texto_fecha_hora (t : timestamp) (h : Z) : string :=
  (iso_date t +:+ " ") +:+ texto_hora h.

(** The text of a day as the collector writes it, [%d/%m/%Y]. *)
Definition texto_dia_mes (t : timestamp) : string :=
  format_d 2 (ts_day t) +:+ "/" +:+ format_d 2 (ts_month t) +:+ "/" +:+
    format_d 4 (ts_year t).

(** The day that results from reading the day of [t] as the month and
    its month as the day. *)
Definition mes_primero (t : timestamp) : timestamp :=
  mkTs (ts_year t) (ts_day t) (ts_month t) 0 0 0.

(** A cell of the hour column that is text or a float. *)
Definition no_entera (v : value) : Prop :=
  match v with VStr _ | VFloat _ => True | _ => False end.

(** The mask of the five comparisons of the outlier detector. *)
Definition mascara_atipicos (t h w : Series) : list bool :=
  mask_or (mask_or (mask_or (mask_or (bajo (-10) <$> t) (sobre 50 <$> t))
                      (bajo 0 <$> h)) (sobre 100 <$> h)) (bajo 0 <$> w).

End Fechas.

(** ** Further sample tables *)

Module Muestras.
Import Py Pd Limpieza Tablas Ejemplos Fechas.

(** The days and the hours of the table of the unit tests. *)
Definition dias_prueba : list timestamp :=
  [mkTs 2025 2 18 0 0 0; mkTs 2025 2 18 0 0 0;
   mkTs 2025 2 19 0 0 0; mkTs 2025 2 19 0 0 0].

Definition horas_prueba : list Z := [8; 9; 8; 9]%Z.

(** Its measurements, as floats. *)
Definition temperaturas_prueba : Series :=
  [VFloat (Q2Qc (45 # 2)); VFloat (Qc_of_Z 23); VFloat (Q2Qc (43 # 2));
   VFloat (Qc_of_Z 22)].

Definition humedades_prueba : Series :=
  [VFloat (Qc_of_Z 65); VFloat (Qc_of_Z 68); VFloat (Qc_of_Z 70);
   VFloat (Qc_of_Z 67)].

Definition vientos_prueba : Series :=
  [VFloat (Qc_of_Z 10); VFloat (Qc_of_Z 12); VFloat (Qc_of_Z 8);
   VFloat (Qc_of_Z 9)].

(** The table of the unit tests without the collection time, and without
    the date and the hour as well. *)
Definition datos_sin_timestamp : DataFrame :=
  mkDF (index datos_prueba) (take 7 (data datos_prueba)).

Definition datos_sin_fecha : DataFrame :=
  mkDF (index datos_prueba) (List.skipn 2 (take 7 (data datos_prueba))).

(** The two columns that the unifier reads, after the converter, for the
    days of the unit tests and the given hours. *)
Definition fechas_convertidas (hs : list Z) : DataFrame :=
  mkDF [0; 1; 2; 3]%Z
    [("date", VTime <$> dias_prueba);
     ("hour", (λ h, VStr (texto_hora h)) <$> hs)].

(** The table of the unit tests with the given hours. *)
Definition datos_con_horas (hc : Series) : DataFrame :=
  setitem "hour" hc datos_prueba.

(** The table of the test of the normaliser. *)
Definition nombres_mixtos : DataFrame :=
  mkDF [0; 1]%Z
    [("TEMPERATURA", [VFloat (Q2Qc (45 # 2)); VFloat (Qc_of_Z 23)]);
     ("Humedad_Relativa", [VInt 65; VInt 68])].

Definition nombres_minusculas : DataFrame :=
  mkDF [0; 1]%Z
    [("temperatura", [VFloat (Q2Qc (45 # 2)); VFloat (Qc_of_Z 23)]);
     ("humedad_relativa", [VInt 65; VInt 68])].

(** The table of the test of the wind marker. *)
Definition grados_prueba : DataFrame :=
  mkDF [0; 1; 2; 3]%Z
    [("wind_direction_degrees",
      [VFloat (Qc_of_Z 0); VFloat (Qc_of_Z 45); VNull; VFloat (Qc_of_Z 180)])].

(** A raw table without rows. *)
Definition tabla_sin_filas : DataFrame := tabla_cruda [] [] [] [] [] [] [] [] [].

End Muestras.

(** * Properties *)

Import Py Pd Limpieza Tablas Ejemplos.

(** Closes an equation between two closed terms by evaluation. *)
Ltac by_compute := apply (bool_decide_unpack _); vm_compute; exact I.

(** ** Results and columns *)

Section Results.
Context {A B : Type}.
Implicit Types (f : A → result B) (l : list A).

Lemma mapM_Ok_fmap f (g : A → B) l :
  (∀ x, x ∈ l → f x = Ok (g x)) → mapM f l = Ok (g <$> l).
Proof.
  induction l as [|x l IH]; intros Hf; [done|].
  cbn. rewrite (Hf x) by left. cbn.
  rewrite IH; [done|]. intros y Hy. apply Hf. by right.
Qed.

Lemma mapM_Ok_Forall2 f l k :
  mapM f l = Ok k → Forall2 (λ x y, f x = Ok y) l k.
Proof.
  revert k. induction l as [|x l IH]; intros k; cbn.
  - intros [= <-]. constructor.
  - destruct (f x) as [y|e] eqn:Hx; cbn; [|done].
    destruct (mapM f l) as [k'|e]; cbn; [|done].
    intros [= <-]. constructor; [done|]. by apply IH.
Qed.
End Results.

Lemma dict_get_set_col_eq name s cols :
  dict_get (set_col name s cols) name = Some s.
Proof.
  induction cols as [|[n c] cols IH]; cbn.
  - by rewrite decide_True.
  - destruct (decide (n = name)) as [->|Hn]; cbn.
    + by rewrite decide_True.
    + by rewrite decide_False.
Qed.

Lemma dict_get_set_col_ne name name' s cols :
  name ≠ name' → dict_get (set_col name s cols) name' = dict_get cols name'.
Proof.
  intros Hne. induction cols as [|[n c] cols IH]; cbn.
  - by rewrite decide_False.
  - destruct (decide (n = name)) as [->|Hn]; cbn.
    + by rewrite !decide_False.
    + by rewrite IH.
Qed.

Lemma getitem_setitem_eq name s df :
  getitem (setitem name s df) name = Ok s.
Proof. unfold getitem, setitem. cbn. by rewrite dict_get_set_col_eq. Qed.

Lemma getitem_setitem_ne name name' s df :
  name ≠ name' → getitem (setitem name s df) name' = getitem df name'.
Proof.
  intros Hne. unfold getitem, setitem. cbn.
  by rewrite dict_get_set_col_ne.
Qed.

Lemma lookup_map_dict d s i :
  map_dict d s !! i =
  (λ v, match v with VStr k => default VNull (dict_get d k) | _ => VNull end)
    <$> (s !! i).
Proof. unfold map_dict. apply list_lookup_fmap. Qed.

Lemma lookup_map_dict_str d s i k :
  s !! i = Some (VStr k) →
  map_dict d s !! i = Some (default VNull (dict_get d k)).
Proof. intros Hi. by rewrite lookup_map_dict, Hi. Qed.

(** ** Selections *)

Section Select.
Context {A : Type}.
Implicit Types (m : list bool) (l : list A).

Lemma select_nil_r m : select m (@nil A) = [].
Proof. by destruct m. Qed.

Lemma length_select {B : Type} m l (k : list B) :
  length l = length k → length (select m l) = length (select m k).
Proof.
  revert l k. induction m as [|b m IH]; intros [|x l] [|y k] Hlen; try done.
  cbn in *. destruct b; cbn; auto.
Qed.

Lemma select_fmap {B : Type} (f : A → B) m l :
  select m (f <$> l) = f <$> select m l.
Proof.
  revert l. induction m as [|b m IH]; intros [|x l]; try done.
  cbn. destruct b; cbn; by rewrite IH.
Qed.

Lemma select_zip_with {B C : Type} (f : A → B → C) m l (k : list B) :
  select m (zip_with f l k) = zip_with f (select m l) (select m k).
Proof.
  revert l k. induction m as [|b m IH]; intros [|x l] [|y k]; try done.
  - cbn. destruct b; [done|]. by destruct (select m l).
  - cbn. destruct b; cbn; by rewrite IH.
Qed.

Lemma select_replicate m n (x : A) :
  select m (replicate n x) = replicate (length (select m (replicate n x))) x.
Proof.
  revert n. induction m as [|b m IH]; intros [|n]; try done.
  cbn. destruct b; cbn; by rewrite <-IH.
Qed.

Lemma select_all n l :
  length l ≤ n → select (replicate n true) l = l.
Proof.
  revert l. induction n as [|n IH]; intros [|x l] Hlen; try done.
  - cbn in Hlen. lia.
  - cbn in *. rewrite IH; [done|lia].
Qed.

Lemma select_sublist m l : select m l `sublist_of` l.
Proof.
  revert l. induction m as [|b m IH]; intros [|x l]; cbn; try done.
  - apply sublist_nil_l.
  - destruct b; [by apply sublist_skip|by apply sublist_cons].
Qed.

Lemma select_lookup m l i :
  select m l !! i = nth_true m i ≫= (l !!.).
Proof.
  revert l i. induction m as [|b m IH]; intros l i; [done|].
  destruct l as [|x l].
  - cbn. destruct b; [destruct i|]; cbn; try done;
      by destruct (nth_true m _).
  - cbn. destruct b.
    + destruct i as [|i]; [done|]. cbn. rewrite IH.
      by destruct (nth_true m i).
    + rewrite IH. by destruct (nth_true m i).
Qed.

End Select.

Lemma mask_sum_cons b m :
  mask_sum (b :: m) = (if b then 1 else 0) + mask_sum m.
Proof. unfold mask_sum. rewrite filter_cons. by destruct b. Qed.

(** ** Duplicates in a list *)

Section Duplicates.
Context {A : Type} `{EqDecision A}.
Implicit Types (x : A) (l seen : list A).

(** What the removal of duplicates keeps of a list. *)
Local Abbreviation keep seen l := (select (negb <$> mark_duplicates seen l) l).

Lemma length_mark_duplicates seen l :
  length (mark_duplicates seen l) = length l.
Proof. revert seen. induction l; intros seen; cbn; auto. Qed.

Lemma keep_cons seen x l :
  keep seen (x :: l) =
  if decide (x ∈ seen) then keep (x :: seen) l else x :: keep (x :: seen) l.
Proof. cbn. by case_bool_decide; case_decide. Qed.

Lemma elem_of_keep seen l x :
  x ∈ keep seen l ↔ x ∈ l ∧ x ∉ seen.
Proof.
  revert seen. induction l as [|y l IH]; intros seen.
  - cbn. rewrite elem_of_nil. tauto.
  - rewrite keep_cons. destruct (decide (y ∈ seen)) as [Hy|Hy].
    + rewrite IH, not_elem_of_cons, elem_of_cons. split.
      * intros (Hx & Hne & Hs). auto.
      * intros ([->|Hx] & Hs); [done|].
        split; [done|]. split; [|done]. by intros ->.
    + rewrite elem_of_cons, IH, not_elem_of_cons, elem_of_cons. split.
      * intros [->|(Hx & Hne & Hs)]; auto.
      * intros ([->|Hx] & Hs); [by left|].
        destruct (decide (x = y)) as [->|Hne]; [by left|]. right. auto.
Qed.

Lemma NoDup_keep seen l : NoDup (keep seen l).
Proof.
  revert seen. induction l as [|y l IH]; intros seen.
  - constructor.
  - rewrite keep_cons. case_decide; [done|].
    constructor; [|done]. rewrite elem_of_keep, not_elem_of_cons. tauto.
Qed.

Lemma mark_duplicates_NoDup seen l :
  NoDup l → (∀ x, x ∈ l → x ∉ seen) →
  mark_duplicates seen l = replicate (length l) false.
Proof.
  revert seen. induction l as [|y l IH]; intros seen Hnd Hseen; [done|].
  pose proof (NoDup_cons_1_1 _ _ Hnd) as Hy.
  apply NoDup_cons_1_2 in Hnd. cbn.
  rewrite bool_decide_eq_false_2 by (apply Hseen; by left).
  f_equal. apply IH; [done|].
  intros x Hx. rewrite not_elem_of_cons. split.
  - by intros ->.
  - apply Hseen. by right.
Qed.

Lemma mask_sum_mark_duplicates seen l :
  mask_sum (mark_duplicates seen l) + length (keep seen l) = length l.
Proof.
  revert seen. induction l as [|y l IH]; intros seen; [done|].
  rewrite keep_cons. cbn [mark_duplicates]. rewrite mask_sum_cons.
  specialize (IH (y :: seen)).
  case_bool_decide; case_decide; try done; cbn [length]; lia.
Qed.











End Duplicates.

(** ** Rows of a frame *)

Lemma length_transpose n cols :
  Forall (λ c, length c = n) cols → length (transpose n cols) = n.
Proof.
  induction 1 as [|c cols Hc _ IH]; cbn.
  - apply length_replicate.
  - rewrite length_zip_with, IH, Hc. lia.
Qed.

Lemma transpose_select {B : Type} m (idx : list B) cols :
  transpose (length (select m idx)) (select m <$> cols)
  = select m (transpose (length idx) cols).
Proof.
  induction cols as [|c cols IH]; cbn.
  - rewrite select_replicate. f_equal.
    apply length_select. by rewrite length_replicate.
  - by rewrite IH, select_zip_with.
Qed.

Lemma data_getitem_mask m df :
  (data (getitem_mask m df)).*2 = select m <$> (data df).*2.
Proof.
  cbn. induction (data df) as [|[n c] cols IH]; [done|].
  cbn. by rewrite IH.
Qed.

Lemma rows_getitem_mask m df :
  rows (getitem_mask m df) = select m (rows df).
Proof. unfold rows. rewrite data_getitem_mask. apply transpose_select. Qed.

Lemma columns_getitem_mask m df : columns (getitem_mask m df) = columns df.
Proof.
  unfold columns. cbn. induction (data df) as [|[n c] cols IH]; [done|].
  cbn. by rewrite IH.
Qed.

Lemma columns_drop_duplicates df : columns (drop_duplicates df) = columns df.
Proof.
  unfold drop_duplicates. destruct (empty df); [done|].
  apply columns_getitem_mask.
Qed.

Lemma length_rows df : wf df → length (rows df) = length (index df).
Proof.
  intros Hwf. apply length_transpose.
  apply Forall_fmap. eapply Forall_impl; [exact Hwf|]. by intros [n c].
Qed.

Lemma wf_getitem_mask m df : wf df → wf (getitem_mask m df).
Proof.
  unfold wf. cbn. intros Hwf. apply Forall_fmap.
  eapply Forall_impl; [exact Hwf|]. intros [n c] Hc. cbn in *.
  by apply length_select.
Qed.

Lemma getitem_mask_all df :
  wf df → getitem_mask (replicate (length (index df)) true) df = df.
Proof.
  destruct df as [idx cols]. unfold wf, getitem_mask. cbn. intros Hwf.
  rewrite select_all by done. f_equal.
  induction Hwf as [|[n c] cols Hc _ IH]; [done|].
  cbn in *. rewrite IH. unfold prod_map. cbn.
  rewrite select_all; [done|lia].
Qed.

Lemma mask_sum_replicate_false n : mask_sum (replicate n false) = 0.
Proof.
  induction n as [|n IH]; [done|].
  change (replicate (S n) false) with (false :: replicate n false).
  by rewrite mask_sum_cons.
Qed.

Lemma rows_drop_duplicates df :
  empty df = false →
  rows (drop_duplicates df)
  = select (negb <$> mark_duplicates [] (rows df)) (rows df).
Proof.
  intros He. unfold drop_duplicates, duplicated. rewrite He.
  apply rows_getitem_mask.
Qed.

Lemma verificar_duplicados_NoDup df :
  wf df → NoDup (rows df) → verificar_duplicados df = (df, 0).
Proof.
  intros Hwf Hnd.
  unfold verificar_duplicados, drop_duplicates, duplicated, copy.
  destruct (empty df); [done|].
  rewrite mark_duplicates_NoDup by (done || intros; apply not_elem_of_nil).
  rewrite fmap_replicate, length_rows, mask_sum_replicate_false by done.
  cbn. by rewrite getitem_mask_all.
Qed.

(** ** Removal of duplicates *)




(** ** The translators *)

(** The two new columns of the wind translator are the two look-ups of the
    raw column. *)
Lemma traducir_direccion_viento_columns df s :
  getitem df "wind_direction" = Ok s →
  ∃ df', traducir_direccion_viento df = Ok df' ∧
    index df' = index df ∧
    getitem df' "wind_direction_completo" = Ok (map_dict wind_direction_completo s) ∧
    getitem df' "wind_direction_grados" = Ok (map_dict wind_direction_grados s).
Proof.
  intros Hs. unfold traducir_direccion_viento. rewrite Hs. cbn.
  eexists; split; [done|]. split; [done|]. split.
  - rewrite getitem_setitem_ne by done. apply getitem_setitem_eq.
  - apply getitem_setitem_eq.
Qed.

Lemma traducir_condicion_cielo_columns df s :
  getitem df "sky_condition" = Ok s →
  ∃ df', traducir_condicion_cielo df = Ok df' ∧
    index df' = index df ∧
    getitem df' "sky_condition_ingles" = Ok (map_dict sky_condition_ingles s).
Proof.
  intros Hs. unfold traducir_condicion_cielo. rewrite Hs. cbn.
  eexists; split; [done|]. split; [done|]. apply getitem_setitem_eq.
Qed.

Lemma rumbos_inv code g :
  (code, g) ∈ rumbos →
  (code, g) = ("N", 0%Z) ∨ (code, g) = ("NE", 45%Z) ∨ (code, g) = ("E", 90%Z) ∨
  (code, g) = ("SE", 135%Z) ∨ (code, g) = ("S", 180%Z) ∨ (code, g) = ("SO", 225%Z) ∨
  (code, g) = ("O", 270%Z) ∨ (code, g) = ("NO", 315%Z).
Proof. unfold rumbos. rewrite !elem_of_cons, elem_of_nil. tauto. Qed.

(** C4: on a row whose raw code is one of N, NE, E, SE, S, SO, O, NO the
    wind translator writes the full English name of the compass point,
    north, northeast, east, southeast, south, southwest, west, northwest,
    a name that no other of these codes receives, and the degrees of the
    code, N=0, NE=45, E=90, SE=135, S=180, SO=225, O=270, NO=315, all in
    [0, 360); on a row whose raw code is C it writes the name calm and a
    null degree. *)
Theorem traducir_direccion_viento_rumbos df s :
  getitem df "wind_direction" = Ok s →
  ∃ df' nombres grados,
    traducir_direccion_viento df = Ok df' ∧
    getitem df' "wind_direction_completo" = Ok nombres ∧
    getitem df' "wind_direction_grados" = Ok grados ∧
    length nombres = length s ∧ length grados = length s ∧
    ∀ i code,
      s !! i = Some (VStr code) →
      (∀ g, (code, g) ∈ rumbos →
         (0 ≤ g < 360)%Z ∧
         grados !! i = Some (VFloat (Qc_of_Z g)) ∧
         ∃ nombre, nombres !! i = Some (VStr nombre) ∧
           ∀ j code', code' ∈ rumbos.*1 → s !! j = Some (VStr code') →
             nombres !! j = Some (VStr nombre) → code' = code) ∧
      (∀ nombre, (code, nombre) ∈ nombres_rumbos →
         nombres !! i = Some (VStr nombre)) ∧
      (code = "C" →
         nombres !! i = Some (VStr "calm") ∧ grados !! i = Some VNull).
Proof.
  intros Hs.
  destruct (traducir_direccion_viento_columns df s Hs) as (df' & Hrun & _ & Hn & Hg).
  exists df', (map_dict wind_direction_completo s), (map_dict wind_direction_grados s).
  split_and!; try done; try (unfold map_dict; by rewrite length_fmap).
  intros i code Hi. split; [intros g Hin|split; [intros nombre Hin|intros ->]].
  - assert (code ∈ rumbos.*1) as Hcode by (apply list_elem_of_fmap; by exists (code, g)).
    split; [|split].
    + apply rumbos_inv in Hin. destruct_or!; simplify_eq; lia.
    + rewrite (lookup_map_dict_str _ _ _ _ Hi).
      apply rumbos_inv in Hin. destruct_or!; by simplify_eq.
    + assert (∃ nombre, dict_get wind_direction_completo code = Some (VStr nombre))
        as [nombre Hc].
      { apply rumbos_inv in Hin. destruct_or!; simplify_eq; by eexists. }
      exists nombre. rewrite (lookup_map_dict_str _ _ _ _ Hi), Hc. split; [done|].
      intros j code' Hin' Hj. rewrite (lookup_map_dict_str _ _ _ _ Hj).
      destruct (dict_get wind_direction_completo code') as [v|] eqn:Hd; [|done].
      intros [= ->].
      apply list_elem_of_fmap in Hin' as [[c g'] [-> Hin']].
      apply rumbos_inv in Hin, Hin'.
      destruct_or!; simplify_eq; try done;
        exfalso; vm_compute in Hc, Hd; congruence.
  - rewrite (lookup_map_dict_str _ _ _ _ Hi).
    unfold nombres_rumbos in Hin. rewrite !elem_of_cons, elem_of_nil in Hin.
    destruct_or!; by simplify_eq.
  - by rewrite !(lookup_map_dict_str _ _ _ _ Hi).
Qed.


Lemma dict_get_unknown {V : Type} (d : list (string * V)) k :
  k ∉ d.*1 → dict_get d k = None.
Proof.
  induction d as [|[k' v] d IH]; [done|]. cbn.
  rewrite not_elem_of_cons. intros [Hk Hd].
  rewrite decide_False by done. by apply IH.
Qed.

(** ** The pipeline on a raw table *)

Lemma astype_float_grados wd :
  astype_float (map_dict wind_direction_grados wd)
  = Ok (map_dict wind_direction_grados wd).
Proof.
  unfold astype_float. rewrite <-(list_fmap_id (map_dict _ _)) at 2.
  apply mapM_Ok_fmap. intros x Hx.
  unfold map_dict in Hx. apply list_elem_of_fmap in Hx as [v [-> _]].
  destruct v as [|k| | |]; try done.
  unfold wind_direction_grados. cbn.
  repeat (case_decide; [done|]). done.
Qed.

Lemma apply_estado g :
  apply estado g = Ok ((λ x, VStr (if isna x then "calm" else "with wind")) <$> g).
Proof. unfold apply. by apply mapM_Ok_fmap. Qed.

Local Ltac red_pipeline :=
  cbv -[to_datetime apply astype_float astype_str str_add str_add_const map_dict
        drop_duplicates duplicated wind_direction_grados sky_condition_ingles
        wind_direction_completo formato_hora estado].

(** The pipeline on a raw table: the five conversions and the unifier may
    raise; the codes and phrases only feed the look-ups. *)
Lemma proceso_raw idx dc hc tc uc wc wd sk ts :
  proceso_completo_limpieza (tabla_cruda idx dc hc tc uc wc wd sk ts) =
  d ← to_datetime false dc;
  h ← apply formato_hora hc;
  t ← astype_float tc;
  u ← astype_float uc;
  w ← astype_float wc;
  dt ← fecha_hora d h;
  Ok (verificar_duplicados (tabla_limpia idx dt t u w wd sk)).1.
Proof.
  transitivity (
    d ← to_datetime false dc;
    h ← apply formato_hora hc;
    t ← astype_float tc;
    u ← astype_float uc;
    w ← astype_float wc;
    g ← astype_float (map_dict wind_direction_grados wd);
    dt ← fecha_hora d h;
    st ← apply estado g;
    Ok (verificar_duplicados (mkDF idx
      [("datetime", dt); ("temperature", t); ("humidity", u); ("wind_speed", w);
       ("wind_direction", map_dict wind_direction_completo wd);
       ("wind_direction_degrees", g);
       ("sky_condition", map_dict sky_condition_ingles sk);
       ("wind_status", st)])).1).
  - unfold fecha_hora, tabla_cruda. red_pipeline.
    destruct (to_datetime false dc) as [d|e]; [|reflexivity].
    destruct (apply formato_hora hc) as [h|e]; [|reflexivity].
    destruct (astype_float tc) as [t|e]; [|reflexivity].
    destruct (astype_float uc) as [u|e]; [|reflexivity].
    destruct (astype_float wc) as [w|e]; [|reflexivity].
    destruct (astype_float (map_dict wind_direction_grados wd)) as [g|e]; [|reflexivity].
    destruct (astype_str d) as [ds|e]; [|reflexivity].
    destruct (str_add_const ds " ") as [ds'|e]; [|reflexivity].
    destruct (astype_str h) as [hs|e]; [|reflexivity].
    destruct (str_add ds' hs) as [s|e]; [|reflexivity].
    destruct (to_datetime false s) as [dt|e]; [|reflexivity].
    destruct (apply estado g) as [st|e]; reflexivity.
  - rewrite astype_float_grados.
    destruct (to_datetime false dc) as [d|e]; [|reflexivity].
    destruct (apply formato_hora hc) as [h|e]; [|reflexivity].
    destruct (astype_float tc) as [t|e]; [|reflexivity].
    destruct (astype_float uc) as [u|e]; [|reflexivity].
    destruct (astype_float wc) as [w|e]; [|reflexivity].
    cbn. destruct (fecha_hora d h) as [dt|e]; [|reflexivity].
    cbn. rewrite apply_estado. reflexivity.
Qed.

Lemma raw_inv df :
  columns df = esquema_crudo →
  ∃ dc hc tc uc wc wd sk ts, df = tabla_cruda (index df) dc hc tc uc wc wd sk ts.
Proof.
  destruct df as [idx cols]. unfold columns, esquema_crudo, tabla_cruda. cbn.
  intros Hcols.
  repeat (destruct cols as [|[? ?] cols]; [discriminate Hcols|]).
  destruct cols; [|discriminate Hcols].
  cbn in Hcols. simplify_eq. by eexists _, _, _, _, _, _, _, _.
Qed.

(** ** The clean table *)

Lemma is_Ok_inv {A : Type} (r : result A) : is_Ok r → ∃ a, r = Ok a.
Proof. destruct r as [a|e]; [by exists a|done]. Qed.

Lemma bind_Ok_inv {A B : Type} (m : result A) (k : A → result B) b :
  m ≫= k = Ok b → ∃ a, m = Ok a ∧ k a = Ok b.
Proof. destruct m as [a|e]; [|done]. intros Hk. by exists a. Qed.

Lemma proceso_raw_Ok idx dc hc tc uc wc wd sk ts out :
  proceso_completo_limpieza (tabla_cruda idx dc hc tc uc wc wd sk ts) = Ok out →
  ∃ dt t u w, out = drop_duplicates (tabla_limpia idx dt t u w wd sk).
Proof.
  rewrite proceso_raw. intros Hrun.
  apply bind_Ok_inv in Hrun as (d & _ & Hrun).
  apply bind_Ok_inv in Hrun as (h & _ & Hrun).
  apply bind_Ok_inv in Hrun as (t & _ & Hrun).
  apply bind_Ok_inv in Hrun as (u & _ & Hrun).
  apply bind_Ok_inv in Hrun as (w & _ & Hrun).
  apply bind_Ok_inv in Hrun as (dt & _ & Hrun).
  injection Hrun as <-. by exists dt, t, u, w.
Qed.

(** C1: on a raw table, with the columns date, hour, temperature,
    humidity, wind_speed, wind_direction, sky_condition, timestamp, the
    table that the pipeline returns has the columns datetime, temperature,
    humidity, wind_speed, wind_direction, wind_direction_degrees,
    sky_condition, wind_status, in this order: datetime comes first and no
    column is named date, hour or timestamp. *)
Theorem proceso_completo_limpieza_esquema df out :
  columns df = esquema_crudo →
  proceso_completo_limpieza df = Ok out →
  columns out = esquema_limpio ∧
  head (columns out) = Some "datetime" ∧
  ("date" ∉ columns out) ∧ ("hour" ∉ columns out) ∧ ("timestamp" ∉ columns out).
Proof.
  intros (dc & hc & tc & uc & wc & wd & sk & ts & ->)%raw_inv Hrun.
  apply proceso_raw_Ok in Hrun as (dt & t & u & w & ->).
  rewrite columns_drop_duplicates.
  change (columns (tabla_limpia (index _) dt t u w wd sk)) with esquema_limpio.
  split_and!; [done..| | |]; apply (bool_decide_unpack _); by vm_compute.
Qed.

(** ** Calm wind *)

Lemma getitem_getitem_mask m df name s :
  getitem df name = Ok s →
  getitem (getitem_mask m df) name = Ok (select m s).
Proof.
  unfold getitem. cbn. induction (data df) as [|[n c] cols IH]; [done|].
  cbn. case_decide; [by intros [= <-]|done].
Qed.

(** The removal of duplicates moves every cell of a kept row from its
    position to the position of the row in the result, in all columns and
    in the index alike. *)
Lemma drop_duplicates_lookup df :
  ∃ f : nat → option nat,
    (∀ i, index (drop_duplicates df) !! i = f i ≫= (index df !!.)) ∧
    (∀ name s, getitem df name = Ok s →
       ∃ s', getitem (drop_duplicates df) name = Ok s' ∧
             ∀ i, s' !! i = f i ≫= (s !!.)).
Proof.
  unfold drop_duplicates. destruct (empty df).
  - exists Some. split; [done|]. intros name s Hs. by exists s.
  - exists (nth_true (negb <$> duplicated df)). split.
    + intros i. apply select_lookup.
    + intros name s Hs. eexists. split; [by apply getitem_getitem_mask|].
      intros i. apply select_lookup.
Qed.

Lemma dict_get_grados k :
  ((k ∈ rumbos.*1) ∧ ∃ g, dict_get wind_direction_grados k = Some (VFloat g)) ∨
  ((k ∉ rumbos.*1) ∧ default VNull (dict_get wind_direction_grados k) = VNull).
Proof.
  destruct (decide (k ∈ rumbos.*1)) as [Hin|Hnot]; [left|right]; split; try done.
  - unfold rumbos in Hin. cbn in Hin. rewrite !elem_of_cons, elem_of_nil in Hin.
    destruct_or!; subst; try done; by eexists.
  - destruct (decide (k = "C")) as [->|HC]; [done|].
    rewrite dict_get_unknown; [done|].
    change (wind_direction_grados.*1) with (rumbos.*1 ++ ["C"]).
    rewrite elem_of_app, list_elem_of_singleton. tauto.
Qed.

Lemma proceso_fila_codigo_desconocido :
  proceso_completo_limpieza fila_codigo_desconocido
  = Ok fila_codigo_desconocido_limpia.
Proof. by_compute. Qed.

(** C3, as stated: a raw code that the translator does not know gives a
    null degree and a calm status although the code is not C. *)
Lemma calma_sin_codigo_C :
  ¬ calma_solo_con_codigo_C fila_codigo_desconocido.
Proof.
  intros Hclaim.
  destruct (Hclaim fila_codigo_desconocido_limpia [VStr "X"] [VNull] [VStr "calm"]
              proceso_fila_codigo_desconocido eq_refl eq_refl eq_refl 0 0%Z eq_refl)
    as (j & code & g & e & Hj & Hcode & Hg & He & Hiff & _).
  destruct j as [|j]; [|by destruct j].
  cbn in Hcode, Hg. simplify_eq. by pose proof (proj1 Hiff eq_refl).
Qed.

(** C3, amended: every row of the clean table comes from a raw row of
    the same label, and on it the degree is null iff the status is calm
    iff the raw code is none of the eight compass codes; for a raw code
    among the nine known ones this is the code C.  With distinct labels
    the raw row is the only one under its label. *)
Theorem calma_sii_grados_nulos df out :
  wf df → columns df = esquema_crudo →
  proceso_completo_limpieza df = Ok out →
  ∃ wd grados estados,
    getitem df "wind_direction" = Ok wd ∧
    getitem out "wind_direction_degrees" = Ok grados ∧
    getitem out "wind_status" = Ok estados ∧
    ∀ i ℓ, index out !! i = Some ℓ →
      ∃ j code g e,
        index df !! j = Some ℓ ∧ wd !! j = Some code ∧
        grados !! i = Some g ∧ estados !! i = Some e ∧
        (g = VNull ↔ e = VStr "calm") ∧
        (g = VNull ↔ ∀ c, c ∈ rumbos.*1 → code ≠ VStr c) ∧
        ((∃ c, c ∈ codigos_viento ∧ code = VStr c) →
           (g = VNull ↔ code = VStr "C")) ∧
        (NoDup (index df) → ∀ j', index df !! j' = Some ℓ → j' = j).
Proof.
  intros Hwf (dc & hc & tc & uc & wc & wd & sk & ts & Hdf)%raw_inv Hrun.
  rewrite Hdf in Hrun, Hwf |- *. clear Hdf. set (idx := index df) in *. clearbody idx.
  apply proceso_raw_Ok in Hrun as (dt & t & u & w & ->).
  destruct (drop_duplicates_lookup (tabla_limpia idx dt t u w wd sk))
    as (f & Hidx & Hcol).
  destruct (Hcol "wind_direction_degrees" _ eq_refl) as (grados & Hgrados & Hg).
  destruct (Hcol "wind_status" _ eq_refl) as (estados & Hestados & He).
  exists wd, grados, estados. split_and!; [done..|].
  intros i ℓ Hi. rewrite Hidx in Hi.
  destruct (f i) as [j|] eqn:Hf; [|done]. cbn in Hi.
  assert (length wd = length idx) as Hlen.
  { unfold wf, tabla_cruda in Hwf. cbn in Hwf.
    by do 5 apply Forall_cons_1 in Hwf as [_ Hwf]; apply Forall_cons_1 in Hwf as [? _]. }
  destruct (lookup_lt_is_Some_2 wd j) as [code Hcode].
  { rewrite Hlen. by eapply lookup_lt_Some. }
  specialize (Hg i). specialize (He i). rewrite Hf in Hg, He. cbn in Hg, He.
  set (g := match code with
            | VStr k => default VNull (dict_get wind_direction_grados k)
            | _ => VNull
            end).
  assert (grados !! i = Some g) as Hgi
    by (by rewrite Hg, lookup_map_dict, Hcode).
  assert (estados !! i = Some (VStr (if isna g then "calm" else "with wind")))
    as Hei by (by rewrite He, list_lookup_fmap, lookup_map_dict, Hcode).
  exists j, code, g, (VStr (if isna g then "calm" else "with wind")).
  split_and!; [done..| | | |].
  - by destruct g.
  - unfold g. destruct code as [|k| | |]; try (split; [by intros _ ? _|done]).
    destruct (dict_get_grados k) as [[Hin [q Hk]]|[Hnot Hk]]; rewrite Hk; cbn.
    + split; [done|]. intros Hc. by destruct (Hc k Hin).
    + split; [|done]. by intros _ c Hc [= ->].
  - unfold g. intros (c & Hc & ->).
    destruct (dict_get_grados c) as [[Hin [q Hk]]|[Hnot Hk]]; rewrite Hk; cbn.
    + split; [done|]. intros [= ->]. revert Hin. apply (bool_decide_unpack _). by vm_compute.
    + split; [|done]. intros _. unfold codigos_viento in Hc.
      rewrite elem_of_app, list_elem_of_singleton in Hc. by destruct Hc as [?| ->].
  - intros Hnd j' Hj'. by eapply NoDup_lookup.
Qed.

(** ** Outliers *)

Lemma Some_true_iff (b : bool) : Some b = Some true ↔ b = true.
Proof. split; [by intros [= ->]|by intros ->]. Qed.

Lemma as_number_numero v :
  v = VNull ∨ is_Some (numero v) → as_number v = Ok (numero v).
Proof. intros [->|[q Hq]]; [done|]. by destruct v. Qed.

Lemma lt_const_numerica c s :
  numerica s → lt_const c s = Ok (bajo c <$> s).
Proof.
  intros Hs. apply mapM_Ok_fmap. intros v Hv.
  rewrite as_number_numero; [done|].
  by apply (proj1 (Forall_forall _ _) Hs).
Qed.

Lemma gt_const_numerica c s :
  numerica s → gt_const c s = Ok (sobre c <$> s).
Proof.
  intros Hs. apply mapM_Ok_fmap. intros v Hv.
  rewrite as_number_numero; [done|].
  by apply (proj1 (Forall_forall _ _) Hs).
Qed.

Lemma bajo_menor c v : bajo c v = true ↔ menor v c.
Proof.
  unfold bajo, menor. destruct (numero v) as [q|]; cbn.
  - rewrite bool_decide_eq_true. split; [by exists q|].
    by intros (q' & [= <-] & Hq).
  - split; [done|]. by intros (q' & [=] & _).
Qed.

Lemma sobre_mayor c v : sobre c v = true ↔ mayor v c.
Proof.
  unfold sobre, mayor. destruct (numero v) as [q|]; cbn.
  - rewrite bool_decide_eq_true. split; [by exists q|].
    by intros (q' & [= <-] & Hq).
  - split; [done|]. by intros (q' & [=] & _).
Qed.

Lemma menor_null c : ¬ menor VNull c.
Proof. by intros (q & [=] & _). Qed.

Lemma mayor_null c : ¬ mayor VNull c.
Proof. by intros (q & [=] & _). Qed.

Lemma getitem_length df name s :
  wf df → getitem df name = Ok s → length s = length (index df).
Proof.
  unfold wf, getitem. induction 1 as [|[n c] cols Hc _ IH]; [done|].
  cbn. case_decide; [by intros [= <-]|done].
Qed.

(** The rows that the detector returns are those of the mask of the five
    comparisons. *)
Lemma detectar_outliers_mask df t h w :
  wf df →
  getitem df "temperature" = Ok t →
  getitem df "humidity" = Ok h →
  getitem df "wind_speed" = Ok w →
  numerica t → numerica h → numerica w →
  ∃ mask,
    detectar_outliers df = Ok (getitem_mask mask df) ∧
    length mask = length (index df) ∧
    ∀ i tv hv wv,
      t !! i = Some tv → h !! i = Some hv → w !! i = Some wv →
      mask !! i =
      Some (bajo (-10) tv || sobre 50 tv || bajo 0 hv || sobre 100 hv || bajo 0 wv).
Proof.
  intros Hwf Ht Hh Hw Nt Nh Nw.
  pose proof (getitem_length _ _ _ Hwf Ht) as Lt.
  pose proof (getitem_length _ _ _ Hwf Hh) as Lh.
  pose proof (getitem_length _ _ _ Hwf Hw) as Lw.
  unfold detectar_outliers. rewrite Ht, Hh, Hw. cbn.
  rewrite !lt_const_numerica, !gt_const_numerica by done. cbn.
  eexists. split; [done|]. unfold mask_or. split.
  - rewrite !length_zip_with, !length_fmap. lia.
  - intros i tv hv wv Hti Hhi Hwi.
    rewrite !lookup_zip_with, !list_lookup_fmap, Hti, Hhi, Hwi. done.
Qed.

(** C7: on numeric columns the detector returns the rows, under their
    labels and in their order, on which the temperature is below -10 or
    above 50, or the humidity below 0 or above 100, or the wind speed below
    0, and no other row.  A row with temperature -15, or 55, or humidity
    101, or wind speed -5 is returned; a row with temperature 20, humidity
    50 and wind speed 8 is not. *)
Theorem detectar_outliers_subconjunto df t h w :
  wf df →
  getitem df "temperature" = Ok t →
  getitem df "humidity" = Ok h →
  getitem df "wind_speed" = Ok w →
  numerica t → numerica h → numerica w →
  ∃ out mask,
    detectar_outliers df = Ok out ∧
    length mask = length (index df) ∧
    index out = select mask (index df) ∧
    rows out = select mask (rows df) ∧
    columns out = columns df ∧
    ∀ i tv hv wv,
      t !! i = Some tv → h !! i = Some hv → w !! i = Some wv →
      (mask !! i = Some true ↔
         menor tv (-10) ∨ mayor tv 50 ∨ menor hv 0 ∨ mayor hv 100 ∨ menor wv 0) ∧
      (mask !! i = Some false ↔
         ¬ (menor tv (-10) ∨ mayor tv 50 ∨ menor hv 0 ∨ mayor hv 100 ∨ menor wv 0)) ∧
      (numero tv = Some (Qc_of_Z (-15)) ∨ numero tv = Some (Qc_of_Z 55) ∨
       numero hv = Some (Qc_of_Z 101) ∨ numero wv = Some (Qc_of_Z (-5)) →
       mask !! i = Some true) ∧
      (numero tv = Some (Qc_of_Z 20) → numero hv = Some (Qc_of_Z 50) →
       numero wv = Some (Qc_of_Z 8) → mask !! i = Some false).
Proof.
  intros Hwf Ht Hh Hw Nt Nh Nw.
  destruct (detectar_outliers_mask df t h w) as (mask & Hrun & Hlen & Hmask);
    try done.
  exists (getitem_mask mask df), mask.
  split_and!; [done..|apply rows_getitem_mask|apply columns_getitem_mask|].
  intros i tv hv wv Hti Hhi Hwi. rewrite (Hmask i tv hv wv) by done.
  assert (bajo (-10) tv || sobre 50 tv || bajo 0 hv || sobre 100 hv || bajo 0 wv = true
          ↔ menor tv (-10) ∨ mayor tv 50 ∨ menor hv 0 ∨ mayor hv 100 ∨ menor wv 0)
    as Hiff.
  { rewrite !orb_true_iff, !bajo_menor, !sobre_mayor. tauto. }
  split_and!.
  - rewrite <-Hiff. apply Some_true_iff.
  - rewrite <-Hiff. destruct (_ || _); split; congruence.
  - unfold bajo, sobre. intros [-> | [-> | [-> | ->]]]; cbn;
      f_equal; rewrite ?orb_true_iff; auto 10.
  - unfold bajo, sobre. by intros -> -> ->.
Qed.

(** C10: a missing measurement satisfies no comparison of the detector,
    so a row is returned on account of its numbers only: a row on which
    every measurement is missing or within its bounds is not returned. *)
Theorem detectar_outliers_ignora_nulos df t h w :
  wf df →
  getitem df "temperature" = Ok t →
  getitem df "humidity" = Ok h →
  getitem df "wind_speed" = Ok w →
  numerica t → numerica h → numerica w →
  (∀ c, lt_const c [VNull] = Ok [false] ∧ gt_const c [VNull] = Ok [false]) ∧
  ∃ mask,
    detectar_outliers df = Ok (getitem_mask mask df) ∧
    length mask = length (index df) ∧
    ∀ i tv hv wv,
      t !! i = Some tv → h !! i = Some hv → w !! i = Some wv →
      (tv = VNull →
         (mask !! i = Some true ↔ menor hv 0 ∨ mayor hv 100 ∨ menor wv 0)) ∧
      (hv = VNull →
         (mask !! i = Some true ↔ menor tv (-10) ∨ mayor tv 50 ∨ menor wv 0)) ∧
      (wv = VNull →
         (mask !! i = Some true ↔
            menor tv (-10) ∨ mayor tv 50 ∨ menor hv 0 ∨ mayor hv 100)) ∧
      ((tv = VNull ∨ ∃ q, numero tv = Some q ∧ (Qc_of_Z (-10) ≤ q ≤ Qc_of_Z 50)%Qc) →
       (hv = VNull ∨ ∃ q, numero hv = Some q ∧ (Qc_of_Z 0 ≤ q ≤ Qc_of_Z 100)%Qc) →
       (wv = VNull ∨ ∃ q, numero wv = Some q ∧ (Qc_of_Z 0 ≤ q)%Qc) →
       mask !! i = Some false).
Proof.
  intros Hwf Ht Hh Hw Nt Nh Nw. split; [done|].
  destruct (detectar_outliers_mask df t h w) as (mask & Hrun & Hlen & Hmask);
    try done.
  exists mask. split_and!; [done..|].
  intros i tv hv wv Hti Hhi Hwi. rewrite (Hmask i tv hv wv) by done.
  split_and!.
  - intros ->. rewrite Some_true_iff, !orb_true_iff, !bajo_menor, !sobre_mayor.
    pose proof (menor_null (-10)). pose proof (mayor_null 50). tauto.
  - intros ->. rewrite Some_true_iff, !orb_true_iff, !bajo_menor, !sobre_mayor.
    pose proof (menor_null 0). pose proof (mayor_null 100). tauto.
  - intros ->. rewrite Some_true_iff, !orb_true_iff, !bajo_menor, !sobre_mayor.
    pose proof (menor_null 0). tauto.
  - intros Htv Hhv Hwv. f_equal. rewrite !orb_false_iff. split_and!.
    + destruct Htv as [->|(q & Hq & Hlo & _)]; [done|].
      apply not_true_is_false. rewrite bajo_menor. intros (q' & Hq' & Hlt).
      simplify_eq. by apply Qclt_not_le in Hlt.
    + destruct Htv as [->|(q & Hq & _ & Hhi')]; [done|].
      apply not_true_is_false. rewrite sobre_mayor. intros (q' & Hq' & Hlt).
      simplify_eq. by apply Qclt_not_le in Hlt.
    + destruct Hhv as [->|(q & Hq & Hlo & _)]; [done|].
      apply not_true_is_false. rewrite bajo_menor. intros (q' & Hq' & Hlt).
      simplify_eq. by apply Qclt_not_le in Hlt.
    + destruct Hhv as [->|(q & Hq & _ & Hhi')]; [done|].
      apply not_true_is_false. rewrite sobre_mayor. intros (q' & Hq' & Hlt).
      simplify_eq. by apply Qclt_not_le in Hlt.
    + destruct Hwv as [->|(q & Hq & Hlo)]; [done|].
      apply not_true_is_false. rewrite bajo_menor. intros (q' & Hq' & Hlt).
      simplify_eq. by apply Qclt_not_le in Hlt.
Qed.

(** ** The end-to-end example *)

Lemma proceso_fila_ejemplo ts :
  proceso_completo_limpieza (fila_ejemplo ts) = Ok fila_18_febrero_limpia.
Proof. unfold fila_ejemplo. rewrite proceso_raw. by_compute. Qed.

(** C2: the pipeline maps the row of the example, dated 18/02/2025 and
    whatever its collection time, to the one clean row of the example, and
    it reads ISO dates; but it does not take the first component of
    dd/mm/yyyy as the day: the same forecast dated 05/02/2025, the fifth of
    February, comes out on the second of May, where a reading with the day
    first gives the fifth of February. *)
Theorem proceso_fecha_dia_primero :
  (∀ ts, proceso_completo_limpieza (fila_ejemplo ts) = Ok fila_18_febrero_limpia) ∧
  to_datetime false [VStr "2025-02-05"] = Ok [VTime (mkTs 2025 2 5 0 0 0)] ∧
  proceso_completo_limpieza fila_5_febrero = Ok fila_5_febrero_limpia ∧
  getitem fila_5_febrero_limpia "datetime" = Ok [VTime (mkTs 2025 5 2 8 0 0)] ∧
  to_datetime false [VStr "05/02/2025"] = Ok [VTime (mkTs 2025 5 2 0 0 0)] ∧
  to_datetime true [VStr "05/02/2025"] = Ok [VTime (mkTs 2025 2 5 0 0 0)].
Proof. split_and!; [apply proceso_fila_ejemplo|by_compute..]. Qed.

(** ** The store *)

Section Store.
Implicit Types (σ : Mut.store) (r : Mut.loc) (d df : DataFrame).

Lemma lookup_snoc σ d : (σ ++ [d]) !! length σ = Some d.
Proof. by apply list_lookup_middle. Qed.

Lemma insert_snoc σ d d' : <[length σ := d']> (σ ++ [d]) = σ ++ [d'].
Proof. rewrite insert_app_r_alt by lia. by rewrite Nat.sub_diag. Qed.

Lemma prefix_insert_ge σ0 σ r d :
  σ0 `prefix_of` σ → length σ0 ≤ r → σ0 `prefix_of` <[r := d]> σ.
Proof.
  intros [k ->] Hr. rewrite insert_app_r_alt by done. by apply prefix_app_r.
Qed.

Lemma run_read {A : Type} σ r d (k : DataFrame → Mut.M A) :
  σ !! r = Some d → (Mut.read r ≫= k) σ = k d σ.
Proof. intros Hr. unfold mbind, Mut.M_bind, Mut.read. by rewrite Hr. Qed.

Lemma run_lift {A B : Type} σ (x : result A) (k : A → Mut.M B) :
  (Mut.lift x ≫= k) σ
  = match x with Ok a => k a σ | Raise e => (σ, Raise e) end.
Proof. by destruct x. Qed.

Lemma run_write {A : Type} σ r d (k : unit → Mut.M A) :
  (Mut.write r d ≫= k) σ = k () (<[r := d]> σ).
Proof. done. Qed.

Lemma run_alloc {A : Type} σ d (k : Mut.loc → Mut.M A) :
  (Mut.alloc d ≫= k) σ = k (length σ) (σ ++ [d]).
Proof. done. Qed.

Lemma run_bind_assoc {A B C : Type} σ
    (m : Mut.M A) (f : A → Mut.M B) (g : B → Mut.M C) :
  ((m ≫= f) ≫= g) σ = (m ≫= λ a, f a ≫= g) σ.
Proof. unfold mbind, Mut.M_bind. by destruct (m σ) as [σ' [a|e]]. Qed.

Lemma run_ret_bind {A B : Type} σ (a : A) (k : A → Mut.M B) :
  (mret a ≫= k) σ = k a σ.
Proof. done. Qed.

Lemma run_ret {A : Type} σ (a : A) : (mret a : Mut.M A) σ = (σ, Ok a).
Proof. done. Qed.

Lemma agrees_own_Ok σ d : Mut.agrees σ (σ ++ [d], Ok (length σ)) (Ok d).
Proof.
  split; [by apply prefix_app_r|]. exists (length σ).
  split_and!; [done..|apply lookup_snoc].
Qed.

Lemma agrees_own_Raise σ d e : Mut.agrees σ (σ ++ [d], Raise e) (Raise e).
Proof. split; [by apply prefix_app_r|done]. Qed.

Lemma agrees_Raise σ e : Mut.agrees σ (σ, Raise e) (Raise e).
Proof. done. Qed.

Lemma agrees_weaken σ0 σ x p :
  σ0 `prefix_of` σ → Mut.agrees σ x p → Mut.agrees σ0 x p.
Proof.
  intros Hpre [Hx Hp]. split; [by etrans|].
  destruct p as [d|e]; [|done].
  destruct Hp as (r & ? & ? & ?). exists r. split_and!; [done| |done].
  apply prefix_length in Hpre. lia.
Qed.

(** A call followed by the rest of the function. *)
Lemma agrees_bind σ0 σ (m : Mut.M Mut.loc) (k : Mut.loc → Mut.M Mut.loc) p g :
  Mut.agrees σ0 (m σ) p →
  (∀ σ1 r1 d1, σ0 `prefix_of` σ1 → length σ0 ≤ r1 → σ1 !! r1 = Some d1 →
     Mut.agrees σ0 (k r1 σ1) (g d1)) →
  Mut.agrees σ0 ((m ≫= k) σ) (p ≫= g).
Proof.
  unfold mbind at 1, Mut.M_bind. destruct (m σ) as [σ1 res].
  intros [Hpre Hp] Hk. destruct p as [d|e]; cbn in *.
  - destruct Hp as (r & -> & ? & ?). by apply Hk.
  - by subst res.
Qed.
End Store.

(** Runs the store side of a goal up to the next operation that may
    raise. *)
Ltac mut_run :=
  repeat first
    [ rewrite run_bind_assoc
    | rewrite run_ret_bind
    | rewrite run_ret
    | rewrite run_alloc
    | rewrite run_write
    | rewrite run_lift
    | rewrite insert_snoc
    | rewrite (run_read _ _ _ _ (lookup_snoc _ _))
    | erewrite run_read by (apply lookup_app_l_Some; eassumption)
    | erewrite run_read by eassumption ].

Ltac mut_case :=
  match goal with
  | |- context [match ?x with Ok _ => _ | Raise _ => _ end] =>
      lazymatch x with
      | Ok _ => fail
      | Raise _ => fail
      | _ => destruct x eqn:?; cbn [mbind result_bind]; cbv beta iota
      end
  end.

Ltac mut_methods :=
  unfold Mut.copy, Mut.getitem, Mut.setitem, Mut.columns, Mut.drop_inplace,
    Mut.lower_columns, Mut.rename_inplace, Mut.getitem_mask, Mut.duplicated,
    Mut.drop_duplicates.

(** A function that works on one copy of its argument. *)
Ltac mut_agrees :=
  mut_methods;
  repeat (mut_run; try mut_case; try case_decide; simplify_eq);
  first [done | apply agrees_own_Ok | apply agrees_own_Raise | apply agrees_Raise].

Section Stages.
Implicit Types (σ : Mut.store) (r : Mut.loc) (df : DataFrame).

Lemma traducir_direccion_viento_agrees σ r df :
  σ !! r = Some df →
  Mut.agrees σ (Mut.traducir_direccion_viento r σ) (traducir_direccion_viento df).
Proof.
  intros Hr. unfold Mut.traducir_direccion_viento, traducir_direccion_viento.
  mut_agrees.
Qed.

Lemma traducir_condicion_cielo_agrees σ r df :
  σ !! r = Some df →
  Mut.agrees σ (Mut.traducir_condicion_cielo r σ) (traducir_condicion_cielo df).
Proof.
  intros Hr. unfold Mut.traducir_condicion_cielo, traducir_condicion_cielo.
  mut_agrees.
Qed.

Lemma eliminar_columnas_innecesarias_agrees σ r df cols :
  σ !! r = Some df →
  Mut.agrees σ (Mut.eliminar_columnas_innecesarias r cols σ)
    (eliminar_columnas_innecesarias df cols).
Proof.
  intros Hr.
  unfold Mut.eliminar_columnas_innecesarias, eliminar_columnas_innecesarias.
  mut_agrees.
Qed.

Lemma convertir_tipos_datos_agrees σ r df :
  σ !! r = Some df →
  Mut.agrees σ (Mut.convertir_tipos_datos r σ) (convertir_tipos_datos df).
Proof.
  intros Hr. unfold Mut.convertir_tipos_datos, convertir_tipos_datos.
  mut_agrees.
Qed.

Lemma unificar_fecha_hora_agrees σ r df :
  σ !! r = Some df →
  Mut.agrees σ (Mut.unificar_fecha_hora r σ) (unificar_fecha_hora df).
Proof.
  intros Hr. unfold Mut.unificar_fecha_hora, unificar_fecha_hora.
  mut_agrees.
Qed.

Lemma normalizar_nombres_columnas_agrees σ r df ren :
  σ !! r = Some df →
  Mut.agrees σ (Mut.normalizar_nombres_columnas r ren σ)
    (normalizar_nombres_columnas df ren).
Proof.
  intros Hr.
  unfold Mut.normalizar_nombres_columnas, normalizar_nombres_columnas.
  destruct ren as [[|]|]; mut_agrees.
Qed.

Lemma marcar_estado_viento_agrees σ r df :
  σ !! r = Some df →
  Mut.agrees σ (Mut.marcar_estado_viento r σ) (marcar_estado_viento df).
Proof.
  intros Hr. unfold Mut.marcar_estado_viento, marcar_estado_viento.
  mut_agrees.
Qed.

Lemma detectar_outliers_agrees σ r df :
  σ !! r = Some df →
  Mut.agrees σ (Mut.detectar_outliers r σ) (detectar_outliers df).
Proof.
  intros Hr. unfold Mut.detectar_outliers, detectar_outliers.
  mut_agrees.
Qed.

(** The deduplicator creates two objects, the copy and the selection;
    it returns the second. *)
Lemma verificar_duplicados_run σ r df :
  σ !! r = Some df →
  Mut.verificar_duplicados r σ =
  (σ ++ [df] ++ [(verificar_duplicados df).1],
   Ok (S (length σ), (verificar_duplicados df).2)).
Proof.
  intros Hr. unfold Mut.verificar_duplicados. mut_methods. mut_run.
  rewrite length_app, Nat.add_1_r. by rewrite <-app_assoc.
Qed.

Lemma agrees_two σ d1 d2 :
  Mut.agrees σ (σ ++ [d1] ++ [d2], Ok (S (length σ))) (Ok d2).
Proof.
  split; [by apply prefix_app_r|]. exists (S (length σ)).
  split_and!; [done|lia|]. cbn [fst]. rewrite app_assoc.
  replace (S (length σ)) with (length (σ ++ [d1]))
    by (rewrite length_app; cbn; lia).
  apply lookup_snoc.
Qed.

Lemma proceso_completo_limpieza_agrees σ r df :
  σ !! r = Some df →
  Mut.agrees σ (Mut.proceso_completo_limpieza r σ) (proceso_completo_limpieza df).
Proof.
  intros Hr. unfold Mut.proceso_completo_limpieza, proceso_completo_limpieza.
  apply agrees_bind; [by apply traducir_direccion_viento_agrees|].
  clear r df Hr. intros σ1 r df Hpre Hlen Hr.
  apply agrees_bind;
    [by eapply agrees_weaken, traducir_condicion_cielo_agrees|].
  clear σ1 r df Hpre Hlen Hr. intros σ1 r df Hpre Hlen Hr.
  apply agrees_bind;
    [by eapply agrees_weaken, eliminar_columnas_innecesarias_agrees|].
  clear σ1 r df Hpre Hlen Hr. intros σ1 r df Hpre Hlen Hr.
  apply agrees_bind;
    [by eapply agrees_weaken, convertir_tipos_datos_agrees|].
  clear σ1 r df Hpre Hlen Hr. intros σ1 r df Hpre Hlen Hr.
  apply agrees_bind;
    [by eapply agrees_weaken, unificar_fecha_hora_agrees|].
  clear σ1 r df Hpre Hlen Hr. intros σ1 r df Hpre Hlen Hr.
  apply agrees_bind;
    [by eapply agrees_weaken, eliminar_columnas_innecesarias_agrees|].
  clear σ1 r df Hpre Hlen Hr. intros σ1 r df Hpre Hlen Hr.
  (* the reordering, in place on the table that the pruner created *)
  pose proof (lookup_lt_Some _ _ _ Hr) as Hlt.
  unfold Mut.pop, Mut.insert. mut_run.
  destruct (pop "datetime" df) as [[columna df']|e]; cbn [mbind result_bind];
    [|by split].
  cbv beta iota. mut_run.
  rewrite (run_read _ _ _ _ (list_lookup_insert_eq _ _ _ Hlt)). mut_run.
  destruct (insert 0 "datetime" columna df') as [df''|e];
    cbn [mbind result_bind]; [|by split; [apply prefix_insert_ge|]].
  cbv beta iota. mut_run. rewrite list_insert_insert_eq.
  assert (σ `prefix_of` <[r := df'']> σ1) as Hpre' by by apply prefix_insert_ge.
  assert (<[r := df'']> σ1 !! r = Some df'') as Hr'
    by by apply list_lookup_insert_eq.
  clear Hpre Hr Hlt. revert Hpre' Hr'. generalize (<[r := df'']> σ1).
  clear σ1 df df'. intros σ1 Hpre Hr.
  apply agrees_bind;
    [by eapply agrees_weaken, normalizar_nombres_columnas_agrees|].
  clear σ1 r df'' Hpre Hlen Hr. intros σ1 r df Hpre Hlen Hr.
  apply agrees_bind;
    [by eapply agrees_weaken, marcar_estado_viento_agrees|].
  clear σ1 r df Hpre Hlen Hr. intros σ1 r df Hpre Hlen Hr.
  rewrite run_bind_assoc || idtac.
  unfold mbind at 1, Mut.M_bind. rewrite (verificar_duplicados_run _ _ _ Hr).
  destruct (verificar_duplicados df) as [out n]. cbn.
  eapply agrees_weaken; [done|]. apply agrees_two.
Qed.
End Stages.

(** Every call agrees with the function of [Limpieza] on table values. *)
Lemma call_agrees s σ r df :
  σ !! r = Some df →
  Mut.agrees σ (Mut.call s r σ) (Mut.call_pure s df).
Proof.
  intros Hr. destruct s; cbn [Mut.call Mut.call_pure].
  - by apply traducir_direccion_viento_agrees.
  - by apply traducir_condicion_cielo_agrees.
  - by apply eliminar_columnas_innecesarias_agrees.
  - by apply convertir_tipos_datos_agrees.
  - by apply unificar_fecha_hora_agrees.
  - by apply normalizar_nombres_columnas_agrees.
  - by apply marcar_estado_viento_agrees.
  - by apply detectar_outliers_agrees.
  - unfold fmap, Mut.M_fmap. rewrite (verificar_duplicados_run _ _ _ Hr).
    apply agrees_two.
  - by apply proceso_completo_limpieza_agrees.
Qed.

(** C9: a call of a function of the module, the full pipeline included,
    changes no table that existed before the call, the table it is called
    on in particular: the store only grows.  The call raises when the
    function on table values raises, and otherwise returns a table created
    by the call, other than its argument, that holds the result of the
    function on table values. *)
Theorem ninguna_etapa_muta_la_entrada (s : Mut.stage) σ r df :
  σ !! r = Some df →
  (Mut.call s r σ).1 !! r = Some df ∧
  (∀ l d, σ !! l = Some d → (Mut.call s r σ).1 !! l = Some d) ∧
  match Mut.call_pure s df with
  | Ok out =>
      ∃ r', (Mut.call s r σ).2 = Ok r' ∧ r' ≠ r ∧ σ !! r' = None ∧
            (Mut.call s r σ).1 !! r' = Some out
  | Raise e => (Mut.call s r σ).2 = Raise e
  end.
Proof.
  intros Hr. destruct (call_agrees s σ r df Hr) as [Hpre Hres].
  assert (∀ l d, σ !! l = Some d → (Mut.call s r σ).1 !! l = Some d) as Hframe.
  { intros l d Hl. by eapply prefix_lookup_Some. }
  split_and!; [by apply Hframe|done|].
  destruct (Mut.call_pure s df) as [out|e]; [|done].
  destruct Hres as (r' & Hr' & Hlen & Hout).
  exists r'. split_and!; [done| |by apply lookup_ge_None|done].
  apply lookup_lt_Some in Hr. lia.
Qed.

(** ** The unit tests of the module

    The assertions of [test_limpieza_datos_clima.py], on the tables of its
    [setUp]. *)

Example test_traducir_direccion_viento :
  (traducir_direccion_viento datos_prueba
     ≫= λ r, getitem r "wind_direction_completo")
  = Ok [VStr "north"; VStr "northeast"; VStr "south"; VStr "southwest"] ∧
  (traducir_direccion_viento datos_prueba
     ≫= λ r, getitem r "wind_direction_grados")
  = Ok [VFloat (Qc_of_Z 0); VFloat (Qc_of_Z 45); VFloat (Qc_of_Z 180);
        VFloat (Qc_of_Z 225)].
Proof. split; by_compute. Qed.

Example test_traducir_condicion_cielo :
  (traducir_condicion_cielo datos_prueba ≫= λ r, getitem r "sky_condition_ingles")
  = Ok [VStr "clear"; VStr "few clouds"; VStr "cloudy"; VStr "overcast"].
Proof. by_compute. Qed.

Example test_eliminar_columnas_innecesarias :
  columns <$> eliminar_columnas_innecesarias datos_prueba ["timestamp"]
  = Ok ["date"; "hour"; "temperature"; "humidity"; "wind_speed";
        "wind_direction"; "sky_condition"].
Proof. by_compute. Qed.

Example test_convertir_tipos_datos :
  (convertir_tipos_datos
     (setitem "wind_direction_grados"
        [VStr "0"; VStr "45"; VStr "180"; VStr "225"] datos_prueba)
     ≫= λ r, getitem r "hour")
  = Ok [VStr "08:00"; VStr "09:00"; VStr "08:00"; VStr "09:00"] ∧
  (convertir_tipos_datos
     (setitem "wind_direction_grados"
        [VStr "0"; VStr "45"; VStr "180"; VStr "225"] datos_prueba)
     ≫= λ r, getitem r "wind_direction_grados")
  = Ok [VFloat (Qc_of_Z 0); VFloat (Qc_of_Z 45); VFloat (Qc_of_Z 180);
        VFloat (Qc_of_Z 225)].
Proof. split; by_compute. Qed.

Example test_unificar_fecha_hora :
  (d ← convertir_tipos_datos datos_prueba;
   r ← unificar_fecha_hora d;
   getitem r "datetime")
  = Ok [VTime (mkTs 2025 2 18 8 0 0); VTime (mkTs 2025 2 18 9 0 0);
        VTime (mkTs 2025 2 19 8 0 0); VTime (mkTs 2025 2 19 9 0 0)].
Proof. by_compute. Qed.

Example test_normalizar_nombres_columnas :
  columns <$>
    normalizar_nombres_columnas
      (mkDF [0; 1]%Z
         [("TEMPERATURA", [VFloat (Q2Qc (45 # 2)); VFloat (Qc_of_Z 23)]);
          ("Humedad_Relativa", [VInt 65; VInt 68])])
      (Some [("temperatura", "temp"); ("humedad_relativa", "humidity")])
  = Ok ["temp"; "humidity"].
Proof. by_compute. Qed.

Example test_marcar_estado_viento :
  (marcar_estado_viento
     (mkDF [0; 1; 2; 3]%Z
        [("wind_direction_degrees",
          [VFloat (Qc_of_Z 0); VFloat (Qc_of_Z 45); VNull; VFloat (Qc_of_Z 180)])])
     ≫= λ r, getitem r "wind_status")
  = Ok [VStr "with wind"; VStr "with wind"; VStr "calm"; VStr "with wind"].
Proof. by_compute. Qed.

Example test_detectar_outliers :
  index <$> detectar_outliers df_outliers = Ok [1; 2]%Z.
Proof. by_compute. Qed.

Example test_verificar_duplicados :
  (verificar_duplicados datos_con_duplicados).2 = 2 ∧
  length (index (verificar_duplicados datos_con_duplicados).1) = 4.
Proof. split; by_compute. Qed.

Example test_proceso_completo_limpieza :
  columns <$> proceso_completo_limpieza datos_prueba = Ok esquema_limpio ∧
  index <$> proceso_completo_limpieza datos_prueba = Ok [0; 1; 2; 3]%Z.
Proof. split; by_compute. Qed.

(** ** The theorems on the sample tables *)

Lemma proceso_completo_limpieza_esquema_ejemplo :
  columns fila_18_febrero = esquema_crudo ∧
  proceso_completo_limpieza fila_18_febrero = Ok fila_18_febrero_limpia ∧
  columns fila_18_febrero_limpia = esquema_limpio.
Proof.
  assert (columns fila_18_febrero = esquema_crudo) as Hcols by reflexivity.
  assert (proceso_completo_limpieza fila_18_febrero = Ok fila_18_febrero_limpia)
    as Hrun by by_compute.
  split_and!; [done..|].
  exact (proj1 (proceso_completo_limpieza_esquema _ _ Hcols Hrun)).
Defined.

Lemma calma_sii_grados_nulos_ejemplo :
  wf fila_codigo_desconocido ∧
  columns fila_codigo_desconocido = esquema_crudo ∧
  proceso_completo_limpieza fila_codigo_desconocido
    = Ok fila_codigo_desconocido_limpia ∧
  ∃ wd grados estados,
    getitem fila_codigo_desconocido "wind_direction" = Ok wd ∧
    getitem fila_codigo_desconocido_limpia "wind_direction_degrees" = Ok grados ∧
    getitem fila_codigo_desconocido_limpia "wind_status" = Ok estados.
Proof.
  assert (wf fila_codigo_desconocido) as Hwf by (unfold wf; by_compute).
  assert (columns fila_codigo_desconocido = esquema_crudo) as Hcols by reflexivity.
  assert (proceso_completo_limpieza fila_codigo_desconocido
          = Ok fila_codigo_desconocido_limpia) as Hrun by by_compute.
  split_and!; [done..|].
  destruct (calma_sii_grados_nulos _ _ Hwf Hcols Hrun)
    as (wd & grados & estados & Hwd & Hg & He & _).
  exists wd, grados, estados. split; [exact Hwd|]. split; [exact Hg|exact He].
Defined.

Lemma traducir_direccion_viento_rumbos_ejemplo :
  getitem datos_prueba "wind_direction"
    = Ok [VStr "N"; VStr "NE"; VStr "S"; VStr "SO"] ∧
  ∃ df' nombres grados,
    traducir_direccion_viento datos_prueba = Ok df' ∧
    getitem df' "wind_direction_completo" = Ok nombres ∧
    getitem df' "wind_direction_grados" = Ok grados ∧
    length nombres = 4 ∧ length grados = 4 ∧
    nombres !! 1 = Some (VStr "northeast") ∧
    nombres !! 3 = Some (VStr "southwest") ∧
    grados !! 3 = Some (VFloat (Qc_of_Z 225)).
Proof.
  assert (getitem datos_prueba "wind_direction"
          = Ok [VStr "N"; VStr "NE"; VStr "S"; VStr "SO"]) as Hs by reflexivity.
  split; [done|].
  destruct (traducir_direccion_viento_rumbos _ _ Hs)
    as (df' & nombres & grados & Hrun & Hn & Hg & Ln & Lg & Hrows).
  exists df', nombres, grados. split_and!; [done..| | |].
  - refine (proj1 (proj2 (Hrows 1 "NE" eq_refl)) "northeast" _). by_compute.
  - refine (proj1 (proj2 (Hrows 3 "SO" eq_refl)) "southwest" _). by_compute.
  - refine (proj1 (proj2 (proj1 (Hrows 3 "SO" eq_refl) 225%Z _))). by_compute.
Defined.


Lemma detectar_outliers_subconjunto_ejemplo :
  wf df_outliers ∧
  ∃ out mask,
    detectar_outliers df_outliers = Ok out ∧
    length mask = 4 ∧
    index out = select mask [0; 1; 2; 3]%Z.
Proof.
  assert (wf df_outliers) as Hwf by (unfold wf; by_compute).
  split; [done|].
  destruct (detectar_outliers_subconjunto df_outliers _ _ _ Hwf
              eq_refl eq_refl eq_refl)
    as (out & mask & Hrun & Hlen & Hidx & _).
  - unfold numerica. by_compute.
  - unfold numerica. by_compute.
  - unfold numerica. by_compute.
  - by exists out, mask.
Defined.


Lemma ninguna_etapa_muta_la_entrada_ejemplo :
  [fila_18_febrero] !! 0 = Some fila_18_febrero ∧
  (Mut.call Mut.ProcesoCompletoLimpieza 0 [fila_18_febrero]).1 !! 0
    = Some fila_18_febrero.
Proof.
  assert ([fila_18_febrero] !! 0 = Some fila_18_febrero) as Hr by reflexivity.
  split; [done|].
  exact (proj1 (ninguna_etapa_muta_la_entrada
                  Mut.ProcesoCompletoLimpieza [fila_18_febrero] 0 _ Hr)).
Defined.

Lemma detectar_outliers_ignora_nulos_ejemplo :
  wf df_nulos ∧
  ∃ mask,
    detectar_outliers df_nulos = Ok (getitem_mask mask df_nulos) ∧
    length mask = 3.
Proof.
  assert (wf df_nulos) as Hwf by (unfold wf; by_compute).
  split; [done|].
  destruct (detectar_outliers_ignora_nulos df_nulos _ _ _ Hwf
              eq_refl eq_refl eq_refl)
    as (_ & mask & Hrun & Hlen & _).
  - unfold numerica. by_compute.
  - unfold numerica. by_compute.
  - unfold numerica. by_compute.
  - by exists mask.
Defined.

(** * Further properties

    What the functions of the module do at their edges and how they
    compose: the pruner, the schema normaliser, the stages that add a
    column, the converter, the unifier, the outlier detector, the
    removal of duplicates and the pipeline. *)

Import Recolector Fechas Muestras.

(** ** Texts of dates and hours *)

Lemma range_forallb (P : Z → bool) lo n z :
  forallb P (seqZ lo n) = true → (lo ≤ z < lo + n)%Z → P z = true.
Proof.
  intros H Hz. apply Is_true_true, forallb_True in H.
  rewrite Forall_forall in H. apply Is_true_true, H, elem_of_seqZ. lia.
Qed.

Lemma campo_anno y : in_bounds y = true → campo 4 y = true.
Proof.
  unfold in_bounds. intros H.
  apply (range_forallb (campo 4) 1678 584); [by vm_compute | lia].
Qed.

Lemma campo_dos z : (0 ≤ z ≤ 99)%Z → campo 2 z = true.
Proof.
  intros H. apply (range_forallb (campo 2) 0 100); [by vm_compute | lia].
Qed.

Lemma campo_field w z : campo w z = true → field w (format_d w z) = Some z.
Proof.
  unfold campo. intros [H _]%andb_true_iff. by apply bool_decide_eq_true_1 in H.
Qed.

Lemma campo_sin w z c :
  campo w z = true → c ∈ ["-"; " "; "/"; ":"]%char → sin c (format_d w z) = true.
Proof.
  unfold campo. intros [_ H]%andb_true_iff Hc.
  apply Is_true_true, forallb_True in H. rewrite Forall_forall in H.
  by apply Is_true_true, H.
Qed.

Lemma sin_app c a b : sin c (a +:+ b) = sin c a && sin c b.
Proof. induction a as [|x a IH]; simpl; [done|]. by rewrite IH, andb_assoc. Qed.

Lemma split_on_sin c s : sin c s = true → split_on c s = [s].
Proof.
  induction s as [|x s IH]; simpl; [done|].
  intros [Hx Hs]%andb_true_iff. apply negb_true_iff, bool_decide_eq_false_1 in Hx.
  rewrite decide_False by done. by rewrite IH.
Qed.

Lemma split_on_app c a b :
  sin c a = true → split_on c (a +:+ String c b) = a :: split_on c b.
Proof.
  induction a as [|x a IH]; simpl.
  - intros _. by rewrite decide_True.
  - intros [Hx Hs]%andb_true_iff. apply negb_true_iff, bool_decide_eq_false_1 in Hx.
    rewrite decide_False by done. by rewrite IH.
Qed.

Lemma str_app_assoc (a b c : string) : (a +:+ b) +:+ c = a +:+ (b +:+ c).
Proof.
  induction a as [|x a IH]; [done|].
  change ((String x a +:+ b) +:+ c) with (String x ((a +:+ b) +:+ c)).
  by rewrite IH.
Qed.

Lemma fecha_campos t :
  fecha t →
  campo 4 (ts_year t) = true ∧ campo 2 (ts_month t) = true ∧
  campo 2 (ts_day t) = true.
Proof.
  intros (Hy & Hd & _). split; [by apply campo_anno|].
  unfold valid_date in Hd.
  assert (1 ≤ ts_month t ≤ 12 ∧ 1 ≤ ts_day t ≤ 31)%Z as [??].
  { apply andb_true_iff in Hd as [Hd H4]. apply andb_true_iff in Hd as [Hd H3].
    apply andb_true_iff in Hd as [H1 H2].
    apply Z.leb_le in H1, H2, H3, H4.
    assert (days_in_month (ts_year t) (ts_month t) ≤ 31)%Z.
    { unfold days_in_month. repeat case_match; lia. }
    lia. }
  split; apply campo_dos; lia.
Qed.

Lemma read_date_iso t :
  fecha t →
  read_date YearMonthDay "-" (iso_date t)
  = Some (ts_year t, ts_month t, ts_day t).
Proof.
  intros (Hy & Hm & Hd)%fecha_campos. unfold read_date.
  change (iso_date t) with
    (format_d 4 (ts_year t) +:+ String "-"
       (format_d 2 (ts_month t) +:+ String "-" (format_d 2 (ts_day t)))).
  rewrite split_on_app by (apply campo_sin; [done | by_compute]).
  rewrite split_on_app by (apply campo_sin; [done | by_compute]).
  rewrite split_on_sin by (apply campo_sin; [done | by_compute]).
  by rewrite !campo_field.
Qed.

Lemma sin_iso_date t c :
  fecha t → c ∈ [" "; "/"; ":"]%char → sin c (iso_date t) = true.
Proof.
  intros (Hy & Hm & Hd)%fecha_campos Hc.
  assert (c ∈ ["-"; " "; "/"; ":"]%char) by (by apply list_elem_of_further).
  assert (sin c "-" = true) as Hsep.
  { rewrite !elem_of_cons, elem_of_nil in Hc. by destruct Hc as [->|[->|[->|[]]]]. }
  unfold iso_date. by rewrite !sin_app, !campo_sin, Hsep.
Qed.

(** *** ISO dates and hours read back *)

Lemma midnight_eq t :
  midnight t = true → mkTs (ts_year t) (ts_month t) (ts_day t) 0 0 0 = t.
Proof.
  destruct t as [y m d h mi s]. unfold midnight. simpl.
  intros [[?%Z.eqb_eq ?%Z.eqb_eq]%andb_true_iff ?%Z.eqb_eq]%andb_true_iff.
  by subst.
Qed.

Lemma scan_iso_date t :
  fecha t → scan (mkFmt YearMonthDay "-" false) (iso_date t) = Some t.
Proof.
  intros Ht. unfold scan. simpl. rewrite read_date_iso by done. simpl.
  f_equal. apply midnight_eq, Ht.
Qed.

Lemma strptime_iso_date t :
  fecha t → strptime (mkFmt YearMonthDay "-" false) (iso_date t) = Ok t.
Proof.
  intros Ht. unfold strptime. rewrite scan_iso_date by done.
  destruct Ht as (-> & -> & Hm). simpl.
  unfold midnight in Hm.
  apply andb_true_iff in Hm as [[->%Z.eqb_eq ->%Z.eqb_eq]%andb_true_iff _].
  done.
Qed.

Lemma guess_iso_date t :
  fecha t →
  guess_datetime_format false (iso_date t) = Some (mkFmt YearMonthDay "-" false).
Proof.
  intros Ht. unfold guess_datetime_format.
  rewrite (split_on_sin "/") by (apply sin_iso_date; [done | by_compute]).
  rewrite (split_on_sin " ") by (apply sin_iso_date; [done | by_compute]).
  simpl. by rewrite scan_iso_date.
Qed.

Lemma sin_texto_hora h c :
  (0 ≤ h ≤ 99)%Z → c ∈ ["-"; " "; "/"]%char → sin c (texto_hora h) = true.
Proof.
  intros Hh Hc. unfold texto_hora. rewrite sin_app, campo_sin.
  - rewrite !elem_of_cons, elem_of_nil in Hc. by destruct Hc as [->|[->|[->|[]]]].
  - by apply campo_dos.
  - revert Hc. rewrite !elem_of_cons. tauto.
Qed.

Lemma read_time_hora h :
  (0 ≤ h ≤ 99)%Z → read_time (texto_hora h) = Some (h, 0%Z).
Proof.
  intros Hh. unfold read_time.
  change (texto_hora h) with (format_d 2 h +:+ String ":" "00").
  rewrite split_on_app by (apply campo_sin; [by apply campo_dos | by_compute]).
  simpl. by rewrite campo_field by (by apply campo_dos).
Qed.

Lemma split_texto_fecha_hora t h :
  fecha t → (0 ≤ h ≤ 99)%Z →
  split_on " " (texto_fecha_hora t h) = [iso_date t; texto_hora h] ∧
  split_on "/" (texto_fecha_hora t h) = [texto_fecha_hora t h].
Proof.
  intros Ht Hh. split.
  - unfold texto_fecha_hora. rewrite str_app_assoc.
    change (" " +:+ texto_hora h) with (String " " (texto_hora h)).
    rewrite split_on_app by (apply sin_iso_date; [done | by_compute]).
    by rewrite split_on_sin by (apply sin_texto_hora; [done | by_compute]).
  - apply split_on_sin. unfold texto_fecha_hora.
    rewrite !sin_app, sin_iso_date, sin_texto_hora; [done | done | by_compute | done | by_compute].
Qed.

Lemma scan_texto_fecha_hora t h :
  fecha t → (0 ≤ h ≤ 99)%Z →
  scan (mkFmt YearMonthDay "-" true) (texto_fecha_hora t h) = Some (a_la_hora t h).
Proof.
  intros Ht Hh. unfold scan. simpl.
  destruct (split_texto_fecha_hora t h) as [-> _]; [done..|].
  by rewrite read_date_iso, read_time_hora.
Qed.

Lemma guess_texto_fecha_hora t h :
  fecha t → (0 ≤ h ≤ 99)%Z →
  guess_datetime_format false (texto_fecha_hora t h)
  = Some (mkFmt YearMonthDay "-" true).
Proof.
  intros Ht Hh. unfold guess_datetime_format.
  destruct (split_texto_fecha_hora t h) as [Hb ->]; [done..|].
  rewrite Hb. simpl. by rewrite scan_texto_fecha_hora.
Qed.

Lemma strptime_texto_fecha_hora t h :
  fecha t → (0 ≤ h ≤ 99)%Z →
  strptime (mkFmt YearMonthDay "-" true) (texto_fecha_hora t h)
  = if bool_decide (h ≤ 23)%Z then Ok (a_la_hora t h) else Raise ValueError.
Proof.
  intros Ht Hh. unfold strptime. rewrite scan_texto_fecha_hora by done.
  destruct Ht as (Hy & Hd & _). simpl. rewrite Hy, Hd. simpl.
  unfold valid_time. rewrite (proj2 (Z.leb_le 0 h)) by lia. simpl.
  rewrite andb_true_r. case_bool_decide.
  - by rewrite (proj2 (Z.leb_le h 23)).
  - by rewrite (proj2 (Z.leb_gt h 23)) by lia.
Qed.

(** *** Columns of dates and hours *)

Section MapM.
Context {A B C : Type}.

Lemma mapM_fmap_ext (F : B → result C) (G : A → result C) (f : A → B) l :
  (∀ x, x ∈ l → F (f x) = G x) → mapM F (f <$> l) = mapM G l.
Proof.
  induction l as [|x l IH]; intros H; [done|]. cbn.
  rewrite H by left. destruct (G x); [|done]. cbn.
  rewrite IH; [done|]. intros y Hy. apply H. by right.
Qed.

Lemma mapM_fmap_Ok (F : B → result C) (f : A → B) (g : A → C) l :
  (∀ x, x ∈ l → F (f x) = Ok (g x)) → mapM F (f <$> l) = Ok (g <$> l).
Proof.
  intros H. rewrite (mapM_fmap_ext F (λ x, Ok (g x))) by done.
  by apply mapM_Ok_fmap.
Qed.

Lemma mapM_Raise (F : A → result B) e l :
  Forall (λ x, is_Ok (F x) ∨ F x = Raise e) l →
  Exists (λ x, F x = Raise e) l →
  mapM F l = Raise e.
Proof.
  induction 1 as [|x l Hx Hl IH]; intros Hex; [by apply Exists_nil in Hex|].
  cbn. destruct Hx as [Hx| ->]; [|done].
  destruct (F x) eqn:HF; [|done]. cbn.
  apply Exists_cons in Hex as [Hex|Hex]; [congruence|].
  by rewrite IH.
Qed.

Lemma length_mapM (F : A → result B) l k : mapM F l = Ok k → length k = length l.
Proof.
  intros H%mapM_Ok_Forall2. symmetry. by eapply Forall2_length.
Qed.
End MapM.

Lemma to_datetime_iso ds :
  Forall fecha ds →
  to_datetime false ((λ t, VStr (iso_date t)) <$> ds) = Ok (VTime <$> ds).
Proof.
  intros Hds. destruct ds as [|t ds]; [done|].
  unfold to_datetime. cbn [fmap list_fmap list_find].
  rewrite decide_True by done. cbn [fmap option_fmap option_map].
  rewrite guess_iso_date by (by inversion Hds).
  apply (mapM_fmap_Ok _ (λ t, VStr (iso_date t)) VTime (t :: ds)). intros t' Ht'.
  rewrite Forall_forall in Hds. by rewrite strptime_iso_date by auto.
Qed.

Lemma astype_str_fechas ds :
  Forall fecha ds →
  astype_str (VTime <$> ds) = Ok ((λ t, VStr (iso_date t)) <$> ds).
Proof.
  intros Hds. unfold astype_str.
  assert (forallb (λ v, match v with VTime t => midnight t | _ => true end)
            (VTime <$> ds) = true) as ->.
  { induction Hds as [|t ds Ht _ IH]; [done|]. cbn. rewrite IH.
    destruct Ht as (_ & _ & ->). done. }
  by apply mapM_fmap_Ok.
Qed.

Lemma to_datetime_texto_fecha_hora (l : list (timestamp * Z)) :
  Forall (λ p, fecha p.1 ∧ (0 ≤ p.2 ≤ 99)%Z) l →
  to_datetime false ((λ p, VStr (texto_fecha_hora p.1 p.2)) <$> l)
  = mapM (λ p, if bool_decide (p.2 ≤ 23)%Z
               then Ok (VTime (a_la_hora p.1 p.2)) else Raise ValueError) l.
Proof.
  intros Hl. destruct l as [|[t h] l]; [done|].
  unfold to_datetime. cbn [fmap list_fmap list_find].
  rewrite decide_True by done. cbn [fmap option_fmap option_map fst snd].
  rewrite guess_texto_fecha_hora by (by inversion Hl as [|?? []]).
  apply (mapM_fmap_ext _ _ (λ p, VStr (texto_fecha_hora p.1 p.2)) ((t, h) :: l)).
  intros [t' h'] Hp.
  rewrite Forall_forall in Hl. destruct (Hl _ Hp) as [??]. cbn [fst snd] in *.
  rewrite strptime_texto_fecha_hora by done. by case_bool_decide.
Qed.

(** The timestamps that the unifier computes from a column of days and a
    column of [HH:00] texts, row by row. *)
Lemma fecha_hora_columnas ds hs :
  Forall fecha ds → Forall (λ h, 0 ≤ h ≤ 99)%Z hs →
  fecha_hora (VTime <$> ds) ((λ h, VStr (texto_hora h)) <$> hs)
  = mapM (λ p, if bool_decide (p.2 ≤ 23)%Z
               then Ok (VTime (a_la_hora p.1 p.2)) else Raise ValueError)
      (zip ds hs).
Proof.
  intros Hds Hhs. unfold fecha_hora.
  rewrite astype_str_fechas by done. cbn [mbind result_bind].
  unfold str_add_const.
  rewrite (mapM_fmap_Ok _ _ (λ t, VStr (iso_date t +:+ " "))) by done.
  cbn [mbind result_bind].
  unfold astype_str at 1.
  rewrite (mapM_fmap_Ok _ _ (λ h, VStr (texto_hora h))) by done.
  cbn [mbind result_bind].
  unfold str_add. rewrite zip_with_fmap_l, zip_with_fmap_r, zip_with_zip.
  rewrite (mapM_fmap_Ok _ _ (λ p, VStr (texto_fecha_hora p.1 p.2)))
    by (by intros []).
  cbn [mbind result_bind].
  apply to_datetime_texto_fecha_hora.
  apply Forall_forall. intros [t h] Hp. cbn [fst snd].
  rewrite Forall_forall in Hds. rewrite Forall_forall in Hhs.
  split; [eapply Hds, elem_of_zip_l | eapply Hhs, elem_of_zip_r]; done.
Qed.

Lemma fecha_hora_Ok ds hs :
  Forall fecha ds → Forall hora hs →
  fecha_hora (VTime <$> ds) ((λ h, VStr (texto_hora h)) <$> hs)
  = Ok (zip_with (λ t h, VTime (a_la_hora t h)) ds hs).
Proof.
  intros Hds Hhs. rewrite fecha_hora_columnas.
  - rewrite (zip_with_zip (λ t h, VTime (a_la_hora t h))).
    apply mapM_Ok_fmap. intros [t h] Hp. cbn [fst snd uncurry].
    rewrite bool_decide_eq_true_2; [done|].
    rewrite Forall_forall in Hhs. eapply Hhs, elem_of_zip_r. done.
  - done.
  - eapply Forall_impl; [done|]. unfold hora. intros; cbv beta; lia.
Qed.

Lemma fecha_hora_ValueError ds hs :
  Forall fecha ds → Forall (λ h, 0 ≤ h ≤ 99)%Z hs →
  length hs ≤ length ds → Exists (λ h, 23 < h)%Z hs →
  fecha_hora (VTime <$> ds) ((λ h, VStr (texto_hora h)) <$> hs) = Raise ValueError.
Proof.
  intros Hds Hhs Hlen Hex. rewrite fecha_hora_columnas by done.
  apply mapM_Raise.
  - apply Forall_forall. intros p _. case_bool_decide; [by left | by right].
  - apply Exists_exists in Hex as (h & Hh & Hgt).
    apply list_elem_of_lookup in Hh as [i Hi].
    destruct (lookup_lt_is_Some_2 ds i) as [t Ht].
    { apply lookup_lt_Some in Hi. lia. }
    apply Exists_exists. exists (t, h). split.
    + apply list_elem_of_lookup. exists i. rewrite lookup_zip_with, Ht. cbn. by rewrite Hi.
    + cbn. rewrite bool_decide_eq_false_2; [done | lia].
Qed.

(** ** The pruner *)

Lemma columns_filter (labels : list string) (cols : list (string * Series)) :
  (filter (λ c, c.1 ∉ labels) cols).*1 = filter (λ n, n ∉ labels) cols.*1.
Proof.
  induction cols as [|[n c] cols IH]; [done|].
  rewrite fmap_cons, !filter_cons. cbn [fst].
  destruct (decide (n ∉ labels)); [rewrite fmap_cons|]; by rewrite IH.
Qed.

Lemma dict_get_filter (labels : list string) (cols : list (string * Series)) name :
  dict_get (filter (λ c, c.1 ∉ labels) cols) name
  = if decide (name ∉ labels) then dict_get cols name else None.
Proof.
  induction cols as [|[n c] cols IH]; [by destruct (decide (name ∉ labels))|].
  rewrite filter_cons. cbn [fst].
  destruct (decide (n ∉ labels)) as [Hn|Hn]; cbn [dict_get].
  - destruct (decide (name = n)) as [->|?]; [by rewrite decide_True|done].
  - rewrite IH. destruct (decide (name ∉ labels)) as [Hp|]; [|done].
    rewrite decide_False; [done|]. by intros ->.
Qed.

Lemma drop_Ok labels df :
  labels ⊆ columns df →
  drop labels df = Ok (mkDF (index df) (filter (λ c, c.1 ∉ labels) (data df))).
Proof.
  intros Hsub. unfold drop.
  assert (filter (λ l, l ∉ columns df) labels = []) as ->; [|done].
  induction labels as [|l labels IH]; [done|].
  rewrite filter_cons, decide_False.
  - apply IH. intros x Hx. apply Hsub. by right.
  - intros Hl. apply Hl, Hsub. by left.
Qed.

Lemma drop_inv labels df :
  match drop labels df with
  | Ok out =>
      labels ⊆ columns df ∧
      out = mkDF (index df) (filter (λ c, c.1 ∉ labels) (data df))
  | Raise e => ∃ l, e = KeyError l ∧ l ∈ labels ∧ l ∉ columns df
  end.
Proof.
  unfold drop.
  destruct (filter (λ l, l ∉ columns df) labels) as [|l ls] eqn:Hf.
  - split; [|done]. intros l Hl.
    destruct (decide (l ∈ columns df)) as [|Hn]; [done|].
    assert (l ∈ filter (λ l, l ∉ columns df) labels) as Hin
      by (by apply list_elem_of_filter).
    rewrite Hf in Hin. by apply elem_of_nil in Hin.
  - exists l. split; [done|].
    assert (l ∈ filter (λ l, l ∉ columns df) labels) as Hin
      by (rewrite Hf; left).
    apply list_elem_of_filter in Hin as [??]. done.
Qed.

(** X1: the pruner is strict.  It returns a table only if every requested
    label names a column; the table then has the labels of the rows,
    the remaining columns in their order and with their cells, and none
    of the requested columns.  Otherwise it raises [KeyError] on a
    requested label that names no column. *)
Theorem eliminar_columnas_innecesarias_estricta df cols :
  match eliminar_columnas_innecesarias df cols with
  | Ok out =>
      cols ⊆ columns df ∧ index out = index df ∧
      columns out = filter (λ n, n ∉ cols) (columns df) ∧
      (∀ name, name ∉ cols → getitem out name = getitem df name) ∧
      (∀ name, name ∈ cols → getitem out name = Raise (KeyError name))
  | Raise e => ∃ l, e = KeyError l ∧ l ∈ cols ∧ l ∉ columns df
  end.
Proof.
  unfold eliminar_columnas_innecesarias, copy.
  pose proof (drop_inv cols df) as H.
  destruct (drop cols df) as [out|e]; [|done].
  destruct H as [Hsub ->]. split; [done|]. split; [done|]. split; [|split].
  - unfold columns. cbn [data]. apply columns_filter.
  - intros name Hn. unfold getitem. cbn [data].
    by rewrite dict_get_filter, decide_True.
  - intros name Hn. unfold getitem. cbn [data].
    rewrite dict_get_filter, decide_False; [done|]. by intros ?.
Qed.

(** X2: the pruner cannot be run twice with the same labels.  After a
    successful removal of a non-empty list of columns, a second removal
    of that list from the result raises [KeyError] on its first label. *)
Theorem eliminar_columnas_innecesarias_dos_veces df l cols out :
  eliminar_columnas_innecesarias df (l :: cols) = Ok out →
  eliminar_columnas_innecesarias out (l :: cols) = Raise (KeyError l).
Proof.
  unfold eliminar_columnas_innecesarias, copy. intros Hd.
  pose proof (drop_inv (l :: cols) df) as H. rewrite Hd in H.
  destruct H as [_ ->]. unfold drop.
  rewrite filter_cons, decide_True; [done|].
  unfold columns. cbn [data].
  rewrite columns_filter.
  intros [Hl _]%list_elem_of_filter. apply Hl. by left.
Qed.

(** X3: a removal in two steps is the removal of the two lists at once.  If
    the columns [a] are removed from a table and the columns [b] from the
    result, removing [a ++ b] from the table gives the same result. *)
Theorem eliminar_columnas_innecesarias_compone df a b d1 d2 :
  eliminar_columnas_innecesarias df a = Ok d1 →
  eliminar_columnas_innecesarias d1 b = Ok d2 →
  eliminar_columnas_innecesarias df (a ++ b) = Ok d2.
Proof.
  unfold eliminar_columnas_innecesarias, copy. intros H1 H2.
  pose proof (drop_inv a df) as Ha. rewrite H1 in Ha. destruct Ha as [Ha ->].
  pose proof (drop_inv b (mkDF (index df) (filter (λ c, c.1 ∉ a) (data df)))) as Hb.
  rewrite H2 in Hb. destruct Hb as [Hb ->].
  rewrite drop_Ok.
  - cbn [index data]. f_equal. f_equal.
    rewrite list_filter_filter. apply list_filter_iff.
    intros [n c]. cbn [fst]. rewrite elem_of_app. tauto.
  - intros l [Hl|Hl]%elem_of_app; [by apply Ha|].
    apply Hb in Hl. unfold columns in Hl. cbn [data] in Hl.
    rewrite columns_filter in Hl.
    by apply list_elem_of_filter in Hl as [_ ?].
Qed.

(** ** The schema normaliser *)

Lemma ascii_lower_idemp c : ascii_lower (ascii_lower c) = ascii_lower c.
Proof. by destruct c as [[] [] [] [] [] [] [] []]. Qed.

Lemma str_lower_idemp s : str_lower (str_lower s) = str_lower s.
Proof.
  induction s as [|c s IH]; [done|]. cbn. by rewrite ascii_lower_idemp, IH.
Qed.

Lemma dict_get_None {V : Type} (d : list (string * V)) k :
  Forall (λ p, p.1 ≠ k) d → dict_get d k = None.
Proof.
  induction 1 as [|[k' v] d Hk _ IH]; [done|]. cbn in *.
  by rewrite decide_False.
Qed.

(** X4: the renames are looked up after the names are lower-cased, so a
    rename whose key holds a capital letter never applies: with such keys
    only, the normaliser returns what it returns without renames. *)
Theorem normalizar_nombres_columnas_clave_mayuscula df r :
  Forall (λ p, str_lower p.1 ≠ p.1) r →
  normalizar_nombres_columnas df (Some r) = normalizar_nombres_columnas df None.
Proof.
  intros Hr. unfold normalizar_nombres_columnas, copy.
  destruct r as [|p r]; [done|]. f_equal.
  unfold rename, lower_columns. cbn [index data]. f_equal.
  rewrite <- list_fmap_compose. apply list_fmap_ext. intros ? [n c] _.
  unfold compose, prod_map. cbn [fst snd].
  rewrite dict_get_None; [done|].
  eapply Forall_impl; [exact Hr|]. intros [k v] Hk. cbn in *. intros ->.
  apply Hk, str_lower_idemp.
Qed.

(** X5: without renames the normaliser is idempotent: its result is a
    table that it returns unchanged. *)
Theorem normalizar_nombres_columnas_idempotente df out :
  normalizar_nombres_columnas df None = Ok out →
  normalizar_nombres_columnas out None = Ok out.
Proof.
  unfold normalizar_nombres_columnas, copy. intros [= <-]. f_equal.
  unfold lower_columns. cbn [index data]. f_equal.
  rewrite <- list_fmap_compose. apply list_fmap_ext. intros ? [n c] _. cbn.
  by rewrite str_lower_idemp.
Qed.

(** ** The stages that add a column *)

Lemma getitem_columns df name :
  match getitem df name with
  | Ok _ => name ∈ columns df
  | Raise e => e = KeyError name ∧ name ∉ columns df
  end.
Proof.
  unfold getitem, columns. destruct df as [idx cols]. cbn [data].
  induction cols as [|[n c] cols IH]; cbn.
  - split; [done|]. apply not_elem_of_nil.
  - destruct (decide (name = n)) as [->|Hn]; [left|].
    destruct (dict_get cols name).
    + by right.
    + destruct IH as [? IH]. split; [done|].
      rewrite not_elem_of_cons. done.
Qed.

Lemma getitem_Ok_iff df name : is_Ok (getitem df name) ↔ name ∈ columns df.
Proof.
  pose proof (getitem_columns df name) as H.
  destruct (getitem df name); cbn; [done|]. destruct H. tauto.
Qed.

Lemma getitem_Raise_iff df name :
  getitem df name = Raise (KeyError name) ↔ name ∉ columns df.
Proof.
  pose proof (getitem_columns df name) as H.
  destruct (getitem df name); [|destruct H as [-> ?]; tauto].
  split; [done|]. tauto.
Qed.

Lemma set_col_same name s cols :
  dict_get cols name = Some s → set_col name s cols = cols.
Proof.
  induction cols as [|[n c] cols IH]; cbn; [done|].
  destruct (decide (name = n)) as [->|Hn].
  - intros [= ->]. by rewrite decide_True.
  - intros H. rewrite decide_False by done. by rewrite IH.
Qed.

Lemma setitem_same name s df :
  getitem df name = Ok s → setitem name s df = df.
Proof.
  unfold getitem, setitem. destruct df as [idx cols]. cbn [data index].
  destruct (dict_get cols name) eqn:H; [|done]. intros [= ->].
  by rewrite set_col_same.
Qed.

(** X6: each stage that adds a column needs the column that it reads. On
    a table whose column names differ from one another, the wind
    translator returns iff the table has a column [wind_direction], the
    sky translator iff it has [sky_condition], the wind marker iff it has
    [wind_direction_degrees]; without it the stage raises [KeyError] on
    that name. *)
Theorem etapas_exigen_su_columna df :
  NoDup (columns df) →
  (is_Ok (traducir_direccion_viento df) ↔ "wind_direction" ∈ columns df) ∧
  (traducir_direccion_viento df = Raise (KeyError "wind_direction")
     ↔ "wind_direction" ∉ columns df) ∧
  (is_Ok (traducir_condicion_cielo df) ↔ "sky_condition" ∈ columns df) ∧
  (traducir_condicion_cielo df = Raise (KeyError "sky_condition")
     ↔ "sky_condition" ∉ columns df) ∧
  (is_Ok (marcar_estado_viento df) ↔ "wind_direction_degrees" ∈ columns df) ∧
  (marcar_estado_viento df = Raise (KeyError "wind_direction_degrees")
     ↔ "wind_direction_degrees" ∉ columns df).
Proof.
  intros _.
  unfold traducir_direccion_viento, traducir_condicion_cielo,
    marcar_estado_viento, copy.
  rewrite <- !getitem_Raise_iff, <- !getitem_Ok_iff.
  destruct (getitem df "wind_direction"), (getitem df "sky_condition"),
    (getitem df "wind_direction_degrees");
    cbn [mbind result_bind]; rewrite ?apply_estado; cbn; naive_solver.
Qed.

(** X7: the wind translator keeps the row labels and every column other
    than the two that it writes, and it is idempotent. *)
Theorem traducir_direccion_viento_conserva df out :
  traducir_direccion_viento df = Ok out →
  index out = index df ∧
  (∀ name, name ≠ "wind_direction_completo" → name ≠ "wind_direction_grados" →
     getitem out name = getitem df name) ∧
  traducir_direccion_viento out = Ok out.
Proof.
  unfold traducir_direccion_viento, copy.
  destruct (getitem df "wind_direction") as [s|] eqn:Hs; [|done].
  cbn [mbind result_bind]. intros [= <-]. split; [done|]. split.
  - intros name H1 H2. by rewrite !getitem_setitem_ne.
  - rewrite !getitem_setitem_ne, Hs by done. cbn [mbind result_bind]. f_equal.
    rewrite (setitem_same "wind_direction_completo").
    + apply setitem_same, getitem_setitem_eq.
    + rewrite getitem_setitem_ne by done. apply getitem_setitem_eq.
Qed.

(** X8: the sky translator keeps the row labels and every column other
    than the one that it writes, and it is idempotent. *)
Theorem traducir_condicion_cielo_conserva df out :
  traducir_condicion_cielo df = Ok out →
  index out = index df ∧
  (∀ name, name ≠ "sky_condition_ingles" → getitem out name = getitem df name) ∧
  traducir_condicion_cielo out = Ok out.
Proof.
  unfold traducir_condicion_cielo, copy.
  destruct (getitem df "sky_condition") as [s|] eqn:Hs; [|done].
  cbn [mbind result_bind]. intros [= <-]. split; [done|]. split.
  - intros name H1. by rewrite !getitem_setitem_ne.
  - rewrite !getitem_setitem_ne, Hs by done. cbn [mbind result_bind]. f_equal.
    apply setitem_same, getitem_setitem_eq.
Qed.

(** X9: the wind marker keeps the row labels and every column other than
    [wind_status]; the status of a row is [calm] if its degree is missing
    and [with wind] otherwise, one cell for each degree; and the marker is
    idempotent. *)
Theorem marcar_estado_viento_conserva df out :
  marcar_estado_viento df = Ok out →
  index out = index df ∧
  (∀ name, name ≠ "wind_status" → getitem out name = getitem df name) ∧
  (∃ g st,
     getitem df "wind_direction_degrees" = Ok g ∧
     getitem out "wind_status" = Ok st ∧
     length st = length g ∧
     ∀ i v, g !! i = Some v →
       st !! i = Some (VStr (if isna v then "calm" else "with wind"))) ∧
  marcar_estado_viento out = Ok out.
Proof.
  unfold marcar_estado_viento, copy.
  destruct (getitem df "wind_direction_degrees") as [g|] eqn:Hg; [|done].
  cbn [mbind result_bind]. rewrite apply_estado. cbn [mbind result_bind].
  intros [= <-]. split; [done|]. split; [|split].
  - intros name H1. by rewrite !getitem_setitem_ne.
  - eexists _, _. split; [done|]. split; [apply getitem_setitem_eq|].
    split; [by rewrite length_fmap|].
    intros i v Hi. by rewrite list_lookup_fmap, Hi.
  - rewrite !getitem_setitem_ne, Hg by done. cbn [mbind result_bind].
    rewrite apply_estado. cbn [mbind result_bind]. f_equal.
    apply setitem_same, getitem_setitem_eq.
Qed.

(** ** The converter *)

Lemma set_col_columns_in name s cols :
  name ∈ cols.*1 → (set_col name s cols).*1 = cols.*1.
Proof.
  induction cols as [|[n c] cols IH]; cbn.
  - by intros ?%elem_of_nil.
  - destruct (decide (n = name)) as [->|Hn]; [done|].
    intros [?|?]%elem_of_cons; [congruence|]. cbn. by rewrite IH.
Qed.

Lemma columns_setitem_in name s df :
  name ∈ columns df → columns (setitem name s df) = columns df.
Proof. apply set_col_columns_in. Qed.

Lemma getitem_Ok_in df name s : getitem df name = Ok s → name ∈ columns df.
Proof. intros H. apply getitem_Ok_iff. by rewrite H. Qed.

Lemma columns_setitem_getitem name s s' df :
  getitem df name = Ok s' → columns (setitem name s df) = columns df.
Proof. intros H. eapply columns_setitem_in, getitem_Ok_in, H. Qed.

Lemma apply_formato_hora_inv hc c :
  apply formato_hora hc = Ok c →
  ∃ hs, hc = VInt <$> hs ∧ c = (λ h, VStr (texto_hora h)) <$> hs.
Proof.
  intros H%mapM_Ok_Forall2. induction H as [|v w hc c Hv _ (hs & -> & ->)].
  - by exists [].
  - destruct v as [| | z | |]; try done. injection Hv as <-. by exists (z :: hs).
Qed.

Lemma apply_formato_hora hs :
  apply formato_hora (VInt <$> hs) = Ok ((λ h, VStr (texto_hora h)) <$> hs).
Proof. by apply mapM_fmap_Ok. Qed.

Ltac inv_bind H :=
  let a := fresh "c" in let Ha := fresh "Hc" in
  apply bind_Ok_inv in H as (a & Ha & H); cbv beta zeta in H.

(** X10: when the converter returns, the table has the same columns in the
    same order and the same row labels; every column other than the six
    that it converts is untouched; and the hours were integers, each now
    the text that the format code [02d] gives, followed by [:00]: the two
    digits of an hour from 0 to 99, and a longer or signed text for another
    integer, [123:00] for 123 and [-1:00] for -1. *)
Theorem convertir_tipos_datos_conserva df out :
  convertir_tipos_datos df = Ok out →
  columns out = columns df ∧ index out = index df ∧
  (∀ name,
     name ∉ ["date"; "hour"; "temperature"; "humidity"; "wind_speed";
             "wind_direction_grados"] →
     getitem out name = getitem df name) ∧
  ∃ hs, getitem df "hour" = Ok (VInt <$> hs) ∧
        getitem out "hour" = Ok ((λ h, VStr (texto_hora h)) <$> hs) ∧
        (∀ h, h ∈ hs → (0 ≤ h ≤ 99)%Z → field 2 (format_d 2 h) = Some h) ∧
        texto_hora 123 = "123:00" ∧ texto_hora (-1) = "-1:00".
Proof.
  unfold convertir_tipos_datos, copy. intros H.
  assert (∀ hs : list Z,
            (∀ h, h ∈ hs → (0 ≤ h ≤ 99)%Z → field 2 (format_d 2 h) = Some h) ∧
            texto_hora 123 = "123:00" ∧ texto_hora (-1) = "-1:00") as Htexto.
  { intros hs. split; [|by split].
    intros h _ Hh. by apply campo_field, campo_dos. }
  do 10 inv_bind H.
  apply apply_formato_hora_inv in Hc2 as (hs & -> & ->).
  assert (∃ out0, columns out0 = columns df ∧ index out0 = index df ∧
            (∀ name,
               name ∉ ["date"; "hour"; "temperature"; "humidity"; "wind_speed";
                       "wind_direction_grados"] →
               getitem out0 name = getitem df name) ∧
            getitem out0 "hour" = Ok ((λ h, VStr (texto_hora h)) <$> hs) ∧
            (if decide ("wind_direction_grados" ∈ columns out0)
             then c9 ← getitem out0 "wind_direction_grados";
                  c10 ← astype_float c9;
                  Ok (setitem "wind_direction_grados" c10 out0)
             else Ok out0) = Ok out) as (out0 & Hcols & Hidx & Hframe & Hhour & Hout).
  { eexists. split; [|split; [|split; [|split; [|exact H]]]].
    - repeat (erewrite columns_setitem_getitem by eassumption). done.
    - done.
    - intros name Hn. rewrite !not_elem_of_cons in Hn.
      destruct Hn as (? & ? & ? & ? & ? & _).
      rewrite !getitem_setitem_ne by congruence. done.
    - rewrite !getitem_setitem_ne by done. apply getitem_setitem_eq. }
  clear H. rewrite getitem_setitem_ne in Hc1 by done.
  case_decide as Hg.
  - do 2 inv_bind Hout. injection Hout as <-. split; [|split; [|split]].
    + by erewrite columns_setitem_getitem by eassumption.
    + done.
    + intros name Hn. rewrite getitem_setitem_ne; [by apply Hframe|].
      rewrite !not_elem_of_cons in Hn. destruct Hn as (_ & _ & _ & _ & _ & ? & _).
      congruence.
    + exists hs. split; [done|]. split; [by rewrite getitem_setitem_ne|].
      apply Htexto.
  - injection Hout as <-. split; [done|]. split; [done|]. split; [done|].
    exists hs. split; [done|]. split; [done|]. apply Htexto.
Qed.

(** X11: the converter refuses an hour that is not an integer.  When the
    dates are read and the hour column holds integers, texts and floats,
    with at least one text or float, the converter raises [ValueError]. *)
Theorem convertir_tipos_datos_hora_no_entera df dc d hc :
  getitem df "date" = Ok dc → to_datetime false dc = Ok d →
  getitem df "hour" = Ok hc →
  Forall (λ v, (∃ z, v = VInt z) ∨ no_entera v) hc → Exists no_entera hc →
  convertir_tipos_datos df = Raise ValueError.
Proof.
  intros Hdc Hd Hhc Hall Hex. unfold convertir_tipos_datos, copy.
  rewrite Hdc. cbn [mbind result_bind]. rewrite Hd. cbn [mbind result_bind].
  rewrite getitem_setitem_ne, Hhc by done. cbn [mbind result_bind].
  unfold apply. rewrite (mapM_Raise formato_hora ValueError); [done| |].
  - eapply Forall_impl; [exact Hall|]. intros v [[z ->]|Hv]; [by left|].
    right. by destruct v.
  - eapply Exists_impl; [exact Hex|]. intros v Hv. by destruct v.
Qed.

(** ** The unifier *)

Lemma unificar_fecha_hora_eq df d h :
  getitem df "date" = Ok d → getitem df "hour" = Ok h →
  unificar_fecha_hora df = t ← fecha_hora d h; Ok (setitem "datetime" t df).
Proof.
  intros Hd Hh. unfold unificar_fecha_hora, fecha_hora, copy.
  rewrite Hd. cbn [mbind result_bind].
  destruct (astype_str d) as [d1|]; cbn [mbind result_bind]; [|done].
  destruct (str_add_const d1 " ") as [d2|]; cbn [mbind result_bind]; [|done].
  rewrite Hh. cbn [mbind result_bind].
  destruct (astype_str h) as [h1|]; cbn [mbind result_bind]; [|done].
  destruct (str_add d2 h1) as [s|]; cbn [mbind result_bind]; [|done].
  done.
Qed.

(** X12: the unifier joins each day with its hour.  On a column of days at
    midnight and a column of hours from 0 to 23 written [HH:00], it adds
    the column [datetime] whose cell in each row is that day at that
    hour. *)
Theorem unificar_fecha_hora_une df ds hs :
  getitem df "date" = Ok (VTime <$> ds) →
  getitem df "hour" = Ok ((λ h, VStr (texto_hora h)) <$> hs) →
  Forall fecha ds → Forall hora hs →
  unificar_fecha_hora df
  = Ok (setitem "datetime" (zip_with (λ t h, VTime (a_la_hora t h)) ds hs) df).
Proof.
  intros Hd Hh Hds Hhs.
  by rewrite (unificar_fecha_hora_eq _ _ _ Hd Hh), fecha_hora_Ok.
Qed.

(** X13: an hour from 24 to 99 makes the unifier fail.  On a column of days
    and a column of hours written [HH:00], one for each day, an hour above
    23 raises [ValueError]. *)
Theorem unificar_fecha_hora_fuera_de_rango df ds hs :
  getitem df "date" = Ok (VTime <$> ds) →
  getitem df "hour" = Ok ((λ h, VStr (texto_hora h)) <$> hs) →
  Forall fecha ds → Forall (λ h, 0 ≤ h ≤ 99)%Z hs →
  length hs ≤ length ds → Exists (λ h, 23 < h)%Z hs →
  unificar_fecha_hora df = Raise ValueError.
Proof.
  intros Hd Hh Hds Hhs Hlen Hex.
  by rewrite (unificar_fecha_hora_eq _ _ _ Hd Hh), fecha_hora_ValueError.
Qed.

(** ** The outlier detector, again *)

Lemma lt_const_inv c s :
  match lt_const c s with
  | Ok m => numerica s ∧ m = bajo c <$> s
  | Raise e => e = TypeError ∧ ¬ numerica s
  end.
Proof.
  unfold lt_const, numerica. induction s as [|v s IH]; cbn; [by split|].
  destruct v as [|x|z|q|t]; cbn;
    try (split; [done|]; intros Hn; inversion Hn as [|?? [?|[? ?]]]; done);
    destruct (mapM _ s) as [m|e]; cbn;
    try (destruct IH as [IH ->]; split; [|done]; constructor; [|done]; eauto);
    try (destruct IH as [-> IH]; split; [done|]; intros Hn; apply IH;
         by inversion Hn).
Qed.

Lemma gt_const_inv c s :
  match gt_const c s with
  | Ok m => numerica s ∧ m = sobre c <$> s
  | Raise e => e = TypeError ∧ ¬ numerica s
  end.
Proof.
  unfold gt_const, numerica. induction s as [|v s IH]; cbn; [by split|].
  destruct v as [|x|z|q|t]; cbn;
    try (split; [done|]; intros Hn; inversion Hn as [|?? [?|[? ?]]]; done);
    destruct (mapM _ s) as [m|e]; cbn;
    try (destruct IH as [IH ->]; split; [|done]; constructor; [|done]; eauto);
    try (destruct IH as [-> IH]; split; [done|]; intros Hn; apply IH;
         by inversion Hn).
Qed.

Lemma detectar_outliers_eq df t h w :
  getitem df "temperature" = Ok t →
  getitem df "humidity" = Ok h →
  getitem df "wind_speed" = Ok w →
  detectar_outliers df =
  if decide (numerica t ∧ numerica h ∧ numerica w)
  then Ok (getitem_mask (mascara_atipicos t h w) df)
  else Raise TypeError.
Proof.
  intros Ht Hh Hw. unfold detectar_outliers. rewrite Ht, Hh, Hw.
  cbn [mbind result_bind].
  pose proof (lt_const_inv (-10) t) as H1. pose proof (gt_const_inv 50 t) as H2.
  pose proof (lt_const_inv 0 h) as H3. pose proof (gt_const_inv 100 h) as H4.
  pose proof (lt_const_inv 0 w) as H5.
  destruct (lt_const (-10) t); cbn [mbind result_bind];
    [|destruct H1 as [-> ?]; rewrite decide_False by tauto; done].
  destruct (gt_const 50 t); cbn [mbind result_bind];
    [|destruct H2 as [-> ?]; rewrite decide_False by tauto; done].
  destruct (lt_const 0 h); cbn [mbind result_bind];
    [|destruct H3 as [-> ?]; rewrite decide_False by tauto; done].
  destruct (gt_const 100 h); cbn [mbind result_bind];
    [|destruct H4 as [-> ?]; rewrite decide_False by tauto; done].
  destruct (lt_const 0 w); cbn [mbind result_bind];
    [|destruct H5 as [-> ?]; rewrite decide_False by tauto; done].
  destruct H1 as [? ->], H2 as [_ ->], H3 as [? ->], H4 as [_ ->], H5 as [? ->].
  by rewrite decide_True.
Qed.

(** X14: the detector is strict on the type of the measurements.  On a
    table with the three measurement columns it returns iff the three
    hold numbers and missing values only, and raises [TypeError]
    otherwise. *)
Theorem detectar_outliers_estricta df t h w :
  getitem df "temperature" = Ok t →
  getitem df "humidity" = Ok h →
  getitem df "wind_speed" = Ok w →
  (is_Ok (detectar_outliers df) ↔ numerica t ∧ numerica h ∧ numerica w) ∧
  (detectar_outliers df = Raise TypeError
     ↔ ¬ (numerica t ∧ numerica h ∧ numerica w)).
Proof.
  intros Ht Hh Hw. rewrite (detectar_outliers_eq _ _ _ _ Ht Hh Hw).
  case_decide; cbn; split; split; try done; tauto.
Qed.

Lemma select_self m : select m m = replicate (length (select m m)) true.
Proof.
  induction m as [|[] m IH]; cbn; [done| |done]. by rewrite <- IH.
Qed.

Lemma Forall_select {A : Type} (P : A → Prop) m l :
  Forall P l → Forall P (select m l).
Proof.
  intros H. revert m. induction H as [|x l Hx _ IH]; intros [|[] m]; cbn; auto.
Qed.

(** X15: the detector is idempotent: every row that it returns is returned
    again when it runs on its result. *)
Theorem detectar_outliers_idempotente df out :
  wf df → detectar_outliers df = Ok out → detectar_outliers out = Ok out.
Proof.
  intros Hwf Hout.
  destruct (getitem df "temperature") as [t|] eqn:Ht;
    [|by unfold detectar_outliers in Hout; rewrite Ht in Hout].
  destruct (getitem df "humidity") as [h|] eqn:Hh.
  2:{ unfold detectar_outliers in Hout. rewrite Ht, Hh in Hout.
      cbn [mbind result_bind] in Hout.
      destruct (lt_const (-10) t); cbn [mbind result_bind] in Hout; [|done].
      destruct (gt_const 50 t); cbn [mbind result_bind] in Hout; done. }
  destruct (getitem df "wind_speed") as [w|] eqn:Hw.
  2:{ unfold detectar_outliers in Hout. rewrite Ht, Hh, Hw in Hout.
      cbn [mbind result_bind] in Hout.
      destruct (lt_const (-10) t); cbn [mbind result_bind] in Hout; [|done].
      destruct (gt_const 50 t); cbn [mbind result_bind] in Hout; [|done].
      destruct (lt_const 0 h); cbn [mbind result_bind] in Hout; [|done].
      destruct (gt_const 100 h); cbn [mbind result_bind] in Hout; done. }
  rewrite (detectar_outliers_eq _ _ _ _ Ht Hh Hw) in Hout.
  case_decide as Hnum; [|done]. destruct Hnum as (Nt & Nh & Nw).
  injection Hout as <-.
  set (m := mascara_atipicos t h w).
  rewrite (detectar_outliers_eq _ (select m t) (select m h) (select m w))
    by (by apply getitem_getitem_mask).
  rewrite decide_True by (unfold numerica; auto using Forall_select).
  f_equal.
  assert (mascara_atipicos (select m t) (select m h) (select m w) = select m m)
    as ->.
  { unfold mascara_atipicos, mask_or.
    by rewrite <- !select_fmap, <- !select_zip_with. }
  rewrite select_self.
  assert (length (select m m) = length (index (getitem_mask m df))) as ->.
  { cbn [index getitem_mask]. apply length_select.
    pose proof (getitem_length _ _ _ Hwf Ht). pose proof (getitem_length _ _ _ Hwf Hh).
    pose proof (getitem_length _ _ _ Hwf Hw).
    unfold m, mascara_atipicos, mask_or.
    rewrite !length_zip_with, !length_fmap. lia. }
  apply getitem_mask_all, wf_getitem_mask, Hwf.
Qed.

(** ** The removal of duplicates, again *)

Lemma select_full {A : Type} m (l : list A) :
  length (select m l) = length l → select m l = l.
Proof.
  revert m. induction l as [|x l IH]; intros [|[] m]; cbn; try done.
  - intros [= H]. by rewrite IH.
  - intros H. pose proof (sublist_length _ _ (select_sublist m l)). lia.
Qed.

Lemma mask_sum_zero_NoDup {A : Type} `{EqDecision A} (seen l : list A) :
  mask_sum (mark_duplicates seen l) = 0 → NoDup l.
Proof.
  intros H0. pose proof (mask_sum_mark_duplicates seen l) as Hsum.
  rewrite <- (select_full (negb <$> mark_duplicates seen l) l) by lia.
  apply NoDup_keep.
Qed.

(** X16: on a table with at least one column, whose cells pandas compares
    as they are compared here, the count of duplicates is zero exactly
    when no two rows are equal, and the table is then returned as it
    is. *)
Theorem verificar_duplicados_cuenta_cero df :
  wf df → data df ≠ [] → comparable df →
  ((verificar_duplicados df).2 = 0 ↔ NoDup (rows df)) ∧
  ((verificar_duplicados df).2 = 0 → (verificar_duplicados df).1 = df).
Proof.
  intros Hwf Hdata _.
  assert ((verificar_duplicados df).2 = 0 → NoDup (rows df)) as Hzero.
  { unfold verificar_duplicados, duplicated, copy. cbn [snd].
    destruct (empty df) eqn:He.
    - intros _. unfold empty in He. apply orb_true_iff in He as [He|He].
      + apply bool_decide_eq_true_1 in He.
        pose proof (length_rows _ Hwf) as Hlen. rewrite He in Hlen.
        destruct (rows df); [constructor|done].
      + by apply bool_decide_eq_true_1 in He.
    - apply mask_sum_zero_NoDup. }
  split; [split; [done|]|].
  - intros Hnd. by rewrite (verificar_duplicados_NoDup _ Hwf Hnd).
  - intros H0. by rewrite (verificar_duplicados_NoDup _ Hwf (Hzero H0)).
Qed.

(** ** The pipeline, again *)

(** X17: the pipeline never reads the collection time.  On a raw table,
    replacing the column [timestamp] by any other changes neither the
    result nor the exception. *)
Theorem proceso_completo_limpieza_ignora_timestamp df ts :
  columns df = esquema_crudo →
  proceso_completo_limpieza (setitem "timestamp" ts df)
  = proceso_completo_limpieza df.
Proof.
  intros (dc & hc & tc & uc & wc & wd & sk & ts0 & ->)%raw_inv.
  change (setitem "timestamp" ts (tabla_cruda _ dc hc tc uc wc wd sk ts0))
    with (tabla_cruda (index (tabla_cruda (index df) dc hc tc uc wc wd sk ts0))
            dc hc tc uc wc wd sk ts).
  by rewrite !proceso_raw.
Qed.

(** The conversion to float rounds to the nearest double: a text with
    more digits than a double holds, one tenth, and an integer above
    [2 ^ 53]. *)
Example test_astype_float_redondea :
  astype_float [VStr "22.5"; VStr "22.500000000000000001"; VStr "0.1";
                VInt 9007199254740993]
  = Ok [VFloat (Q2Qc (45 # 2)); VFloat (Q2Qc (45 # 2));
        VFloat (Q2Qc (3602879701896397 # 36028797018963968));
        VFloat (Qc_of_Z 9007199254740992)].
Proof. by_compute. Qed.

(** X18: on a well-typed raw table the pipeline returns.  With ISO dates,
    integer hours from 0 to 23 and measurements that convert to floats,
    the result is the table of the timestamps, the converted
    measurements and the translations, without its repeated rows. *)
Theorem proceso_completo_limpieza_total idx ds hs tc uc wc t u w wd sk ts :
  Forall fecha ds → Forall hora hs →
  astype_float tc = Ok t → astype_float uc = Ok u → astype_float wc = Ok w →
  proceso_completo_limpieza
    (tabla_cruda idx ((λ d, VStr (iso_date d)) <$> ds) (VInt <$> hs)
       tc uc wc wd sk ts)
  = Ok (drop_duplicates
          (tabla_limpia idx (zip_with (λ d h, VTime (a_la_hora d h)) ds hs)
             t u w wd sk)).
Proof.
  intros Hds Hhs Ht Hu Hw.
  rewrite proceso_raw, to_datetime_iso, apply_formato_hora, Ht, Hu, Hw by done.
  cbn [mbind result_bind]. by rewrite fecha_hora_Ok.
Qed.

(** X19: an hour from 24 to 99 stops the pipeline.  On a raw table that is
    otherwise well typed, an hour above 23 raises [ValueError]. *)
Theorem proceso_completo_limpieza_hora_invalida idx ds hs tc uc wc t u w wd sk ts :
  Forall fecha ds → Forall (λ h, 0 ≤ h ≤ 99)%Z hs →
  length hs ≤ length ds → Exists (λ h, 23 < h)%Z hs →
  astype_float tc = Ok t → astype_float uc = Ok u → astype_float wc = Ok w →
  proceso_completo_limpieza
    (tabla_cruda idx ((λ d, VStr (iso_date d)) <$> ds) (VInt <$> hs)
       tc uc wc wd sk ts)
  = Raise ValueError.
Proof.
  intros Hds Hhs Hlen Hex Ht Hu Hw.
  rewrite proceso_raw, to_datetime_iso, apply_formato_hora, Ht, Hu, Hw by done.
  cbn [mbind result_bind]. by rewrite fecha_hora_ValueError.
Qed.

Lemma limpio_inv df :
  columns df = esquema_limpio →
  ∃ dt t u w wd g sk st,
    df = mkDF (index df)
           [("datetime", dt); ("temperature", t); ("humidity", u);
            ("wind_speed", w); ("wind_direction", wd);
            ("wind_direction_degrees", g); ("sky_condition", sk);
            ("wind_status", st)].
Proof.
  destruct df as [idx cols]. unfold columns, esquema_limpio. cbn [data index].
  intros H.
  repeat (destruct cols as [|[? ?] cols]; [done|]; cbn in H;
          injection H as <- H).
  destruct cols; [|done]. by eexists _, _, _, _, _, _, _, _.
Qed.

Lemma proceso_limpio df :
  columns df = esquema_limpio →
  proceso_completo_limpieza df = Raise (KeyError "timestamp").
Proof.
  intros (dt & t & u & w & wd & g & sk & st & ->)%limpio_inv. done.
Qed.

(** C6: a wind code outside N, NE, E, SE, S, SO, O, NO, C, or a sky phrase
    outside the translation table, raises nothing: the wind translator
    returns with a null name and a null degree on that row, the sky
    translator with a null English phrase; whether the whole pipeline
    returns does not depend on the codes and phrases of the table; and on
    a raw table with ISO dates, integer hours from 0 to 23 and
    measurements that convert to floats the pipeline returns whatever the
    codes and phrases are, each row of its result coming from a raw row of
    the same label and holding a null name and a null degree if the code
    of that row is unknown, a null phrase if its phrase is unknown. *)
Theorem traductores_toleran_desconocidos :
  (∀ df s, getitem df "wind_direction" = Ok s →
     ∃ df' nombres grados,
       traducir_direccion_viento df = Ok df' ∧
       getitem df' "wind_direction_completo" = Ok nombres ∧
       getitem df' "wind_direction_grados" = Ok grados ∧
       ∀ i v, s !! i = Some v →
         (∀ code, code ∈ codigos_viento → v ≠ VStr code) →
         nombres !! i = Some VNull ∧ grados !! i = Some VNull) ∧
  (∀ df s, getitem df "sky_condition" = Ok s →
     ∃ df' ingles,
       traducir_condicion_cielo df = Ok df' ∧
       getitem df' "sky_condition_ingles" = Ok ingles ∧
       ∀ i v, s !! i = Some v →
         (∀ frase, frase ∈ sky_condition_ingles.*1 → v ≠ VStr frase) →
         ingles !! i = Some VNull) ∧
  (∀ idx dc hc tc uc wc wd sk ts wd' sk',
     is_Ok (proceso_completo_limpieza (tabla_cruda idx dc hc tc uc wc wd sk ts)) →
     is_Ok (proceso_completo_limpieza (tabla_cruda idx dc hc tc uc wc wd' sk' ts))) ∧
  (∀ idx ds hs tc uc wc t u w wd sk ts,
     Forall fecha ds → Forall hora hs →
     astype_float tc = Ok t → astype_float uc = Ok u → astype_float wc = Ok w →
     length wd = length idx → length sk = length idx →
     ∃ out nombres grados frases,
       proceso_completo_limpieza
         (tabla_cruda idx ((λ d, VStr (iso_date d)) <$> ds) (VInt <$> hs)
            tc uc wc wd sk ts) = Ok out ∧
       getitem out "wind_direction" = Ok nombres ∧
       getitem out "wind_direction_degrees" = Ok grados ∧
       getitem out "sky_condition" = Ok frases ∧
       ∀ i ℓ, index out !! i = Some ℓ →
         ∃ j code frase,
           idx !! j = Some ℓ ∧ wd !! j = Some code ∧ sk !! j = Some frase ∧
           ((∀ c, c ∈ codigos_viento → code ≠ VStr c) →
              nombres !! i = Some VNull ∧ grados !! i = Some VNull) ∧
           ((∀ f, f ∈ sky_condition_ingles.*1 → frase ≠ VStr f) →
              frases !! i = Some VNull)).
Proof.
  split_and!.
  - intros df s Hs.
    destruct (traducir_direccion_viento_columns df s Hs) as (df' & Hrun & _ & Hn & Hg).
    eexists _, _, _. split_and!; [done..|].
    intros i v Hi Hv.
    destruct v as [|k| | |]; try by rewrite !lookup_map_dict, Hi.
    assert (k ∉ codigos_viento) as Hk by (intros Hk; by apply (Hv k)).
    rewrite !(lookup_map_dict_str _ _ _ _ Hi).
    rewrite (dict_get_unknown wind_direction_completo) by exact Hk.
    by rewrite (dict_get_unknown wind_direction_grados) by exact Hk.
  - intros df s Hs.
    destruct (traducir_condicion_cielo_columns df s Hs) as (df' & Hrun & _ & Hn).
    eexists _, _. split_and!; [done..|].
    intros i v Hi Hv.
    destruct v as [|k| | |]; try by rewrite lookup_map_dict, Hi.
    rewrite (lookup_map_dict_str _ _ _ _ Hi).
    rewrite dict_get_unknown; [done|]. intros Hk. by apply (Hv k).
  - intros idx dc hc tc uc wc wd sk ts wd' sk'.
    rewrite !proceso_raw. unfold is_Ok.
    destruct (to_datetime false dc); cbn; [|done].
    destruct (apply formato_hora hc); cbn; [|done].
    destruct (astype_float tc); cbn; [|done].
    destruct (astype_float uc); cbn; [|done].
    destruct (astype_float wc); cbn; [|done].
    destruct (fecha_hora _ _); cbn; done.
  - intros idx ds hs tc uc wc t u w wd sk ts Hds Hhs Ht Hu Hw Lwd Lsk.
    set (dt := zip_with (λ d h, VTime (a_la_hora d h)) ds hs).
    assert (proceso_completo_limpieza
              (tabla_cruda idx ((λ d, VStr (iso_date d)) <$> ds) (VInt <$> hs)
                 tc uc wc wd sk ts)
            = Ok (drop_duplicates (tabla_limpia idx dt t u w wd sk))) as Hrun.
    { rewrite proceso_raw, to_datetime_iso, apply_formato_hora, Ht, Hu, Hw by done.
      cbn [mbind result_bind]. by rewrite fecha_hora_Ok. }
    destruct (drop_duplicates_lookup (tabla_limpia idx dt t u w wd sk))
      as (f & Hidx & Hcol).
    destruct (Hcol "wind_direction" _ eq_refl) as (nombres & Hn & Hni).
    destruct (Hcol "wind_direction_degrees" _ eq_refl) as (grados & Hg & Hgi).
    destruct (Hcol "sky_condition" _ eq_refl) as (frases & Hf & Hfi).
    eexists _, nombres, grados, frases.
    split; [exact Hrun|]. split; [exact Hn|]. split; [exact Hg|].
    split; [exact Hf|].
    intros i ℓ Hi. rewrite Hidx in Hi.
    destruct (f i) as [j|] eqn:Hj; [|done]. cbn in Hi.
    destruct (lookup_lt_is_Some_2 wd j) as [code Hcode].
    { rewrite Lwd. by eapply lookup_lt_Some. }
    destruct (lookup_lt_is_Some_2 sk j) as [frase Hfrase].
    { rewrite Lsk. by eapply lookup_lt_Some. }
    exists j, code, frase. split; [exact Hi|]. split; [done|]. split; [done|].
    split.
    + intros Hunk. rewrite Hni, Hgi, Hj. cbn [mbind option_bind].
      destruct code as [|k| | |]; try by rewrite !lookup_map_dict, Hcode.
      assert (k ∉ codigos_viento) as Hk by (intros Hk; by apply (Hunk k)).
      rewrite !(lookup_map_dict_str _ _ _ _ Hcode).
      rewrite (dict_get_unknown wind_direction_completo) by exact Hk.
      by rewrite (dict_get_unknown wind_direction_grados) by exact Hk.
    + intros Hunk. rewrite Hfi, Hj. cbn [mbind option_bind].
      destruct frase as [|k| | |]; try by rewrite lookup_map_dict, Hfrase.
      rewrite (lookup_map_dict_str _ _ _ _ Hfrase).
      rewrite dict_get_unknown; [done|]. intros Hk. by apply (Hunk k).
Qed.

(** X20: the pipeline does not run on its own result.  The clean table of
    a raw table has no column [timestamp], and the pipeline raises
    [KeyError] on that name. *)
Theorem proceso_completo_limpieza_no_reejecutable df out :
  columns df = esquema_crudo →
  proceso_completo_limpieza df = Ok out →
  proceso_completo_limpieza out = Raise (KeyError "timestamp").
Proof.
  intros (dc & hc & tc & uc & wc & wd & sk & ts & ->)%raw_inv Hout.
  apply proceso_raw_Ok in Hout as (dt & t & u & w & ->).
  apply proceso_limpio. by rewrite columns_drop_duplicates.
Qed.

Lemma transpose_0 cols : transpose 0 cols = [].
Proof. induction cols as [|c cols IH]; cbn; [done|]. rewrite IH. by destruct c. Qed.

Lemma NoDup_rows_drop_duplicates df :
  data df ≠ [] → NoDup (rows (drop_duplicates df)).
Proof.
  intros Hdata. destruct (empty df) eqn:He.
  - unfold drop_duplicates. rewrite He. unfold copy.
    unfold empty in He. apply orb_true_iff in He as [He|He];
      apply bool_decide_eq_true_1 in He; [|done].
    unfold rows. rewrite He. cbn. rewrite transpose_0. constructor.
  - rewrite rows_drop_duplicates by done. apply NoDup_keep.
Qed.

Lemma drop_duplicates_select df :
  wf df →
  ∃ m, drop_duplicates df = getitem_mask m df.
Proof.
  intros Hwf. unfold drop_duplicates. destruct (empty df).
  - exists (replicate (length (index df)) true). by rewrite getitem_mask_all.
  - by eexists.
Qed.

Lemma index_drop_duplicates df :
  index (drop_duplicates df) `sublist_of` index df.
Proof.
  unfold drop_duplicates. destruct (empty df); [done|apply select_sublist].
Qed.

(** X21: the clean table of a raw table has no two equal rows, and its row
    labels are labels of the raw table, in their order; it has no more
    rows than the raw table and no repeated label unless the raw table
    has one. *)
Theorem proceso_completo_limpieza_sin_duplicados df out :
  columns df = esquema_crudo →
  proceso_completo_limpieza df = Ok out →
  NoDup (rows out) ∧
  index out `sublist_of` index df ∧
  length (index out) ≤ length (index df) ∧
  (NoDup (index df) → NoDup (index out)).
Proof.
  intros (dc & hc & tc & uc & wc & wd & sk & ts & ->)%raw_inv Hout.
  apply proceso_raw_Ok in Hout as (dt & t & u & w & ->).
  pose proof (index_drop_duplicates
                (tabla_limpia (index (tabla_cruda (index df) dc hc tc uc wc wd sk ts))
                   dt t u w wd sk)) as Hsub.
  split; [by apply NoDup_rows_drop_duplicates|].
  split; [done|]. split; [by apply sublist_length|].
  intros Hnd. by eapply sublist_NoDup.
Qed.

Lemma map_dict_values d s :
  Forall (λ v, v = VNull ∨ v ∈ d.*2) (map_dict d s).
Proof.
  unfold map_dict. apply Forall_fmap, Forall_true. intros v. cbn.
  destruct v as [|k| | |]; try by left.
  destruct (dict_get d k) as [x|] eqn:Hk; [|by left]. right. cbn.
  induction d as [|[k' x'] d IH]; [done|]. cbn in Hk.
  case_decide; [injection Hk as ->; left | right; by apply IH].
Qed.

Lemma getitem_drop_duplicates df name s :
  getitem df name = Ok s →
  ∃ m, getitem (drop_duplicates df) name = Ok (select m s).
Proof.
  intros Hs. unfold drop_duplicates. destruct (empty df).
  - exists (replicate (length s) true). by rewrite select_all.
  - eexists. by apply getitem_getitem_mask.
Qed.

(** X22: the clean table holds translated values only.  A wind direction
    is missing or one of the nine English names, a degree is missing or
    one of the degrees of the table, a sky condition is missing or one of
    the nine English phrases, and a wind status is [calm] or
    [with wind]. *)
Theorem proceso_completo_limpieza_valores df out :
  columns df = esquema_crudo →
  proceso_completo_limpieza df = Ok out →
  ∃ nombres grados frases estados,
    getitem out "wind_direction" = Ok nombres ∧
    getitem out "wind_direction_degrees" = Ok grados ∧
    getitem out "sky_condition" = Ok frases ∧
    getitem out "wind_status" = Ok estados ∧
    Forall (λ v, v = VNull ∨ v ∈ wind_direction_completo.*2) nombres ∧
    Forall (λ v, v = VNull ∨ v ∈ wind_direction_grados.*2) grados ∧
    Forall (λ v, v = VNull ∨ v ∈ sky_condition_ingles.*2) frases ∧
    Forall (λ v, v = VStr "calm" ∨ v = VStr "with wind") estados.
Proof.
  intros (dc & hc & tc & uc & wc & wd & sk & ts & ->)%raw_inv Hout.
  apply proceso_raw_Ok in Hout as (dt & t & u & w & ->).
  set (T := tabla_limpia _ dt t u w wd sk).
  destruct (getitem_drop_duplicates T "wind_direction" _ eq_refl) as [m1 H1].
  destruct (getitem_drop_duplicates T "wind_direction_degrees" _ eq_refl) as [m2 H2].
  destruct (getitem_drop_duplicates T "sky_condition" _ eq_refl) as [m3 H3].
  destruct (getitem_drop_duplicates T "wind_status" _ eq_refl) as [m4 H4].
  eexists _, _, _, _. split; [exact H1|]. split; [exact H2|].
  split; [exact H3|]. split; [exact H4|].
  split; [|split; [|split]]; apply Forall_select; try apply map_dict_values.
  apply Forall_fmap, Forall_true. intros v. cbn. destruct (isna v); auto.
Qed.

(** X23: a raw table without rows gives the clean table without rows: the
    eight columns of the clean schema, all empty. *)
Theorem proceso_completo_limpieza_tabla_vacia df :
  wf df → columns df = esquema_crudo → index df = [] →
  proceso_completo_limpieza df = Ok (mkDF [] ((λ n, (n, [])) <$> esquema_limpio)).
Proof.
  intros Hwf (dc & hc & tc & uc & wc & wd & sk & ts & Hdf)%raw_inv Hidx.
  rewrite Hdf in Hwf |- *. rewrite Hidx in *. clear Hdf Hidx.
  unfold wf, tabla_cruda in Hwf. cbn [data index] in Hwf.
  repeat match goal with
         | H : Forall _ (_ :: _) |- _ =>
             apply Forall_cons in H as [?%nil_length_inv H]
         end.
  cbn [snd] in *. by subst.
Qed.

Lemma proceso_raw_inv idx dc hc tc uc wc wd sk ts out :
  proceso_completo_limpieza (tabla_cruda idx dc hc tc uc wc wd sk ts) = Ok out →
  ∃ d h t u w dt,
    to_datetime false dc = Ok d ∧ apply formato_hora hc = Ok h ∧
    astype_float tc = Ok t ∧ astype_float uc = Ok u ∧ astype_float wc = Ok w ∧
    fecha_hora d h = Ok dt ∧
    out = drop_duplicates (tabla_limpia idx dt t u w wd sk).
Proof.
  rewrite proceso_raw. intros H. do 6 inv_bind H. injection H as <-.
  by eexists _, _, _, _, _, _.
Qed.

Lemma astype_float_numerica s t : astype_float s = Ok t → numerica t.
Proof.
  intros H%mapM_Ok_Forall2. unfold numerica.
  induction H as [|v v' s t Hv _ IH]; constructor; [|done].
  destruct v as [|x|z|q|ts]; unfold to_float in Hv.
  - simplify_eq. eauto.
  - destruct (parse_float x); simplify_eq. eauto.
  - destruct (nearest_double (inject_Z z)); simplify_eq. eauto.
  - simplify_eq. eauto.
  - done.
Qed.

(** X24: the outlier detector accepts every clean table: the three
    measurement columns of the result of the pipeline hold floats and
    missing values only, and the detector returns on it. *)
Theorem detectar_outliers_tras_limpieza df out :
  columns df = esquema_crudo →
  proceso_completo_limpieza df = Ok out →
  is_Ok (detectar_outliers out) ∧
  ∃ t u w,
    getitem out "temperature" = Ok t ∧ getitem out "humidity" = Ok u ∧
    getitem out "wind_speed" = Ok w ∧
    numerica t ∧ numerica u ∧ numerica w.
Proof.
  intros (dc & hc & tc & uc & wc & wd & sk & ts & ->)%raw_inv Hout.
  apply proceso_raw_inv in Hout
    as (d & h & t & u & w & dt & _ & _ & Ht & Hu & Hw & _ & ->).
  apply astype_float_numerica in Ht, Hu, Hw.
  set (T := tabla_limpia _ dt t u w wd sk).
  destruct (getitem_drop_duplicates T "temperature" _ eq_refl) as [m1 H1].
  destruct (getitem_drop_duplicates T "humidity" _ eq_refl) as [m2 H2].
  destruct (getitem_drop_duplicates T "wind_speed" _ eq_refl) as [m3 H3].
  assert (numerica (select m1 t) ∧ numerica (select m2 u) ∧ numerica (select m3 w))
    as Hnum by (unfold numerica; auto using Forall_select).
  split.
  - rewrite (detectar_outliers_eq _ _ _ _ H1 H2 H3). by rewrite decide_True.
  - by eexists _, _, _.
Qed.

(** ** Dates written day first *)

Lemma split_texto_dia_mes t :
  fecha t →
  split_on "/" (texto_dia_mes t)
  = [format_d 2 (ts_day t); format_d 2 (ts_month t); format_d 4 (ts_year t)].
Proof.
  intros (Hy & Hm & Hd)%fecha_campos.
  change (texto_dia_mes t) with
    (format_d 2 (ts_day t) +:+ String "/"
       (format_d 2 (ts_month t) +:+ String "/" (format_d 4 (ts_year t)))).
  rewrite split_on_app by (apply campo_sin; [done | by_compute]).
  rewrite split_on_app by (apply campo_sin; [done | by_compute]).
  by rewrite split_on_sin by (apply campo_sin; [done | by_compute]).
Qed.

Lemma fecha_rangos t :
  fecha t →
  (1 ≤ ts_month t ≤ 12)%Z ∧ (1 ≤ ts_day t ≤ 31)%Z ∧
  (28 ≤ days_in_month (ts_year t) (ts_month t))%Z.
Proof.
  intros (_ & Hd & _). unfold valid_date in Hd.
  apply andb_true_iff in Hd as [Hd H4]. apply andb_true_iff in Hd as [Hd H3].
  apply andb_true_iff in Hd as [H1 H2].
  apply Z.leb_le in H1, H2, H3, H4.
  assert (28 ≤ days_in_month (ts_year t) (ts_month t) ≤ 31)%Z.
  { unfold days_in_month. repeat case_match; lia. }
  lia.
Qed.

Lemma guess_texto_dia_mes t :
  fecha t →
  guess_datetime_format false (texto_dia_mes t)
  = Some (mkFmt (if bool_decide (12 < ts_day t)%Z then DayMonthYear
                 else MonthDayYear) "/" false).
Proof.
  intros Ht. unfold guess_datetime_format.
  rewrite split_texto_dia_mes by done.
  destruct (fecha_campos t Ht) as (Hy & Hm & Hd).
  rewrite !campo_field by done. cbn [mbind option_bind].
  do 2 f_equal. unfold resolve_ymd.
  destruct (fecha_rangos t Ht) as (_ & ? & _).
  rewrite (proj2 (Z.ltb_ge 31 (ts_day t))) by lia. cbn.
  rewrite orb_false_r. case_bool_decide.
  - by rewrite (proj2 (Z.ltb_lt 12 (ts_day t))).
  - by rewrite (proj2 (Z.ltb_ge 12 (ts_day t))) by lia.
Qed.

Lemma strptime_dia_primero t :
  fecha t →
  strptime (mkFmt DayMonthYear "/" false) (texto_dia_mes t) = Ok t.
Proof.
  intros Ht. unfold strptime, scan, read_date. cbn [fmt_time fmt_order fmt_sep].
  rewrite split_texto_dia_mes by done.
  destruct (fecha_campos t Ht) as (Hy & Hm & Hd).
  rewrite !campo_field by done. cbn [mbind option_bind].
  cbn [ts_year ts_month ts_day ts_hour ts_minute].
  destruct Ht as (-> & -> & Hmid). cbn. f_equal. by apply midnight_eq.
Qed.

Lemma strptime_mes_primero t :
  fecha t → (ts_day t ≤ 12)%Z →
  strptime (mkFmt MonthDayYear "/" false) (texto_dia_mes t) = Ok (mes_primero t).
Proof.
  intros Ht Hday. unfold strptime, scan, read_date.
  cbn [fmt_time fmt_order fmt_sep].
  rewrite split_texto_dia_mes by done.
  destruct (fecha_campos t Ht) as (Hy & Hm & Hd).
  rewrite !campo_field by done. cbn [mbind option_bind].
  cbn [ts_year ts_month ts_day ts_hour ts_minute].
  destruct (fecha_rangos t Ht) as (? & ? & _).
  destruct Ht as (-> & _ & _). cbn [negb].
  assert (valid_date (ts_year t) (ts_day t) (ts_month t) = true) as ->; [|done].
  unfold valid_date.
  assert (28 ≤ days_in_month (ts_year t) (ts_day t))%Z.
  { unfold days_in_month. repeat case_match; lia. }
  rewrite !andb_true_iff, !Z.leb_le. lia.
Qed.

Lemma to_datetime_primera s x fmt :
  guess_datetime_format false x = Some fmt →
  to_datetime false (VStr x :: s)
  = mapM (λ v, match v with
               | VNull => Ok VNull
               | VStr y => VTime <$> strptime fmt y
               | _ => Raise NotModelled
               end) (VStr x :: s).
Proof.
  intros Hg. unfold to_datetime. cbn [list_find].
  rewrite decide_True by done. cbn [fmap option_fmap option_map].
  by rewrite Hg.
Qed.

(** The dates of the collector, read by the converter. *)
Lemma to_datetime_dia_mes t ds :
  Forall fecha (t :: ds) →
  (Forall (λ d, 12 < ts_day d)%Z (t :: ds) →
   to_datetime false ((λ d, VStr (texto_dia_mes d)) <$> t :: ds)
   = Ok (VTime <$> t :: ds)) ∧
  (Forall (λ d, ts_day d ≤ 12)%Z (t :: ds) →
   to_datetime false ((λ d, VStr (texto_dia_mes d)) <$> t :: ds)
   = Ok ((λ d, VTime (mes_primero d)) <$> t :: ds)).
Proof.
  intros Hds. pose proof (Forall_inv Hds) as Ht.
  rewrite Forall_forall in Hds. split.
  - intros Hdays. rewrite fmap_cons.
    erewrite to_datetime_primera by (by apply guess_texto_dia_mes).
    rewrite bool_decide_eq_true_2 by (by apply Forall_inv in Hdays).
    apply (mapM_fmap_Ok _ (λ d, VStr (texto_dia_mes d)) VTime (t :: ds)).
    intros d Hd. by rewrite strptime_dia_primero by auto.
  - intros Hdays. rewrite fmap_cons.
    erewrite to_datetime_primera by (by apply guess_texto_dia_mes).
    rewrite bool_decide_eq_false_2 by (apply Forall_inv in Hdays; lia).
    apply (mapM_fmap_Ok _ (λ d, VStr (texto_dia_mes d))
             (λ d, VTime (mes_primero d)) (t :: ds)).
    intros d Hd. rewrite Forall_forall in Hdays.
    by rewrite strptime_mes_primero by auto.
Qed.

Lemma convertir_tipos_datos_date df out :
  convertir_tipos_datos df = Ok out →
  ∃ dc d, getitem df "date" = Ok dc ∧ to_datetime false dc = Ok d ∧
          getitem out "date" = Ok d.
Proof.
  unfold convertir_tipos_datos, copy. intros H.
  do 10 inv_bind H. exists c, c0. split; [done|]. split; [done|].
  case_decide.
  - do 2 inv_bind H. injection H as <-.
    rewrite !getitem_setitem_ne by done. apply getitem_setitem_eq.
  - injection H as <-.
    rewrite !getitem_setitem_ne by done. apply getitem_setitem_eq.
Qed.

(** X25: a column of dates written day first, as the collector writes them.
    When every day of the month is above 12 the converter reads each date
    as written; when every day is 12 or below it reads each date with the
    day and the month exchanged. *)
Theorem convertir_tipos_datos_dia_mes df out t ds :
  convertir_tipos_datos df = Ok out →
  getitem df "date" = Ok ((λ d, VStr (texto_dia_mes d)) <$> t :: ds) →
  Forall fecha (t :: ds) →
  (Forall (λ d, 12 < ts_day d)%Z (t :: ds) →
   getitem out "date" = Ok (VTime <$> t :: ds)) ∧
  (Forall (λ d, ts_day d ≤ 12)%Z (t :: ds) →
   getitem out "date" = Ok ((λ d, VTime (mes_primero d)) <$> t :: ds)).
Proof.
  intros (dc & d & Hdc & Hd & Hout)%convertir_tipos_datos_date Hdate Hds.
  assert (dc = (λ d, VStr (texto_dia_mes d)) <$> t :: ds) as -> by congruence.
  destruct (to_datetime_dia_mes t ds Hds) as [H1 H2].
  split; intros H; [rewrite H1 in Hd by done | rewrite H2 in Hd by done];
    by injection Hd as <-.
Qed.

(** X26: the pipeline does not depend on the place of the sky, wind
    direction and wind speed columns.  On the table that the collector
    builds, whose columns stand in the order date, hour, temperature,
    humidity, sky condition, wind direction, wind speed, timestamp, it
    returns, or raises, what it does on the table of the same columns in
    the order of the raw schema. *)
Theorem proceso_completo_limpieza_orden_recolector idx dc hc tc uc sk wd wc ts :
  proceso_completo_limpieza (tabla_recolector idx dc hc tc uc sk wd wc ts)
  = proceso_completo_limpieza (tabla_cruda idx dc hc tc uc wc wd sk ts).
Proof.
  unfold tabla_recolector, tabla_cruda. red_pipeline.
  destruct (to_datetime false dc) as [d|e]; [|reflexivity].
  destruct (apply formato_hora hc) as [h|e]; [|reflexivity].
  destruct (astype_float tc) as [t|e]; [|reflexivity].
  destruct (astype_float uc) as [u|e]; [|reflexivity].
  destruct (astype_float wc) as [w|e]; [|reflexivity].
  destruct (astype_float (map_dict wind_direction_grados wd)) as [g|e]; [|reflexivity].
  destruct (astype_str d) as [ds|e]; [|reflexivity].
  destruct (str_add_const ds " ") as [ds'|e]; [|reflexivity].
  destruct (astype_str h) as [hs|e]; [|reflexivity].
  destruct (str_add ds' hs) as [s|e]; [|reflexivity].
  destruct (to_datetime false s) as [dt|e]; [|reflexivity].
  destruct (apply estado g) as [st|e]; reflexivity.
Qed.


(** ** The further theorems on the sample tables *)

Lemma eliminar_columnas_innecesarias_estricta_ejemplo :
  ∃ l,
    eliminar_columnas_innecesarias datos_prueba ["timestamp"; "unique_id"]
      = Raise (KeyError l) ∧
    l ∉ columns datos_prueba.
Proof.
  pose proof (eliminar_columnas_innecesarias_estricta datos_prueba
                ["timestamp"; "unique_id"]) as H.
  change (eliminar_columnas_innecesarias datos_prueba ["timestamp"; "unique_id"])
    with (@Raise DataFrame (KeyError "unique_id")) in H.
  destruct H as (l & Hl & _ & Hno). exists l. split; [by rewrite <- Hl | exact Hno].
Defined.

Lemma eliminar_columnas_innecesarias_dos_veces_ejemplo :
  eliminar_columnas_innecesarias datos_prueba ["timestamp"] = Ok datos_sin_timestamp ∧
  eliminar_columnas_innecesarias datos_sin_timestamp ["timestamp"]
    = Raise (KeyError "timestamp").
Proof.
  assert (eliminar_columnas_innecesarias datos_prueba ["timestamp"]
          = Ok datos_sin_timestamp) as Hrun by reflexivity.
  split; [done|].
  exact (eliminar_columnas_innecesarias_dos_veces _ _ _ _ Hrun).
Defined.

Lemma eliminar_columnas_innecesarias_compone_ejemplo :
  eliminar_columnas_innecesarias datos_prueba ["timestamp"] = Ok datos_sin_timestamp ∧
  eliminar_columnas_innecesarias datos_sin_timestamp ["date"; "hour"]
    = Ok datos_sin_fecha ∧
  eliminar_columnas_innecesarias datos_prueba ["timestamp"; "date"; "hour"]
    = Ok datos_sin_fecha.
Proof.
  assert (eliminar_columnas_innecesarias datos_prueba ["timestamp"]
          = Ok datos_sin_timestamp) as H1 by reflexivity.
  assert (eliminar_columnas_innecesarias datos_sin_timestamp ["date"; "hour"]
          = Ok datos_sin_fecha) as H2 by reflexivity.
  split_and!; [done..|].
  exact (eliminar_columnas_innecesarias_compone _ _ _ _ _ H1 H2).
Defined.

Lemma normalizar_nombres_columnas_clave_mayuscula_ejemplo :
  normalizar_nombres_columnas nombres_mixtos (Some [("TEMPERATURA", "temp")])
  = normalizar_nombres_columnas nombres_mixtos None.
Proof.
  apply normalizar_nombres_columnas_clave_mayuscula.
  by_compute.
Defined.

Lemma normalizar_nombres_columnas_idempotente_ejemplo :
  normalizar_nombres_columnas nombres_mixtos None = Ok nombres_minusculas ∧
  normalizar_nombres_columnas nombres_minusculas None = Ok nombres_minusculas.
Proof.
  assert (normalizar_nombres_columnas nombres_mixtos None = Ok nombres_minusculas)
    as Hrun by reflexivity.
  split; [done|].
  exact (normalizar_nombres_columnas_idempotente _ _ Hrun).
Defined.

Lemma etapas_exigen_su_columna_ejemplo :
  NoDup (columns grados_prueba) ∧
  traducir_direccion_viento grados_prueba = Raise (KeyError "wind_direction") ∧
  is_Ok (marcar_estado_viento grados_prueba).
Proof.
  assert (NoDup (columns grados_prueba)) as Hnd by by_compute.
  split; [done|].
  destruct (etapas_exigen_su_columna grados_prueba Hnd) as (_ & H2 & _ & _ & H5 & _).
  split; [apply H2 | apply H5]; by_compute.
Defined.

Lemma traducir_direccion_viento_conserva_ejemplo :
  ∃ out,
    traducir_direccion_viento datos_prueba = Ok out ∧
    getitem out "temperature" = getitem datos_prueba "temperature" ∧
    traducir_direccion_viento out = Ok out.
Proof.
  eexists. split; [reflexivity|].
  destruct (traducir_direccion_viento_conserva datos_prueba _ eq_refl)
    as (_ & Hframe & Hidem).
  split; [by apply Hframe | exact Hidem].
Defined.

Lemma traducir_condicion_cielo_conserva_ejemplo :
  ∃ out,
    traducir_condicion_cielo datos_prueba = Ok out ∧
    getitem out "temperature" = getitem datos_prueba "temperature" ∧
    traducir_condicion_cielo out = Ok out.
Proof.
  eexists. split; [reflexivity|].
  destruct (traducir_condicion_cielo_conserva datos_prueba _ eq_refl)
    as (_ & Hframe & Hidem).
  split; [by apply Hframe | exact Hidem].
Defined.

Lemma marcar_estado_viento_conserva_ejemplo :
  ∃ out,
    marcar_estado_viento grados_prueba = Ok out ∧
    index out = [0; 1; 2; 3]%Z ∧
    marcar_estado_viento out = Ok out.
Proof.
  eexists. split; [reflexivity|].
  destruct (marcar_estado_viento_conserva grados_prueba _ eq_refl)
    as (Hidx & _ & _ & Hidem).
  split; [exact Hidx | exact Hidem].
Defined.

Lemma convertir_tipos_datos_conserva_ejemplo :
  ∃ out,
    convertir_tipos_datos datos_prueba = Ok out ∧
    columns out = esquema_crudo ∧
    getitem out "sky_condition" = getitem datos_prueba "sky_condition" ∧
    ∃ hs, getitem datos_prueba "hour" = Ok (VInt <$> hs) ∧
          getitem out "hour" = Ok ((λ h, VStr (texto_hora h)) <$> hs).
Proof.
  assert (is_Ok (convertir_tipos_datos datos_prueba)) as Hok
    by (vm_compute; exact I).
  destruct (is_Ok_inv _ Hok) as [out Hrun].
  exists out. split; [exact Hrun|].
  destruct (convertir_tipos_datos_conserva _ _ Hrun)
    as (Hcols & _ & Hframe & hs & Hh & Hout & _).
  split; [exact Hcols|]. split; [apply Hframe; by_compute|].
  exists hs. split; [exact Hh | exact Hout].
Defined.

Lemma convertir_tipos_datos_hora_no_entera_ejemplo :
  convertir_tipos_datos
    (datos_con_horas [VStr "8"; VStr "9"; VStr "8"; VStr "9"])
  = Raise ValueError.
Proof.
  apply (convertir_tipos_datos_hora_no_entera _
           [VStr "2025-02-18"; VStr "2025-02-18"; VStr "2025-02-19";
            VStr "2025-02-19"]
           (VTime <$> dias_prueba)
           [VStr "8"; VStr "9"; VStr "8"; VStr "9"]).
  - reflexivity.
  - by_compute.
  - reflexivity.
  - repeat constructor; right; exact I.
  - left. exact I.
Defined.

Lemma fecha_dias_prueba : Forall fecha dias_prueba.
Proof. repeat constructor. Qed.

Lemma unificar_fecha_hora_une_ejemplo :
  unificar_fecha_hora (fechas_convertidas horas_prueba)
  = Ok (setitem "datetime"
          [VTime (mkTs 2025 2 18 8 0 0); VTime (mkTs 2025 2 18 9 0 0);
           VTime (mkTs 2025 2 19 8 0 0); VTime (mkTs 2025 2 19 9 0 0)]
          (fechas_convertidas horas_prueba)).
Proof.
  apply (unificar_fecha_hora_une (fechas_convertidas horas_prueba)
           dias_prueba horas_prueba).
  - reflexivity.
  - reflexivity.
  - exact fecha_dias_prueba.
  - unfold hora. repeat constructor; lia.
Defined.

Lemma unificar_fecha_hora_fuera_de_rango_ejemplo :
  unificar_fecha_hora (fechas_convertidas [8; 24; 8; 9]%Z) = Raise ValueError.
Proof.
  apply (unificar_fecha_hora_fuera_de_rango _ dias_prueba [8; 24; 8; 9]%Z).
  - reflexivity.
  - reflexivity.
  - exact fecha_dias_prueba.
  - repeat constructor; lia.
  - cbn. lia.
  - right. left. lia.
Defined.

Lemma detectar_outliers_estricta_ejemplo :
  getitem datos_prueba "temperature"
    = Ok [VStr "22.5"; VStr "23.0"; VStr "21.5"; VStr "22.0"] ∧
  detectar_outliers datos_prueba = Raise TypeError.
Proof.
  split; [reflexivity|].
  apply (detectar_outliers_estricta datos_prueba _ _ _ eq_refl eq_refl eq_refl).
  intros [Ht _]. apply Forall_inv in Ht. by destruct Ht as [|[]].
Defined.

Lemma detectar_outliers_idempotente_ejemplo :
  wf df_outliers ∧
  detectar_outliers df_outliers
    = Ok (getitem_mask [false; true; true; false] df_outliers) ∧
  detectar_outliers (getitem_mask [false; true; true; false] df_outliers)
    = Ok (getitem_mask [false; true; true; false] df_outliers).
Proof.
  assert (wf df_outliers) as Hwf by (unfold wf; by_compute).
  assert (detectar_outliers df_outliers
          = Ok (getitem_mask [false; true; true; false] df_outliers))
    as Hrun by by_compute.
  split_and!; [done..|].
  exact (detectar_outliers_idempotente _ _ Hwf Hrun).
Defined.

Lemma verificar_duplicados_cuenta_cero_ejemplo :
  wf datos_prueba ∧ data datos_prueba ≠ [] ∧ comparable datos_prueba ∧
  ((verificar_duplicados datos_prueba).2 = 0 ↔ NoDup (rows datos_prueba)).
Proof.
  assert (wf datos_prueba) as Hwf by (unfold wf; by_compute).
  assert (data datos_prueba ≠ []) as Hcols by done.
  assert (comparable datos_prueba) as Hcmp.
  { split; [by_compute|]. intros name c Hc. discriminate Hc. }
  split_and!; [done..|].
  exact (proj1 (verificar_duplicados_cuenta_cero _ Hwf Hcols Hcmp)).
Defined.

Lemma proceso_completo_limpieza_ignora_timestamp_ejemplo :
  columns datos_prueba = esquema_crudo ∧
  proceso_completo_limpieza
    (setitem "timestamp" [VNull; VNull; VNull; VNull] datos_prueba)
  = proceso_completo_limpieza datos_prueba.
Proof.
  assert (columns datos_prueba = esquema_crudo) as Hcols by reflexivity.
  split; [done|].
  exact (proceso_completo_limpieza_ignora_timestamp _ _ Hcols).
Defined.

Lemma proceso_completo_limpieza_total_ejemplo :
  proceso_completo_limpieza datos_prueba
  = Ok (drop_duplicates
          (tabla_limpia [0; 1; 2; 3]%Z
             [VTime (mkTs 2025 2 18 8 0 0); VTime (mkTs 2025 2 18 9 0 0);
              VTime (mkTs 2025 2 19 8 0 0); VTime (mkTs 2025 2 19 9 0 0)]
             temperaturas_prueba humedades_prueba vientos_prueba
             [VStr "N"; VStr "NE"; VStr "S"; VStr "SO"]
             [VStr "Despejado"; VStr "Poco nuboso"; VStr "Nuboso"; VStr "Cubierto"])).
Proof.
  apply (proceso_completo_limpieza_total [0; 1; 2; 3]%Z dias_prueba horas_prueba).
  - exact fecha_dias_prueba.
  - unfold hora. repeat constructor; lia.
  - by_compute.
  - by_compute.
  - by_compute.
Defined.

Lemma proceso_completo_limpieza_hora_invalida_ejemplo :
  proceso_completo_limpieza
    (datos_con_horas [VInt 8; VInt 24; VInt 8; VInt 9])
  = Raise ValueError.
Proof.
  apply (proceso_completo_limpieza_hora_invalida [0; 1; 2; 3]%Z dias_prueba
           [8; 24; 8; 9]%Z _ _ _
           temperaturas_prueba humedades_prueba vientos_prueba).
  - exact fecha_dias_prueba.
  - repeat constructor; lia.
  - cbn. lia.
  - right. left. lia.
  - by_compute.
  - by_compute.
  - by_compute.
Defined.

Lemma traductores_toleran_desconocidos_ejemplo :
  getitem fila_codigo_desconocido "wind_direction" = Ok [VStr "X"] ∧
  (∃ df' nombres grados,
     traducir_direccion_viento fila_codigo_desconocido = Ok df' ∧
     getitem df' "wind_direction_completo" = Ok nombres ∧
     getitem df' "wind_direction_grados" = Ok grados ∧
     nombres !! 0 = Some VNull ∧ grados !! 0 = Some VNull) ∧
  ∃ out nombres grados frases,
    proceso_completo_limpieza fila_codigo_desconocido = Ok out ∧
    getitem out "wind_direction" = Ok nombres ∧
    getitem out "wind_direction_degrees" = Ok grados ∧
    getitem out "sky_condition" = Ok frases ∧
    index out = [0%Z] ∧
    nombres !! 0 = Some VNull ∧ grados !! 0 = Some VNull ∧
    frases !! 0 = Some VNull.
Proof.
  assert (getitem fila_codigo_desconocido "wind_direction" = Ok [VStr "X"])
    as Hs by reflexivity.
  assert (∀ code, code ∈ codigos_viento → VStr "X" ≠ VStr code) as Hx.
  { intros code Hcode [= <-]. revert Hcode. apply (bool_decide_unpack _). by vm_compute. }
  assert (∀ f, f ∈ sky_condition_ingles.*1 → VStr "Niebla" ≠ VStr f) as Hniebla.
  { intros f Hf [= <-]. revert Hf. apply (bool_decide_unpack _). by vm_compute. }
  split; [done|]. split.
  - destruct (proj1 traductores_toleran_desconocidos _ _ Hs)
      as (df' & nombres & grados & Hrun & Hn & Hg & Hnull).
    exists df', nombres, grados.
    split; [exact Hrun|]. split; [exact Hn|]. split; [exact Hg|].
    exact (Hnull 0 (VStr "X") eq_refl Hx).
  - destruct (proj2 (proj2 (proj2 traductores_toleran_desconocidos))
                [0%Z] [mkTs 2025 2 18 0 0 0] [8%Z]
                [VStr "22.5"] [VStr "65"] [VStr "10"]
                [VFloat (Q2Qc (45 # 2))] [VFloat (Qc_of_Z 65)] [VFloat (Qc_of_Z 10)]
                [VStr "X"] [VStr "Niebla"] [VStr "2025-02-18 08:15:00"])
      as (out & nombres & grados & frases & Hrun & Hn & Hg & Hf & Hrows).
    + repeat constructor.
    + unfold hora. repeat constructor; lia.
    + by_compute.
    + by_compute.
    + by_compute.
    + reflexivity.
    + reflexivity.
    + assert (out = fila_codigo_desconocido_limpia) as Hout.
      { pose proof proceso_fila_codigo_desconocido as Hfila.
        change fila_codigo_desconocido
          with (tabla_cruda [0%Z]
                  ((λ d, VStr (iso_date d)) <$> [mkTs 2025 2 18 0 0 0])
                  (VInt <$> [8%Z]) [VStr "22.5"] [VStr "65"] [VStr "10"]
                  [VStr "X"] [VStr "Niebla"] [VStr "2025-02-18 08:15:00"]) in Hfila.
        rewrite Hfila in Hrun. by injection Hrun. }
      exists out, nombres, grados, frases.
      split; [exact Hrun|]. split; [exact Hn|]. split; [exact Hg|].
      split; [exact Hf|].
      assert (index out = [0%Z]) as Hidx by (by rewrite Hout).
      split; [exact Hidx|].
      destruct (Hrows 0 0%Z) as (j & code & frase & Hj & Hcode & Hfrase & Hw & Hk).
      { by rewrite Hidx. }
      destruct j as [|j]; [|by destruct j].
      injection Hcode as <-. injection Hfrase as <-.
      destruct (Hw Hx) as [? ?]. split; [done|]. split; [done|]. exact (Hk Hniebla).
Defined.

Lemma proceso_completo_limpieza_no_reejecutable_ejemplo :
  columns fila_18_febrero = esquema_crudo ∧
  proceso_completo_limpieza fila_18_febrero = Ok fila_18_febrero_limpia ∧
  proceso_completo_limpieza fila_18_febrero_limpia = Raise (KeyError "timestamp").
Proof.
  assert (columns fila_18_febrero = esquema_crudo) as Hcols by reflexivity.
  assert (proceso_completo_limpieza fila_18_febrero = Ok fila_18_febrero_limpia)
    as Hrun by by_compute.
  split_and!; [done..|].
  exact (proceso_completo_limpieza_no_reejecutable _ _ Hcols Hrun).
Defined.

Lemma proceso_completo_limpieza_sin_duplicados_ejemplo :
  columns datos_con_duplicados = esquema_crudo ∧
  ∃ out,
    proceso_completo_limpieza datos_con_duplicados = Ok out ∧
    NoDup (rows out) ∧
    index out `sublist_of` [0; 1; 2; 3; 0; 2]%Z.
Proof.
  assert (columns datos_con_duplicados = esquema_crudo) as Hcols by reflexivity.
  split; [done|].
  assert (is_Ok (proceso_completo_limpieza datos_con_duplicados)) as Hok
    by (vm_compute; exact I).
  destruct (is_Ok_inv _ Hok) as [out Hrun].
  exists out. split; [exact Hrun|].
  destruct (proceso_completo_limpieza_sin_duplicados _ _ Hcols Hrun)
    as (Hnd & Hsub & _).
  by split.
Defined.

Lemma proceso_completo_limpieza_valores_ejemplo :
  columns fila_18_febrero = esquema_crudo ∧
  proceso_completo_limpieza fila_18_febrero = Ok fila_18_febrero_limpia ∧
  ∃ nombres estados,
    getitem fila_18_febrero_limpia "wind_direction" = Ok nombres ∧
    getitem fila_18_febrero_limpia "wind_status" = Ok estados ∧
    Forall (λ v, v = VNull ∨ v ∈ wind_direction_completo.*2) nombres ∧
    Forall (λ v, v = VStr "calm" ∨ v = VStr "with wind") estados.
Proof.
  assert (columns fila_18_febrero = esquema_crudo) as Hcols by reflexivity.
  assert (proceso_completo_limpieza fila_18_febrero = Ok fila_18_febrero_limpia)
    as Hrun by by_compute.
  split_and!; [done..|].
  destruct (proceso_completo_limpieza_valores _ _ Hcols Hrun)
    as (nombres & grados & frases & estados & H1 & _ & _ & H4 & F1 & _ & _ & F4).
  exists nombres, estados.
  split; [exact H1|]. split; [exact H4|]. split; [exact F1|exact F4].
Defined.

Lemma proceso_completo_limpieza_tabla_vacia_ejemplo :
  wf tabla_sin_filas ∧ columns tabla_sin_filas = esquema_crudo ∧
  proceso_completo_limpieza tabla_sin_filas
  = Ok (mkDF [] ((λ n, (n, [])) <$> esquema_limpio)).
Proof.
  assert (wf tabla_sin_filas) as Hwf by (unfold wf; by_compute).
  assert (columns tabla_sin_filas = esquema_crudo) as Hcols by reflexivity.
  split_and!; [done..|].
  exact (proceso_completo_limpieza_tabla_vacia _ Hwf Hcols eq_refl).
Defined.

Lemma detectar_outliers_tras_limpieza_ejemplo :
  columns fila_18_febrero = esquema_crudo ∧
  proceso_completo_limpieza fila_18_febrero = Ok fila_18_febrero_limpia ∧
  is_Ok (detectar_outliers fila_18_febrero_limpia).
Proof.
  assert (columns fila_18_febrero = esquema_crudo) as Hcols by reflexivity.
  assert (proceso_completo_limpieza fila_18_febrero = Ok fila_18_febrero_limpia)
    as Hrun by by_compute.
  split_and!; [done..|].
  exact (proj1 (detectar_outliers_tras_limpieza _ _ Hcols Hrun)).
Defined.

Lemma convertir_tipos_datos_dia_mes_ejemplo :
  getitem fila_5_febrero "date" = Ok [VStr "05/02/2025"] ∧
  ∃ out,
    convertir_tipos_datos fila_5_febrero = Ok out ∧
    getitem out "date" = Ok [VTime (mkTs 2025 5 2 0 0 0)].
Proof.
  split; [reflexivity|].
  assert (is_Ok (convertir_tipos_datos fila_5_febrero)) as Hok
    by (vm_compute; exact I).
  destruct (is_Ok_inv _ Hok) as [out Hrun].
  exists out. split; [exact Hrun|].
  refine (proj2 (convertir_tipos_datos_dia_mes _ _ (mkTs 2025 2 5 0 0 0) []
                   Hrun eq_refl _) _).
  - repeat constructor.
  - repeat constructor. cbn. lia.
Defined.

Lemma proceso_completo_limpieza_orden_recolector_ejemplo :
  proceso_completo_limpieza
    (tabla_recolector [0%Z]
       [VStr "18/02/2025"] [VInt 8] [VStr "22.5"] [VStr "65"]
       [VStr "Despejado"] [VStr "N"] [VStr "10"] [VStr "18/02/2025 08:15:00"])
  = proceso_completo_limpieza fila_18_febrero.
Proof. exact (proceso_completo_limpieza_orden_recolector _ _ _ _ _ _ _ _ _). Defined.
